(** * market_momentum: indicator analyzers, score table, position selector
      and backtest simulator

    A shallow embedding of [src/scripts/indicators.py] and
    [src/scripts/backtesting_stock_analysis.py].

    - Prices, volumes, indicator values and money are Python floats, that is
      IEEE-754 binary64: they are Rocq's primitive [float], so NaN, the
      infinities and division by zero behave as they do in the source.
    - Dates are day numbers in [Z]; [timedelta(days=n)] is the addition of [n].
    - A pandas DataFrame of price bars is the list of its rows.  The price
      histories are date-indexed with strictly increasing dates (the
      repository's CSV files), so a label slice [.loc[a:b]] is the sub-list of
      the rows whose date is in the closed range.
    - Exceptions are explicit: fallible code returns [result].
    - The [ta] package and pandas' rolling mean and sort are external
      libraries: they are taken as parameters of the development.
    - Of what the scripts print, the error lines of the score table builder
      are kept; the progress bars, the other prints, the parsing of the CSV
      files and of the command line are left out. *)

From Stdlib Require Import ZArith List String Bool Lia Floats Permutation
  Sorted.
From Stdlib Require Ascii.
Import ListNotations.

Set Implicit Arguments.

Local Open Scope Z_scope.

(** ** Exceptions *)

Inductive exn : Type :=
| IndexError
| KeyError
| ZeroDivisionError
| UnboundLocalError
| LibraryError (code : nat).

Inductive result (A : Type) : Type :=
| Ok (a : A)
| Raise (e : exn).

Arguments Ok {A} a.
Arguments Raise {A} e.

Definition bind {A B} (m : result A) (k : A -> result B) : result B :=
  match m with
  | Ok a => k a
  | Raise e => Raise e
  end.

Declare Scope result_scope.
Delimit Scope result_scope with result.
Notation "x <- m ;; k" := (bind m (fun x => k))
  (at level 61, m at next level, right associativity) : result_scope.
Notation "' p <- m ;; k" := (bind m (fun x => let p := x in k))
  (at level 61, p pattern, m at next level, right associativity) : result_scope.
Local Open Scope result_scope.

Definition returns {A} (m : result A) : Prop := exists a, m = Ok a.

(** Python's short-circuit [and] over conditions that may raise. *)
Definition and_then (c1 c2 : result bool) : result bool :=
  b <- c1 ;; if b then c2 else Ok false.

(** ** Floats *)

Definition fgt (x y : float) : bool := (y <? x)%float.
Definition flt (x y : float) : bool := (x <? y)%float.
Definition fle (x y : float) : bool := (x <=? y)%float.
Definition fge (x y : float) : bool := (y <=? x)%float.

(** ** Price bars and series *)

Record bar : Type := mkBar {
  Date : Z;
  Open : float;
  High : float;
  Low : float;
  Close : float;
  Volume : float
}.

Definition DataFrame := list bar.
Definition Series := list float.

Definition col (f : bar -> float) (data : DataFrame) : Series := map f data.

(** [s.iloc[-k]] for [k >= 1]: the k-th element from the end, [IndexError]
    when the series is shorter. *)
Definition iloc_neg (k : nat) (s : Series) : result float :=
  match nth_error (rev s) (Nat.pred k) with
  | Some x => Ok x
  | None => Raise IndexError
  end.

Definition cmp_at (cmp : float -> float -> bool) (k : nat) (s1 s2 : Series)
  : result bool :=
  x <- iloc_neg k s1 ;; y <- iloc_neg k s2 ;; Ok (cmp x y).

Definition cmp_const (cmp : float -> float -> bool) (k : nat) (s : Series)
  (c : float) : result bool :=
  x <- iloc_neg k s ;; Ok (cmp x c).

(** ** indicators.py *)

Module Indicators.

(** The indicator classes of the [ta] package and pandas' rolling mean, as
    the source calls them.  Each call may raise. *)
Record TALib : Type := mkTALib {
  (* EMAIndicator(close, window).ema_indicator() *)
  ema_indicator : nat -> Series -> result Series;
  (* RSIIndicator(close, window).rsi() *)
  rsi_indicator : nat -> Series -> result Series;
  (* ADXIndicator(high, low, close, window): .adx(), .adx_pos(), .adx_neg() *)
  adx : nat -> Series -> Series -> Series -> result Series;
  adx_pos : nat -> Series -> Series -> Series -> result Series;
  adx_neg : nat -> Series -> Series -> Series -> result Series;
  (* DonchianChannel(high, low, close, window): the two bands *)
  donchian_channel_hband : nat -> Series -> Series -> Series -> result Series;
  donchian_channel_lband : nat -> Series -> Series -> Series -> result Series;
  (* series.rolling(window).mean() *)
  rolling_mean : nat -> Series -> result Series
}.

(** [(signal_score, expected_entry_price, expected_exit_price)] *)
Definition signal : Type := Z * option float * option float.

Definition neutral : signal := (3, None, None).

Section Analyzers.

Variable ta : TALib.

Definition enter_now (score : Z) (data : DataFrame) : result signal :=
  c <- iloc_neg 1 (col Close data) ;; Ok (score, Some c, None).

Definition exit_now (score : Z) (data : DataFrame) : result signal :=
  c <- iloc_neg 1 (col Close data) ;; Ok (score, None, Some c).

Definition analyze_ema (data : DataFrame) : result signal :=
  ema_short <- ema_indicator ta 20 (col Close data) ;;
  ema_long <- ema_indicator ta 50 (col Close data) ;;
  if (50 <=? List.length data)%nat then
    golden <- and_then (cmp_at fgt 1 ema_short ema_long)
                       (cmp_at flt 2 ema_short ema_long) ;;
    if golden then enter_now 5 data
    else
      death <- and_then (cmp_at flt 1 ema_short ema_long)
                        (cmp_at fgt 2 ema_short ema_long) ;;
      if death then exit_now 1 data
      else
        above <- cmp_at fgt 1 ema_short ema_long ;;
        if above then enter_now 4 data else exit_now 2 data
  else Ok neutral.

Definition analyze_rsi (data : DataFrame) : result signal :=
  rsi <- rsi_indicator ta 14 (col Close data) ;;
  if (14 <=? List.length data)%nat then
    let close := col Close data in
    bullish <- and_then (x <- iloc_neg 1 close ;; y <- iloc_neg 2 close ;;
                         Ok (flt x y))
                        (x <- iloc_neg 1 rsi ;; y <- iloc_neg 2 rsi ;;
                         Ok (fgt x y)) ;;
    if bullish then enter_now 5 data
    else
      bearish <- and_then (x <- iloc_neg 1 close ;; y <- iloc_neg 2 close ;;
                           Ok (fgt x y))
                          (x <- iloc_neg 1 rsi ;; y <- iloc_neg 2 rsi ;;
                           Ok (flt x y)) ;;
      if bearish then exit_now 1 data
      else
        oversold <- cmp_const flt 1 rsi 30%float ;;
        if oversold then enter_now 4 data
        else
          overbought <- cmp_const fgt 1 rsi 70%float ;;
          if overbought then exit_now 2 data else Ok neutral
  else Ok neutral.

Definition analyze_adx (data : DataFrame) : result signal :=
  let high := col High data in
  let low := col Low data in
  let close := col Close data in
  adx_value <- adx ta 14 high low close ;;
  pdi <- adx_pos ta 14 high low close ;;
  ndi <- adx_neg ta 14 high low close ;;
  if (14 <=? List.length data)%nat then
    strong <- cmp_const fgt 1 adx_value 25%float ;;
    if strong then
      up <- cmp_at fgt 1 pdi ndi ;;
      if up then enter_now 5 data else exit_now 1 data
    else
      weak <- cmp_const flt 1 adx_value 20%float ;;
      if weak then Ok neutral else Ok neutral
  else Ok neutral.

Definition analyze_donchian (data : DataFrame) : result signal :=
  let high := col High data in
  let low := col Low data in
  let close := col Close data in
  high_band <- donchian_channel_hband ta 20 high low close ;;
  low_band <- donchian_channel_lband ta 20 high low close ;;
  if (20 <=? List.length data)%nat then
    breakout <- (x <- iloc_neg 1 close ;; y <- iloc_neg 2 high_band ;;
                 Ok (fgt x y)) ;;
    if breakout then enter_now 5 data
    else
      breakdown <- (x <- iloc_neg 1 close ;; y <- iloc_neg 2 low_band ;;
                    Ok (flt x y)) ;;
      if breakdown then exit_now 1 data else Ok neutral
  else Ok neutral.

Definition analyze_volume (data : DataFrame) : result signal :=
  average_volume <- rolling_mean ta 20 (col Volume data) ;;
  if (20 <=? List.length data)%nat then
    let close := col Close data in
    let volume := col Volume data in
    up <- and_then (x <- iloc_neg 1 close ;; y <- iloc_neg 2 close ;;
                    Ok (fgt x y))
                   (cmp_at fgt 1 volume average_volume) ;;
    if up then enter_now 5 data
    else
      down <- and_then (x <- iloc_neg 1 close ;; y <- iloc_neg 2 close ;;
                        Ok (flt x y))
                       (cmp_at fgt 1 volume average_volume) ;;
      if down then exit_now 1 data else Ok neutral
  else Ok neutral.

End Analyzers.

End Indicators.

(** ** backtesting_stock_analysis.py *)

Module Backtesting.

Import Indicators.

(** *** Parameters *)

#[warnings="-inexact-float"]
Definition STOP_LOSS : float := 0.05%float.
Definition INITIAL_INVESTMENT : float := 50000%float.
Definition REEVALUATION_PERIOD : Z := 14.

(** *** Data *)

(** What [get_stock_data] returns: [pd.DataFrame()], which has no column at
    all, or the parsed CSV file. *)
Inductive frame : Type :=
| EmptyFrame
| Loaded (rows : DataFrame).

(** The folder of CSV files, by symbol ([<symbol>.csv]), in [os.listdir]
    order.  The files parse and have the columns [get_stock_data] requires; a
    file that does not is outside this model. *)
Definition folder : Type := list (string * DataFrame).

(** One row of the score table: [{'Date', 'Symbol', 'Score'}]. *)
Record score_row : Type := mkRow {
  sDate : Z;
  Symbol : string;
  Score : float
}.

(** One row of the investment log:
    [{'Date', 'Symbol', 'Action', 'Shares', 'Exit Price', 'Investment Value'}]. *)
Record log_entry : Type := mkEntry {
  lDate : Z;
  lSymbol : option string;
  Action : string;
  Shares : float;
  Exit_Price : float;
  Investment_Value : float
}.

(** The lines the score table builder prints. *)
Inductive message : Type :=
| ErrorCalculating (symbol : string) (date : Z) (e : exn).

(** [f"{symbol}"]: how a symbol that may be [None] is formatted in a path. *)
Definition py_str (symbol : option string) : string :=
  match symbol with
  | Some s => s
  | None => "None"
  end.

(** Python truth value of [best_stock]: [None] and the empty string are false. *)
Definition truthy (symbol : option string) : bool :=
  match symbol with
  | Some s => negb (s =? "")%string
  | None => false
  end.

Definition symbol_eqb (a b : option string) : bool :=
  match a, b with
  | Some x, Some y => (x =? y)%string
  | None, None => true
  | _, _ => false
  end.

Definition float_of_Z (z : Z) : float :=
  if z <? 0 then (- PrimFloat.of_uint63 (Uint63.of_Z (- z)))%float
  else PrimFloat.of_uint63 (Uint63.of_Z z).

(** *** get_stock_data *)

Fixpoint find_file (symbol : string) (data_folder : folder)
  : option DataFrame :=
  match data_folder with
  | [] => None
  | (name, file) :: rest =>
      if (name =? symbol)%string then Some file else find_file symbol rest
  end.

(** The file of the symbol, or the empty frame when there is none. *)
Definition get_stock_data (symbol : string) (data_folder : folder) : frame :=
  match find_file symbol data_folder with
  | Some stock_data => Loaded stock_data
  | None => EmptyFrame   (* file not found *)
  end.

Definition rows_of (stock_data : frame) : DataFrame :=
  match stock_data with
  | EmptyFrame => []
  | Loaded rows => rows
  end.

(** [stock_data.empty] *)
Definition empty (stock_data : frame) : bool :=
  match rows_of stock_data with
  | [] => true
  | _ :: _ => false
  end.

(** [stock_data[(stock_data.index >= start_date) & (stock_data.index <= end_date)]] *)
Definition in_range (start_date end_date : Z) (rows : DataFrame) : DataFrame :=
  filter (fun b => (start_date <=? Date b) && (Date b <=? end_date)) rows.

(** [stock_data.loc[:date]] *)
Definition loc_upto (date : Z) (rows : DataFrame) : DataFrame :=
  filter (fun b => Date b <=? date) rows.

(** [stock_data.loc[stock_data.index == date, 'Open'].values[0]]: the column
    lookup fails on the column-less frame, the index [0] on an empty selection. *)
Definition open_on (stock_data : frame) (date : Z) : result float :=
  match stock_data with
  | EmptyFrame => Raise KeyError
  | Loaded rows =>
      match filter (fun b => Date b =? date) rows with
      | b :: _ => Ok (Open b)
      | [] => Raise IndexError
      end
  end.

Section Simulator.

(** The [ta] package, and pandas'
    [day_scores.sort_values(by='Score', ascending=False)]. *)
Variable ta : TALib.
Variable sort_values : list score_row -> list score_row.

(** *** load_and_score_stock_data *)

(** The five analyzer scores of one history and their mean. *)
Definition total_score (data : DataFrame) : result float :=
  '(ema_score, _, _) <- analyze_ema ta data ;;
  '(rsi_score, _, _) <- analyze_rsi ta data ;;
  '(adx_score, _, _) <- analyze_adx ta data ;;
  '(donchian_score, _, _) <- analyze_donchian ta data ;;
  '(volume_score, _, _) <- analyze_volume ta data ;;
  Ok (float_of_Z (ema_score + rsi_score + adx_score + donchian_score
                  + volume_score) / 5)%float.

(** The table under construction and what has been printed. *)
Definition builder : Type := list score_row * list message.

(** The body of the loop over the dates of one instrument: the [try] and its
    [except Exception]. *)
Definition score_date (symbol : string) (stock_data : DataFrame)
  (acc : builder) (day : bar) : builder :=
  let date := Date day in
  if (50 <=? List.length (loc_upto date stock_data))%nat then
    match total_score (loc_upto date stock_data) with
    | Ok score => (fst acc ++ [mkRow date symbol score], snd acc)
    | Raise e => (fst acc, snd acc ++ [ErrorCalculating symbol date e])
    end
  else acc.

(** The body of the loop over the files. *)
Definition score_file (data_folder : folder) (start_date end_date : Z)
  (acc : builder) (symbol : string) : builder :=
  let stock_data :=
    in_range start_date end_date (rows_of (get_stock_data symbol data_folder)) in
  if (List.length stock_data <? 50)%nat then acc
  else fold_left (score_date symbol stock_data) stock_data acc.

Definition load_and_score (data_folder : folder) (start_date end_date : Z)
  : builder :=
  fold_left (score_file data_folder start_date end_date)
            (map fst data_folder) ([], []).

Definition load_and_score_stock_data (data_folder : folder)
  (start_date end_date : Z) : list score_row :=
  fst (load_and_score data_folder start_date end_date).

(** *** get_best_stock *)

(** The table is the frame that [pd.DataFrame(stock_scores)] makes of the
    list of rows: the frame of the empty list has no column, and
    [stock_scores['Date']] is a [KeyError] on it. *)
Definition get_best_stock (date : Z) (stock_scores : list score_row)
  : result (option string * option float) :=
  match stock_scores with
  | [] => Raise KeyError   (* stock_scores['Date'] *)
  | _ :: _ =>
      let day_scores := filter (fun r => sDate r =? date) stock_scores in
      match day_scores with
      | _ :: _ =>
          match sort_values day_scores with
          | best_stock :: _ =>
              Ok (Some (Symbol best_stock), Some (Score best_stock))
          | [] => Raise IndexError   (* .iloc[0] *)
          end
      | [] => Ok (None, None)
      end
  end.

(** *** backtest *)

Record state : Type := mkState {
  investment_log : list log_entry;
  current_investment : float;
  current_stock : option string;
  current_shares : float;
  entry_price : option float;   (* unbound until the first position is opened *)
  current_date : Z
}.

Variable stock_scores : list score_row.
Variable stop_loss : float.
Variable reevaluation_period : Z.
Variable data_folder : folder.

Definition read_entry_price (s : state) : result float :=
  match entry_price s with
  | Some p => Ok p
  | None => Raise UnboundLocalError
  end.

(** Both branches that skip a period: [current_date += timedelta(...)]. *)
Definition next_period (s : state) : state :=
  mkState (investment_log s) (current_investment s) (current_stock s)
          (current_shares s) (entry_price s)
          (current_date s + reevaluation_period).

(** [if current_stock != best_stock: ...] *)
Definition enter_or_switch (best_stock : option string) (stock_data : frame)
  (s : state) : result state :=
  if negb (symbol_eqb (current_stock s) best_stock) then
    price <- open_on stock_data (current_date s) ;;
    Ok (mkState (investment_log s) (current_investment s) best_stock
                (current_investment s / price)%float (Some price)
                (current_date s))
  else Ok s.

Definition stop_price (price : float) : float := (price * (1 - stop_loss))%float.

(** The body of the stop-loss [if], up to its [break]. *)
Definition stop_loss_exit (day : bar) (s : state) : result (state * frame) :=
  price <- read_entry_price s ;;
  let exit_price := stop_price price in
  let investment := (current_shares s * exit_price)%float in
  let log := investment_log s ++
    [mkEntry (Date day) (current_stock s) "Stop-Loss" (current_shares s)
             exit_price investment] in
  '(best_stock, score) <- get_best_stock (Date day) stock_scores ;;
  let stock_data := get_stock_data (py_str best_stock) data_folder in
  new_price <- open_on stock_data (Date day) ;;
  Ok (mkState log investment best_stock (investment / new_price)%float
              (Some new_price) (current_date s),
      stock_data).

(** The [for day in ...itertuples()] loop; it returns the state and the
    [stock_data] variable as the loop leaves them. *)
Fixpoint monitor (days : DataFrame) (stock_data : frame) (s : state)
  : result (state * frame) :=
  match days with
  | [] => Ok (s, stock_data)
  | day :: rest =>
      price <- read_entry_price s ;;
      if fle (Low day) (stop_price price) then stop_loss_exit day s
      else monitor rest stock_data s
  end.

(** [stock_data.loc[current_date:reevaluation_end_date]] *)
Definition window (stock_data : frame) (from to : Z) : DataFrame :=
  in_range from to (rows_of stock_data).

(** The statements after the [for] loop. *)
Definition reevaluate (reevaluation_end_date : Z) (stock_data : frame)
  (s : state) : result state :=
  reevaluation_price <- open_on stock_data reevaluation_end_date ;;
  let investment := (current_shares s * reevaluation_price)%float in
  Ok (mkState
        (investment_log s ++
           [mkEntry reevaluation_end_date (current_stock s) "Reevaluate"
                    (current_shares s) reevaluation_price investment])
        investment (current_stock s) (current_shares s) (entry_price s)
        (current_date s + reevaluation_period)).

(** The body of the [while] loop. *)
Definition run_period (s : state) : result state :=
  '(best_stock, score) <- get_best_stock (current_date s) stock_scores ;;
  if negb (truthy best_stock) then Ok (next_period s)
  else
    let stock_data := get_stock_data (py_str best_stock) data_folder in
    if empty stock_data then Ok (next_period s)
    else
      s1 <- enter_or_switch best_stock stock_data s ;;
      let reevaluation_end_date := current_date s + reevaluation_period in
      '(s2, stock_data2) <-
         monitor (window stock_data (current_date s) reevaluation_end_date)
                 stock_data s1 ;;
      reevaluate reevaluation_end_date stock_data2 s2.

Definition max_date : Z :=
  fold_right Z.max (hd 0 (map sDate stock_scores)) (map sDate stock_scores).
Definition min_date : Z :=
  fold_right Z.min (hd 0 (map sDate stock_scores)) (map sDate stock_scores).

(** [while current_date <= stock_scores['Date'].max()], unrolled at most
    [fuel] times; [None] when the loop is still running after that. *)
Fixpoint backtest_loop (fuel : nat) (s : state) : option (result state) :=
  if current_date s <=? max_date then
    match fuel with
    | O => None
    | S fuel' =>
        match run_period s with
        | Ok s' => backtest_loop fuel' s'
        | Raise e => Some (Raise e)
        end
    end
  else Some (Ok s).

(** The state before the first iteration. *)
Definition initial_state (initial_investment : float) : state :=
  mkState [] initial_investment None 0%float None min_date.

(** The number of iterations a run from [min_date] takes when the period is
    positive: one per multiple of the period up to [max_date]. *)
Definition periods : nat :=
  S (Z.to_nat ((max_date - min_date) / reevaluation_period)).

(** The run of [backtest]: the investment log, or the exception that ends it.
    [stock_scores['Date']] is a [KeyError] on the column-less table that
    [pd.DataFrame([])] is, and [// reevaluation_period] in the progress bar's
    total divides by zero.  The result is [None] when the loop does not end
    within [periods] iterations, which only a negative period does. *)
Definition run_backtest (initial_investment : float)
  : option (result (list log_entry)) :=
  match stock_scores with
  | [] => Some (Raise KeyError)
  | _ :: _ =>
      if reevaluation_period =? 0 then Some (Raise ZeroDivisionError)
      else
        match backtest_loop periods (initial_state initial_investment) with
        | Some (Ok s) => Some (Ok (investment_log s))
        | Some (Raise e) => Some (Raise e)
        | None => None
        end
  end.

End Simulator.

(** [backtest], with the arguments of the source and the sort it relies on. *)
Definition backtest (sort_values : list score_row -> list score_row)
  (stock_scores : list score_row) (initial_investment stop_loss : float)
  (reevaluation_period : Z) (data_folder : folder)
  : option (result (list log_entry)) :=
  run_backtest sort_values stock_scores stop_loss reevaluation_period
               data_folder initial_investment.

(** The main block, once the command line is read: the score table, the
    backtest with the parameters of the module, and
    [backtest_results.iloc[-1]['Investment Value']], which is printed, with
    the log that is saved.  [.iloc[-1]] fails on a log without a row. *)
Definition main (ta : TALib) (sort_values : list score_row -> list score_row)
  (data_folder : folder) (start_date end_date : Z)
  : option (result (float * list log_entry)) :=
  let stock_scores :=
    load_and_score_stock_data ta data_folder start_date end_date in
  match backtest sort_values stock_scores INITIAL_INVESTMENT STOP_LOSS
          REEVALUATION_PERIOD data_folder with
  | Some (Ok backtest_results) =>
      match rev backtest_results with
      | last_row :: _ =>
          Some (Ok (Investment_Value last_row, backtest_results))
      | [] => Some (Raise IndexError)
      end
  | Some (Raise e) => Some (Raise e)
  | None => None
  end.

End Backtesting.

Import Indicators Backtesting.

(** ** analyze_all_stocks.py, analyze_all_stock_past.py and
       analyze_all_stocks_with_market_cap_filter.py

    The scripts that call the analyzers on every file of a folder.  A Python
    string is a [string] of ASCII characters, a [dict] from strings to
    strings an association list with one entry for a key, and what
    [pd.read_csv] makes of a file is given with the file. *)

Module Analysis.

Import Indicators.

(** *** Strings and dictionaries *)

Definition tab : Ascii.ascii := Ascii.ascii_of_nat 9.

(** [c.isspace()] on ASCII: tab, line feed, vertical tab, form feed,
    carriage return, the four separators from 28 to 31 and the space. *)
Definition is_space (c : Ascii.ascii) : bool :=
  let n := Ascii.nat_of_ascii c in
  ((9 <=? n) && (n <=? 13) || (28 <=? n) && (n <=? 32))%nat.

Fixpoint lstrip (s : string) : string :=
  match s with
  | EmptyString => EmptyString
  | String c rest => if is_space c then lstrip rest else s
  end.

Fixpoint rstrip (s : string) : string :=
  match s with
  | EmptyString => EmptyString
  | String c rest =>
      match rstrip rest with
      | EmptyString => if is_space c then EmptyString else String c EmptyString
      | kept => String c kept
      end
  end.

(** [s.strip()] *)
Definition strip (s : string) : string := rstrip (lstrip s).

(** [s.split('\t', 1)]: the text before the first tab and, when there is a
    tab, the text after it. *)
Fixpoint split_tab (s : string) : string * option string :=
  match s with
  | EmptyString => (EmptyString, None)
  | String c rest =>
      if Ascii.eqb c tab then (EmptyString, Some rest)
      else let (before, after) := split_tab rest in (String c before, after)
  end.

Definition dict : Type := list (string * string).

(** [d.get(key)] *)
Fixpoint dict_get (d : dict) (key : string) : option string :=
  match d with
  | [] => None
  | (k, v) :: rest => if (k =? key)%string then Some v else dict_get rest key
  end.

(** [d[key] = value]: the value of a key that is there is replaced where it
    is, a new key goes to the end. *)
Fixpoint dict_set (d : dict) (key value : string) : dict :=
  match d with
  | [] => [(key, value)]
  | (k, v) :: rest =>
      if (k =? key)%string then (k, value) :: rest
      else (k, v) :: dict_set rest key value
  end.

(** *** load_stock_descriptions *)

(** The dictionary, or the [ValueError] of unpacking the one part that a
    line without a tab splits into. *)
Inductive descriptions_result : Type :=
| Descriptions (descriptions : dict)
| ValueError (line : string).

(** The loop over the lines. *)
Fixpoint read_descriptions (lines : list string) (descriptions : dict)
  : descriptions_result :=
  match lines with
  | [] => Descriptions descriptions
  | line :: rest =>
      match split_tab (strip line) with
      | (symbol, Some description) =>
          read_descriptions rest (dict_set descriptions symbol description)
      | (_, None) => ValueError line
      end
  end.

(** [load_stock_descriptions], on the lines [file.readlines()] gives. *)
Definition load_stock_descriptions (lines : list string)
  : descriptions_result :=
  read_descriptions (tl lines) [].

(** *** process_stock_file *)

(** One row of the analysis. *)
Record analysis : Type := mkAnalysis {
  aSymbol : string;
  Description : string;
  EMA_Score : Z;
  RSI_Score : Z;
  ADX_Score : Z;
  Donchian_Score : Z;
  Volume_Score : Z;
  Total_Score : float;
  Yahoo_Finance_Link : string
}.

(** The lines [process_stock_file] prints. *)
Inductive line : Type :=
| ErrorProcessing (symbol : string) (e : exn).

(** The rows collected so far and what has been printed. *)
Definition collected (A : Type) : Type := list A * list line.

(** [descriptions.get(symbol, 'No description available')] *)
Definition description_of (descriptions : dict) (symbol : string) : string :=
  match dict_get descriptions symbol with
  | Some description => description
  | None => "No description available"
  end.

Definition yahoo_finance_link (symbol : string) : string :=
  ("https://finance.yahoo.com/lookup/?s=" ++ symbol)%string.

Definition mean_of_five (a b c d e : Z) : float :=
  (Backtesting.float_of_Z (a + b + c + d + e) / 5)%float.

(** The end of a [try] block that either returned early ([None]), appended
    a row, or raised. *)
Definition collect {A} (symbol : string) (body : result (option A))
  (analysis_results : collected A) : collected A :=
  match body with
  | Ok None => analysis_results
  | Ok (Some row) => (fst analysis_results ++ [row], snd analysis_results)
  | Raise e =>
      (fst analysis_results, snd analysis_results ++ [ErrorProcessing symbol e])
  end.

Section Scripts.

Variable ta : TALib.

(** The statements that the three scripts share: the five analyzers, the
    total score, the description and the link. *)
Definition analyze (data : DataFrame) (symbol : string) (descriptions : dict)
  : result analysis :=
  '(ema_score, _, _) <- analyze_ema ta data ;;
  '(rsi_score, _, _) <- analyze_rsi ta data ;;
  '(adx_score, _, _) <- analyze_adx ta data ;;
  '(donchian_score, _, _) <- analyze_donchian ta data ;;
  '(volume_score, _, _) <- analyze_volume ta data ;;
  let total_score :=
    mean_of_five ema_score rsi_score adx_score donchian_score volume_score in
  Ok (mkAnalysis symbol (description_of descriptions symbol) ema_score
        rsi_score adx_score donchian_score volume_score total_score
        (yahoo_finance_link symbol)).

(** [process_stock_file] of analyze_all_stocks.py; [read_csv] is what
    [pd.read_csv(file_path, ...)] gives. *)
Definition process_stock_file (read_csv : result DataFrame) (symbol : string)
  (descriptions : dict) (analysis_results : collected analysis)
  : collected analysis :=
  collect symbol
    (data <- read_csv ;;
     if (List.length data <? 50)%nat then Ok None
     else row <- analyze data symbol descriptions ;; Ok (Some row))
    analysis_results.

(** [filter_data_up_to_selected_day] *)
Definition filter_data_up_to_selected_day (data : DataFrame)
  (selected_day : Z) : DataFrame :=
  filter (fun b => Date b <=? selected_day) data.

(** [process_stock_file] of analyze_all_stock_past.py. *)
Definition process_stock_file_past (read_csv : result DataFrame)
  (symbol : string) (descriptions : dict) (selected_day : Z)
  (analysis_results : collected analysis) : collected analysis :=
  collect symbol
    (data <- read_csv ;;
     let data_up_to_selected_day :=
       filter_data_up_to_selected_day data selected_day in
     if match data_up_to_selected_day with [] => true | _ :: _ => false end
        || (List.length data_up_to_selected_day <? 50)%nat
     then Ok None
     else row <- analyze data_up_to_selected_day symbol descriptions ;;
          Ok (Some row))
    analysis_results.

(** The loop over the files of the main block of analyze_all_stocks.py, on
    the symbols of the files and what [pd.read_csv] makes of each. *)
Definition process_folder (files : list (string * result DataFrame))
  (descriptions : dict) : collected analysis :=
  fold_left
    (fun analysis_results file =>
       process_stock_file (snd file) (fst file) descriptions analysis_results)
    files ([], []).

(** The same loop in analyze_all_stock_past.py. *)
Definition process_folder_past (files : list (string * result DataFrame))
  (descriptions : dict) (selected_day : Z) : collected analysis :=
  fold_left
    (fun analysis_results file =>
       process_stock_file_past (snd file) (fst file) descriptions
         selected_day analysis_results)
    files ([], []).

End Scripts.

(** The end of the main block of the three scripts:
    [pd.DataFrame(analysis_results).sort_values(by='Total Score',
    ascending=False)].  The table of an empty list has no column, and the
    sort fails on it with a [KeyError]. *)
Definition sorted_analysis {A} (sort_values : list A -> list A)
  (analysis_results : list A) : result (list A) :=
  match analysis_results with
  | [] => Raise KeyError
  | _ :: _ => Ok (sort_values analysis_results)
  end.

(** *** The market cap filter *)

(** A row of the fundamentals table, with the two columns the script reads;
    the market caps are numbers. *)
Record fundamentals_row : Type := mkFundamentals {
  fSymbol : string;
  fMarket_Cap : float
}.

(** [fundamentals.loc[fundamentals['Symbol'] == symbol, 'Market Cap'].values[0]
    if symbol in fundamentals['Symbol'].values else None] *)
Fixpoint market_cap_of (fundamentals : list fundamentals_row)
  (symbol : string) : option float :=
  match fundamentals with
  | [] => None
  | row :: rest =>
      if (fSymbol row =? symbol)%string then Some (fMarket_Cap row)
      else market_cap_of rest symbol
  end.

(** The truth value of a number: zero, of either sign, is false; NaN is
    true. *)
Definition float_truth (x : float) : bool := negb (x =? 0)%float.

(** [market_cap >= cap_threshold if market_cap else False] *)
Definition is_above_cap_threshold (market_cap : option float)
  (cap_threshold : float) : bool :=
  match market_cap with
  | Some cap => if float_truth cap then fge cap cap_threshold else false
  | None => false
  end.

(** A row of the analysis of analyze_all_stocks_with_market_cap_filter.py. *)
Record capped : Type := mkCapped {
  cSymbol : string;
  cDescription : string;
  Market_Cap : option float;
  Above_Cap_Threshold : bool;
  cEMA_Score : Z;
  cRSI_Score : Z;
  cADX_Score : Z;
  cDonchian_Score : Z;
  cVolume_Score : Z;
  cTotal_Score : float;
  cYahoo_Finance_Link : string
}.

(** The analysis of [process_stock_file] of that script, from the first
    analyzer to the row. *)
Definition analyze_capped (ta : TALib) (data : DataFrame) (symbol : string)
  (descriptions : dict) (fundamentals : list fundamentals_row)
  (cap_threshold : float) : result capped :=
  '(ema_score, _, _) <- analyze_ema ta data ;;
  '(rsi_score, _, _) <- analyze_rsi ta data ;;
  '(adx_score, _, _) <- analyze_adx ta data ;;
  '(donchian_score, _, _) <- analyze_donchian ta data ;;
  '(volume_score, _, _) <- analyze_volume ta data ;;
  let total_score :=
    mean_of_five ema_score rsi_score adx_score donchian_score volume_score in
  let description := description_of descriptions symbol in
  let market_cap := market_cap_of fundamentals symbol in
  Ok (mkCapped symbol description market_cap
        (is_above_cap_threshold market_cap cap_threshold) ema_score rsi_score
        adx_score donchian_score volume_score total_score
        (yahoo_finance_link symbol)).

(** [process_stock_file] of analyze_all_stocks_with_market_cap_filter.py. *)
Definition process_stock_file_capped (ta : TALib)
  (read_csv : result DataFrame) (symbol : string) (descriptions : dict)
  (fundamentals : list fundamentals_row) (cap_threshold : float)
  (analysis_results : collected capped) : collected capped :=
  collect symbol
    (data <- read_csv ;;
     if (List.length data <? 50)%nat then Ok None
     else row <- analyze_capped ta data symbol descriptions fundamentals
                   cap_threshold ;;
          Ok (Some row))
    analysis_results.

(** The loop over the files of its main block. *)
Definition process_folder_capped (ta : TALib)
  (files : list (string * result DataFrame)) (descriptions : dict)
  (fundamentals : list fundamentals_row) (cap_threshold : float)
  : collected capped :=
  fold_left
    (fun analysis_results file =>
       process_stock_file_capped ta (snd file) (fst file) descriptions
         fundamentals cap_threshold analysis_results)
    files ([], []).

(** [sorted_analysis_df[sorted_analysis_df['Above Cap Threshold']].head(10)] *)
Definition top_10_stocks (sorted_analysis_df : list capped) : list capped :=
  firstn 10 (filter Above_Cap_Threshold sorted_analysis_df).

(** *** Vocabulary of the properties of the scripts *)

(** The string has a tab. *)
Fixpoint has_tab (s : string) : bool :=
  match s with
  | EmptyString => false
  | String c rest => Ascii.eqb c tab || has_tab rest
  end.

(** The string is made of whitespace. *)
Fixpoint all_space (s : string) : bool :=
  match s with
  | EmptyString => true
  | String c rest => is_space c && all_space rest
  end.

(** A symbol as a line of a description file starts with: not empty, no
    whitespace in front, no tab. *)
Definition clean_symbol (symbol : string) : Prop :=
  has_tab symbol = false
  /\ exists c rest, symbol = String c rest /\ is_space c = false.

(** A description as a line of a description file ends with: not empty, no
    whitespace at the end. *)
Definition clean_description (description : string) : Prop :=
  exists body c,
    description = (body ++ String c EmptyString)%string /\ is_space c = false.

(** The line of a symbol and its description: the two separated by a tab,
    and a line feed. *)
Definition description_line (entry : string * string) : string :=
  (fst entry ++ String tab (snd entry ++ String (Ascii.ascii_of_nat 10)
                              EmptyString))%string.

(** A row of the market cap script without its two market cap columns. *)
Definition without_cap (row : capped) : analysis :=
  mkAnalysis (cSymbol row) (cDescription row) (cEMA_Score row)
    (cRSI_Score row) (cADX_Score row) (cDonchian_Score row)
    (cVolume_Score row) (cTotal_Score row) (cYahoo_Finance_Link row).

End Analysis.

(** * Vocabulary of the properties *)

(** The rows of the table that belong to another instrument than [symbol]. *)
Definition other_than (symbol : string) (r : score_row) : bool :=
  negb (Symbol r =? symbol)%string.

(** The test of the monitoring loop on one day, for the position held in
    [s]: the day's low is at or below the stop price. *)
Definition breach (stop_loss : float) (s : state) (day : bar) : bool :=
  match entry_price s with
  | Some price => fle (Low day) (stop_price stop_loss price)
  | None => false
  end.

(** The two actions the simulator writes in the investment log. *)
Definition logged_action (e : log_entry) : Prop :=
  Action e = "Stop-Loss"%string \/ Action e = "Reevaluate"%string.

(** The dates of the bars of a frame. *)
Definition dates_of (stock_data : frame) : list Z :=
  map Date (rows_of stock_data).

(** What the analyzers promise about a signal, with [close] the latest
    closing price: the score is 3 and no price is given, or it is 4 or 5 and
    [close] is the entry price, or it is 1 or 2 and [close] is the exit
    price. *)
Definition signal_shape (close : float) (sig : signal) : Prop :=
  let '(score, entry, exit) := sig in
  (score = 3 /\ entry = None /\ exit = None)
  \/ ((score = 4 \/ score = 5) /\ entry = Some close /\ exit = None)
  \/ ((score = 1 \/ score = 2) /\ entry = None /\ exit = Some close).

(** The rows of the table that belong to [symbol]. *)
Definition of_symbol (symbol : string) (r : score_row) : bool :=
  (Symbol r =? symbol)%string.

(** A price history as the data model has it: strictly increasing dates. *)
Definition increasing_dates (data : DataFrame) : Prop :=
  StronglySorted (fun a b => Date a < Date b) data.

(** The key of a row of the score table. *)
Definition row_key (r : score_row) : Z * string := (sDate r, Symbol r).

(** The actions of an investment log, period by period: a period adds
    nothing, or a Reevaluate row, or a Stop-Loss row and then a Reevaluate
    row. *)
Inductive period_rows : list string -> Prop :=
| no_rows : period_rows []
| quiet_period (l : list string) :
    period_rows l -> period_rows (l ++ ["Reevaluate"%string])
| stopped_period (l : list string) :
    period_rows l ->
    period_rows (l ++ ["Stop-Loss"%string; "Reevaluate"%string]).

(** The value written in a row of the log is the product of its shares and
    its price. *)
Definition priced (e : log_entry) : Prop :=
  Investment_Value e = (Shares e * Exit_Price e)%float.

(** * Sample inputs

    Concrete libraries, price histories and score tables on which the
    functions above are run. *)

Module Sample.

(** A stand-in for the indicator library that never raises: every indicator
    echoes one of its input series, so that a history chooses the indicator
    values it wants. *)
Definition ta_echo : TALib :=
  mkTALib (fun _ close => Ok close)
          (fun _ close => Ok close)
          (fun _ high _ _ => Ok high)
          (fun _ _ low _ => Ok low)
          (fun _ _ _ close => Ok close)
          (fun _ high _ _ => Ok high)
          (fun _ _ low _ => Ok low)
          (fun _ volume => Ok volume).

(** The same library, except that the rolling mean rejects a series whose
    latest value is zero. *)
Definition ta_strict : TALib :=
  mkTALib (fun _ close => Ok close)
          (fun _ close => Ok close)
          (fun _ high _ _ => Ok high)
          (fun _ _ low _ => Ok low)
          (fun _ _ _ close => Ok close)
          (fun _ high _ _ => Ok high)
          (fun _ _ low _ => Ok low)
          (fun _ volume =>
             match rev volume with
             | v :: _ => if (v =? 0)%float then Raise (LibraryError 1)
                         else Ok volume
             | [] => Ok volume
             end).

(** A stable insertion sort by decreasing score: rows of equal score keep
    the order of the table. *)
Fixpoint insert_desc (r : score_row) (l : list score_row) : list score_row :=
  match l with
  | [] => [r]
  | x :: rest =>
      if fle (Score x) (Score r) then r :: l else x :: insert_desc r rest
  end.

Definition sort_desc (l : list score_row) : list score_row :=
  fold_right insert_desc [] l.

(** A bar with one price all day. *)
Definition flat_bar (price volume : float) (date : Z) : bar :=
  mkBar date price price price price volume.

(** Dates [from], [from + 1], ..., [from + n - 1]. *)
Definition days (from : Z) (n : nat) : list Z :=
  map (fun k => from + Z.of_nat k) (seq 0 n).

(** Sixty flat bars, dated 1 to 60. *)
Definition sixty_bars : DataFrame := map (flat_bar 100 1) (days 1 60).

(** The same sixty bars with no volume on day 55. *)
Definition sixty_bars_gap : DataFrame :=
  map (fun d => flat_bar 100 (if d =? 55 then 0 else 1) d) (days 1 60).

(** Ten bars. *)
Definition ten_bars : DataFrame := map (flat_bar 100 1) (days 1 10).

(** Fourteen bars whose latest has high 30, low 20 and close 10, which
    [ta_echo] turns into ADX 30, +DI 20 and -DI 10. *)
Definition trending_bars : DataFrame :=
  map (flat_bar 100 1) (days 1 13) ++ [mkBar 14 100 30 20 10 1].

(** AAA trades at 100 from day 0 to day 14 and dips to 90 on day 10; BBB
    trades at 50 on days 10 and 14. *)
Definition aaa_bars : DataFrame :=
  map (fun d => mkBar d 100 101 (if d =? 10 then 90 else 99) 100 1)
      (days 0 15).

Definition bbb_bars : DataFrame := [flat_bar 50 1 10; flat_bar 50 1 14].

Definition two_stocks : folder :=
  [("AAA"%string, aaa_bars); ("BBB"%string, bbb_bars)].

(** AAA leads on day 0, BBB on day 10. *)
Definition two_scores : list score_row :=
  [mkRow 0 "AAA" 4; mkRow 0 "BBB" 3; mkRow 10 "AAA" 2; mkRow 10 "BBB" 4].

(** Two instruments that share the best score of day 0. *)
Definition tied_scores : list score_row :=
  [mkRow 0 "AAA" 4; mkRow 0 "BBB" 4; mkRow 0 "CCC" 3].

(** CCC has a single bar, on day 0. *)
Definition one_bar_stock : folder := [("CCC"%string, [flat_bar 10 1 0])].

Definition one_score : list score_row := [mkRow 0 "CCC" 3].

End Sample.

(** * More sample inputs *)

Module MoreSamples.

(** [w - 1] NaN values in front of the series, as an indicator of window [w]
    that is undefined until it has seen [w] values. *)
Definition warm_up (w : nat) (s : Series) : Series :=
  repeat nan (Nat.min (w - 1) (List.length s)) ++ skipn (w - 1) s.

(** The echo library with such a warm-up in the moving averages. *)
Definition ta_warm_up : TALib :=
  mkTALib (fun w close => Ok (warm_up w close))
          (fun _ close => Ok close)
          (fun _ high _ _ => Ok high)
          (fun _ _ low _ => Ok low)
          (fun _ _ _ close => Ok close)
          (fun _ high _ _ => Ok high)
          (fun _ _ low _ => Ok low)
          (fun w volume => Ok (warm_up w volume)).

(** Fifty flat bars, dated 1 to 50. *)
Definition fifty_bars : DataFrame :=
  map (Sample.flat_bar 100 1) (Sample.days 1 50).

(** The lines of a description file after its header, as symbols and
    descriptions: AAPL comes twice. *)
Definition three_entries : list (string * string) :=
  [("AAPL", "Apple"); ("MSFT", "Microsoft"); ("AAPL", "Apple Inc")]%string.

(** The header of a description file. *)
Definition header_line : string :=
  Analysis.description_line ("Symbol", "Description")%string.

(** A tab and a line feed: what is left of a line after a symbol when the
    description is empty. *)
Definition tab_and_line_feed : string :=
  String Analysis.tab (String (Ascii.ascii_of_nat 10) EmptyString).

(** Three files: one that cannot be read between two of sixty bars. *)
Definition three_files : list (string * result DataFrame) :=
  [("AAA"%string, Ok Sample.sixty_bars);
   ("BAD"%string, Raise (LibraryError 2));
   ("CCC"%string, Ok Sample.sixty_bars)].

(** The echo library with an ADX that needs twice its window, 28 values for
    the window of 14, and raises on a shorter series, as the [ADXIndicator]
    class of the ta package does. *)
Definition ta_adx_28 : TALib :=
  mkTALib (fun _ close => Ok close)
          (fun _ close => Ok close)
          (fun w high _ _ =>
             if (List.length high <? 2 * w)%nat
             then Raise (LibraryError (2 * w)) else Ok high)
          (fun _ _ low _ => Ok low)
          (fun _ _ _ close => Ok close)
          (fun _ high _ _ => Ok high)
          (fun _ _ low _ => Ok low)
          (fun _ volume => Ok volume).

(** The scores of day 0 alone: AAA leads. *)
Definition first_day_scores : list score_row :=
  [mkRow 0 "AAA" 4; mkRow 0 "BBB" 3].

(** Seventy bars at 100, dated 1 to 70, with a low of 90 on day 62. *)
Definition dip_bars : DataFrame :=
  map (fun d => mkBar d 100 100 (if d =? 62 then 90 else 100) 100 1)
      (Sample.days 1 70).

(** Seventy flat bars, dated 1 to 70. *)
Definition seventy_bars : DataFrame :=
  map (Sample.flat_bar 100 1) (Sample.days 1 70).

(** A fundamentals table: AAA is listed twice, CCC has no market cap. *)
Definition caps : list Analysis.fundamentals_row :=
  [Analysis.mkFundamentals "AAA" 2e9; Analysis.mkFundamentals "AAA" 1;
   Analysis.mkFundamentals "CCC" 0].

End MoreSamples.

(** * Properties *)

(** ** Float comparisons *)

Lemma SFcompare_antisym (x y : spec_float) :
  SFcompare y x = option_map CompOpp (SFcompare x y).
Proof.
  destruct x as [sx|sx| |sx mx ex], y as [sy|sy| |sy my ey]; simpl;
    try destruct sx; try destruct sy; try reflexivity;
    rewrite (Z.compare_antisym ex ey); destruct (ex ?= ey)%Z; simpl;
    try reflexivity;
    change (Pos.compare_cont Eq my mx)
      with (Pos.compare_cont (CompOpp Eq) my mx);
    rewrite <- (Pos.compare_cont_antisym mx my Eq);
    destruct (Pos.compare_cont Eq mx my); reflexivity.
Qed.

(** [x <= y] excludes [x > y], also at NaN and the infinities. *)
Lemma fle_not_fgt (x y : float) : fle x y = true -> fgt x y = false.
Proof.
  unfold fle, fgt. rewrite leb_spec, ltb_spec. unfold SFleb, SFltb.
  rewrite (SFcompare_antisym (Prim2SF x) (Prim2SF y)).
  destruct (SFcompare (Prim2SF x) (Prim2SF y)) as [[ | | ]|]; simpl;
    congruence.
Qed.

Lemma fge_not_fgt (x y : float) : fge x y = true -> fgt y x = false.
Proof. unfold fge. intro H. apply fle_not_fgt. exact H. Qed.

(** ** The analyzers *)

Lemma iloc_last (s : Series) (d : float) :
  s <> [] -> iloc_neg 1 s = Ok (last s d).
Proof.
  intro H. destruct (exists_last H) as [l [x ->]].
  unfold iloc_neg. rewrite rev_app_distr, last_last. reflexivity.
Qed.

Lemma latest_close (data : DataFrame) (d : float) :
  (0 < List.length data)%nat ->
  iloc_neg 1 (col Close data) = Ok (last (col Close data) d).
Proof.
  intro H. apply iloc_last. unfold col. destruct data; simpl in *.
  - lia.
  - discriminate.
Qed.

Lemma short_guard (n : nat) (data : DataFrame) :
  (List.length data < n)%nat -> (n <=? List.length data)%nat = false.
Proof. intro H. apply Nat.leb_gt. exact H. Qed.

Lemma long_guard (n : nat) (data : DataFrame) :
  (n <= List.length data)%nat -> (n <=? List.length data)%nat = true.
Proof. intro H. apply Nat.leb_le. exact H. Qed.

(** The indicator objects are built before the length of the history is
    looked at: an exception of the library leaves the analyzer as it is,
    whatever the length. *)
Lemma adx_error_propagates (ta : TALib) (data : DataFrame) (e : exn) :
  adx ta 14 (col High data) (col Low data) (col Close data) = Raise e ->
  analyze_adx ta data = Raise e.
Proof. intro H. unfold analyze_adx. cbv zeta. rewrite H. reflexivity. Qed.

(** C5. Below its minimum history length (50 bars for EMA, 14 for RSI and
    ADX, 20 for Donchian and Volume) an analyzer does what its calls of the
    indicator library do and nothing else: when they return it returns the
    neutral score 3 with no entry and no exit price, and when one of them
    raises, that exception leaves the analyzer.  The length is tested after
    the indicator series are built, so the neutral answer is not returned
    for a history on which the library fails, as [ADXIndicator] does on a
    history that short. *)
Theorem short_history_runs_the_library (ta : TALib) (data : DataFrame) :
  ((List.length data < 50)%nat ->
   analyze_ema ta data
   = (ema_short <- ema_indicator ta 20 (col Close data) ;;
      ema_long <- ema_indicator ta 50 (col Close data) ;;
      Ok (3, None, None)))
  /\ ((List.length data < 14)%nat ->
      analyze_rsi ta data
      = (rsi <- rsi_indicator ta 14 (col Close data) ;; Ok (3, None, None)))
  /\ ((List.length data < 14)%nat ->
      analyze_adx ta data
      = (adx_value <- adx ta 14 (col High data) (col Low data)
                        (col Close data) ;;
         pdi <- adx_pos ta 14 (col High data) (col Low data)
                  (col Close data) ;;
         ndi <- adx_neg ta 14 (col High data) (col Low data)
                  (col Close data) ;;
         Ok (3, None, None)))
  /\ ((List.length data < 20)%nat ->
      analyze_donchian ta data
      = (high_band <- donchian_channel_hband ta 20 (col High data)
                        (col Low data) (col Close data) ;;
         low_band <- donchian_channel_lband ta 20 (col High data)
                       (col Low data) (col Close data) ;;
         Ok (3, None, None)))
  /\ ((List.length data < 20)%nat ->
      analyze_volume ta data
      = (average_volume <- rolling_mean ta 20 (col Volume data) ;;
         Ok (3, None, None))).
Proof.
  unfold analyze_ema, analyze_rsi, analyze_adx, analyze_donchian,
    analyze_volume, neutral. cbv zeta.
  refine (conj _ (conj _ (conj _ (conj _ _)))); intro Hlen;
    rewrite (short_guard _ Hlen); reflexivity.
Qed.

(** Ten bars and a library whose ADX needs 28: the ADX analyzer raises, the
    four others answer neutral. *)
Lemma short_history_runs_the_library_witness :
  analyze_adx MoreSamples.ta_adx_28 Sample.ten_bars = Raise (LibraryError 28)
  /\ analyze_ema MoreSamples.ta_adx_28 Sample.ten_bars = Ok (3, None, None)
  /\ analyze_rsi MoreSamples.ta_adx_28 Sample.ten_bars = Ok (3, None, None)
  /\ analyze_donchian MoreSamples.ta_adx_28 Sample.ten_bars
     = Ok (3, None, None)
  /\ analyze_volume MoreSamples.ta_adx_28 Sample.ten_bars
     = Ok (3, None, None).
Proof.
  destruct (short_history_runs_the_library MoreSamples.ta_adx_28
              Sample.ten_bars) as (He & Hr & Ha & Hd & Hv).
  assert (H50 : (List.length Sample.ten_bars < 50)%nat) by (simpl; lia).
  assert (H14 : (List.length Sample.ten_bars < 14)%nat) by (simpl; lia).
  assert (H20 : (List.length Sample.ten_bars < 20)%nat) by (simpl; lia).
  refine (conj _ (conj _ (conj _ (conj _ _)))).
  - rewrite (Ha H14). reflexivity.
  - rewrite (He H50). reflexivity.
  - rewrite (Hr H14). reflexivity.
  - rewrite (Hd H20). reflexivity.
  - rewrite (Hv H20). reflexivity.
Defined.

(** C7. On a history of at least 14 bars, with [a], [p] and [n] the latest
    ADX, +DI and -DI values: ADX > 25 and +DI > -DI gives 5 with the latest
    close as entry price; ADX > 25 and -DI >= +DI gives 1 with the latest
    close as exit price; ADX <= 25, the band from 20 to 25 included, gives 3
    with no price. *)
Theorem adx_signal (ta : TALib) (data : DataFrame)
  (adx_value pdi ndi : Series) (a : float) :
  (14 <= List.length data)%nat ->
  adx ta 14 (col High data) (col Low data) (col Close data) = Ok adx_value ->
  adx_pos ta 14 (col High data) (col Low data) (col Close data) = Ok pdi ->
  adx_neg ta 14 (col High data) (col Low data) (col Close data) = Ok ndi ->
  iloc_neg 1 adx_value = Ok a ->
  (forall p n, iloc_neg 1 pdi = Ok p -> iloc_neg 1 ndi = Ok n ->
     fgt a 25 = true -> fgt p n = true ->
     analyze_adx ta data = Ok (5, Some (last (col Close data) 0%float), None))
  /\ (forall p n, iloc_neg 1 pdi = Ok p -> iloc_neg 1 ndi = Ok n ->
        fgt a 25 = true -> fge n p = true ->
        analyze_adx ta data
        = Ok (1, None, Some (last (col Close data) 0%float)))
  /\ (fle a 25 = true -> analyze_adx ta data = Ok (3, None, None)).
Proof.
  intros Hlen Ha Hp Hn Hlast.
  assert (Hclose : iloc_neg 1 (col Close data)
                   = Ok (last (col Close data) 0%float))
    by (apply latest_close; lia).
  unfold analyze_adx. cbv zeta. rewrite Ha, Hp, Hn. cbn [bind].
  rewrite (long_guard _ Hlen). unfold cmp_const, cmp_at. rewrite Hlast.
  cbn [bind].
  refine (conj _ (conj _ _)).
  - intros p n Hpl Hnl Hstrong Hup. rewrite Hstrong, Hpl, Hnl. cbn [bind].
    rewrite Hup. unfold enter_now. rewrite Hclose. reflexivity.
  - intros p n Hpl Hnl Hstrong Hdown. rewrite Hstrong, Hpl, Hnl. cbn [bind].
    rewrite (fge_not_fgt Hdown). unfold exit_now. rewrite Hclose.
    reflexivity.
  - intros Hweak. rewrite (fle_not_fgt Hweak).
    destruct (flt a 20); reflexivity.
Qed.

Lemma adx_signal_witness :
  analyze_adx Sample.ta_echo Sample.trending_bars
  = Ok (5, Some 10%float, None).
Proof.
  refine (proj1 (@adx_signal Sample.ta_echo Sample.trending_bars
                   (col High Sample.trending_bars)
                   (col Low Sample.trending_bars)
                   (col Close Sample.trending_bars) 30%float
                   _ _ _ _ _) 20%float 10%float _ _ _ _).
  - simpl. lia.
  - reflexivity.
  - reflexivity.
  - reflexivity.
  - reflexivity.
  - reflexivity.
  - reflexivity.
  - reflexivity.
  - reflexivity.
Defined.

(** ** The score table builder *)

Section Builder.

Variable ta : TALib.

Lemma find_file_some (symbol : string) (data_folder : folder) :
  In symbol (map fst data_folder) <-> find_file symbol data_folder <> None.
Proof.
  induction data_folder as [|[name file] rest IH]; simpl.
  - split; [intros [] | congruence].
  - destruct (String.eqb_spec name symbol) as [->|Hne].
    + split; [discriminate | auto].
    + rewrite <- IH. split; [intros [H|H]; [contradiction | exact H] | auto].
Qed.

(** The accumulator only grows: one date adds at most one row or one line. *)
Lemma score_date_app (symbol : string) (stock_data : DataFrame)
  (acc : builder) (day : bar) :
  score_date ta symbol stock_data acc day
  = (fst acc ++ fst (score_date ta symbol stock_data ([], []) day),
     snd acc ++ snd (score_date ta symbol stock_data ([], []) day)).
Proof.
  unfold score_date. cbv zeta.
  destruct (50 <=? List.length (loc_upto (Date day) stock_data))%nat.
  - destruct (total_score ta (loc_upto (Date day) stock_data)); simpl;
      rewrite ?app_nil_r; reflexivity.
  - simpl. rewrite !app_nil_r. destruct acc; reflexivity.
Qed.

Lemma score_dates_app (symbol : string) (stock_data days : DataFrame)
  (acc : builder) :
  fold_left (score_date ta symbol stock_data) days acc
  = (fst acc ++ flat_map
       (fun day => fst (score_date ta symbol stock_data ([], []) day)) days,
     snd acc ++ flat_map
       (fun day => snd (score_date ta symbol stock_data ([], []) day)) days).
Proof.
  revert acc. induction days as [|day rest IH]; intro acc; simpl.
  - rewrite !app_nil_r. destruct acc; reflexivity.
  - rewrite IH, (score_date_app symbol stock_data acc day). simpl.
    rewrite <- !app_assoc. reflexivity.
Qed.

Lemma score_file_app (data_folder : folder) (start_date end_date : Z)
  (acc : builder) (symbol : string) :
  score_file ta data_folder start_date end_date acc symbol
  = (fst acc ++ fst (score_file ta data_folder start_date end_date ([], [])
                       symbol),
     snd acc ++ snd (score_file ta data_folder start_date end_date ([], [])
                       symbol)).
Proof.
  unfold score_file. cbv zeta.
  destruct (List.length _ <? 50)%nat.
  - simpl. rewrite !app_nil_r. destruct acc; reflexivity.
  - rewrite (score_dates_app symbol _ _ acc).
    rewrite (score_dates_app symbol _ _ ([], [])). reflexivity.
Qed.

Lemma score_files_app (data_folder : folder) (start_date end_date : Z)
  (symbols : list string) (acc : builder) :
  fold_left (score_file ta data_folder start_date end_date) symbols acc
  = (fst acc ++ flat_map
       (fun symbol => fst (score_file ta data_folder start_date end_date
                             ([], []) symbol)) symbols,
     snd acc ++ flat_map
       (fun symbol => snd (score_file ta data_folder start_date end_date
                             ([], []) symbol)) symbols).
Proof.
  revert acc. induction symbols as [|symbol rest IH]; intro acc; simpl.
  - rewrite !app_nil_r. destruct acc; reflexivity.
  - rewrite IH, (score_file_app data_folder start_date end_date acc symbol).
    simpl. rewrite <- !app_assoc. reflexivity.
Qed.

(** The table is the concatenation, file by file, of the rows of each file. *)
Lemma table_by_file (data_folder : folder) (start_date end_date : Z) :
  load_and_score_stock_data ta data_folder start_date end_date
  = flat_map
      (fun symbol => fst (score_file ta data_folder start_date end_date
                            ([], []) symbol))
      (map fst data_folder).
Proof.
  unfold load_and_score_stock_data, load_and_score.
  rewrite score_files_app. reflexivity.
Qed.

Lemma printed_by_file (data_folder : folder) (start_date end_date : Z) :
  snd (load_and_score ta data_folder start_date end_date)
  = flat_map
      (fun symbol => snd (score_file ta data_folder start_date end_date
                            ([], []) symbol))
      (map fst data_folder).
Proof. unfold load_and_score. rewrite score_files_app. reflexivity. Qed.

End Builder.

Section BuilderRows.

Variable ta : TALib.

Lemma loc_upto_length (date : Z) (rows : DataFrame) :
  (List.length (loc_upto date rows) <= List.length rows)%nat.
Proof. apply filter_length_le. Qed.

Lemma date_in_prefix (date : Z) (rows : DataFrame) :
  In date (map Date rows) <-> In date (map Date (loc_upto date rows)).
Proof.
  unfold loc_upto. rewrite !in_map_iff. split.
  - intros [b [Hd Hb]]. exists b. split; [exact Hd|].
    apply filter_In. split; [exact Hb|]. apply Z.leb_le. lia.
  - intros [b [Hd Hb]]. exists b. split; [exact Hd|].
    apply filter_In in Hb. tauto.
Qed.

Lemma date_row_iff (symbol : string) (stock_data : DataFrame) (day : bar)
  (r : score_row) :
  In r (fst (score_date ta symbol stock_data ([], []) day)) <->
  sDate r = Date day /\ Symbol r = symbol
  /\ (50 <= List.length (loc_upto (Date day) stock_data))%nat
  /\ total_score ta (loc_upto (Date day) stock_data) = Ok (Score r).
Proof.
  unfold score_date. cbv zeta.
  destruct (Nat.leb_spec 50 (List.length (loc_upto (Date day) stock_data)))
    as [Hlen|Hlen].
  - destruct (total_score ta (loc_upto (Date day) stock_data))
      as [score|e]; simpl.
    + split.
      * intros [<-|[]]. simpl. auto.
      * intros (Hd & Hs & _ & Hsc). left. destruct r as [d s sc].
        simpl in *. congruence.
    + split; [intros [] | intros (_ & _ & _ & H); discriminate].
  - simpl. split; [intros [] | intros (_ & _ & H & _); lia].
Qed.

Lemma date_message_iff (symbol : string) (stock_data : DataFrame) (day : bar)
  (m : message) :
  In m (snd (score_date ta symbol stock_data ([], []) day)) <->
  exists e, m = ErrorCalculating symbol (Date day) e
    /\ (50 <= List.length (loc_upto (Date day) stock_data))%nat
    /\ total_score ta (loc_upto (Date day) stock_data) = Raise e.
Proof.
  unfold score_date. cbv zeta.
  destruct (Nat.leb_spec 50 (List.length (loc_upto (Date day) stock_data)))
    as [Hlen|Hlen].
  - destruct (total_score ta (loc_upto (Date day) stock_data))
      as [score|e]; simpl.
    + split; [intros [] | intros (e & _ & _ & H); discriminate].
    + split.
      * intros [<-|[]]. exists e. auto.
      * intros (e' & -> & _ & H). left. congruence.
  - simpl. split; [intros [] | intros (e & _ & H & _); lia].
Qed.

(** The rows one file contributes. *)
Lemma file_row_iff (data_folder : folder) (start_date end_date : Z)
  (symbol : string) (r : score_row) :
  In r (fst (score_file ta data_folder start_date end_date ([], []) symbol))
  <->
  Symbol r = symbol
  /\ exists day,
       In day (in_range start_date end_date
                 (rows_of (get_stock_data symbol data_folder)))
       /\ sDate r = Date day
       /\ (50 <= List.length
                   (loc_upto (Date day)
                      (in_range start_date end_date
                         (rows_of (get_stock_data symbol data_folder)))))%nat
       /\ total_score ta
            (loc_upto (Date day)
               (in_range start_date end_date
                  (rows_of (get_stock_data symbol data_folder))))
          = Ok (Score r).
Proof.
  unfold score_file. cbv zeta.
  set (stock_data := in_range start_date end_date
                       (rows_of (get_stock_data symbol data_folder))).
  destruct (Nat.ltb_spec (List.length stock_data) 50) as [Hshort|Hlong].
  - simpl. split; [intros [] |].
    intros (_ & day & _ & _ & Hlen & _).
    pose proof (loc_upto_length (Date day) stock_data). lia.
  - rewrite score_dates_app. simpl. rewrite in_flat_map. split.
    + intros (day & Hday & Hr). apply date_row_iff in Hr.
      destruct Hr as (Hd & Hs & Hlen & Hsc). split; [exact Hs|].
      exists day. auto.
    + intros (Hs & day & Hday & Hd & Hlen & Hsc). exists day.
      split; [exact Hday|]. apply date_row_iff. auto.
Qed.

(** The lines one file prints. *)
Lemma file_message_iff (data_folder : folder) (start_date end_date : Z)
  (symbol : string) (m : message) :
  In m (snd (score_file ta data_folder start_date end_date ([], []) symbol))
  <->
  exists day e,
    In day (in_range start_date end_date
              (rows_of (get_stock_data symbol data_folder)))
    /\ m = ErrorCalculating symbol (Date day) e
    /\ (50 <= List.length
                (loc_upto (Date day)
                   (in_range start_date end_date
                      (rows_of (get_stock_data symbol data_folder)))))%nat
    /\ total_score ta
         (loc_upto (Date day)
            (in_range start_date end_date
               (rows_of (get_stock_data symbol data_folder))))
       = Raise e.
Proof.
  unfold score_file. cbv zeta.
  set (stock_data := in_range start_date end_date
                       (rows_of (get_stock_data symbol data_folder))).
  destruct (Nat.ltb_spec (List.length stock_data) 50) as [Hshort|Hlong].
  - simpl. split; [intros [] |].
    intros (day & e & _ & _ & Hlen & _).
    pose proof (loc_upto_length (Date day) stock_data). lia.
  - rewrite score_dates_app. simpl. rewrite in_flat_map. split.
    + intros (day & Hday & Hm). apply date_message_iff in Hm.
      destruct Hm as (e & Hm & Hlen & Hsc). exists day, e. auto.
    + intros (day & e & Hday & Hm & Hlen & Hsc). exists day.
      split; [exact Hday|]. apply date_message_iff. exists e. auto.
Qed.

Lemma rows_of_get_stock_data (symbol : string) (data_folder : folder)
  (day : bar) :
  In day (rows_of (get_stock_data symbol data_folder)) <->
  exists data, find_file symbol data_folder = Some data /\ In day data.
Proof.
  unfold get_stock_data.
  destruct (find_file symbol data_folder) as [data|]; simpl.
  - split; [intro H; exists data; auto | intros (d & Hd & H); congruence].
  - split; [intros [] | intros (d & Hd & _); discriminate].
Qed.

Lemma get_stock_data_loaded (symbol : string) (data_folder : folder)
  (data : DataFrame) :
  find_file symbol data_folder = Some data ->
  rows_of (get_stock_data symbol data_folder) = data.
Proof. unfold get_stock_data. intros ->. reflexivity. Qed.

(** A row is in the table exactly when its instrument's file has a bar of
    that date in the range, the bars of the range up to that date are at
    least 50, and the five analyzers return on them. *)
Lemma table_row_iff (data_folder : folder) (start_date end_date : Z)
  (r : score_row) :
  In r (load_and_score_stock_data ta data_folder start_date end_date) <->
  exists data,
    find_file (Symbol r) data_folder = Some data
    /\ In (sDate r) (map Date (in_range start_date end_date data))
    /\ (50 <= List.length
                (loc_upto (sDate r) (in_range start_date end_date data)))%nat
    /\ total_score ta (loc_upto (sDate r) (in_range start_date end_date data))
       = Ok (Score r).
Proof.
  rewrite table_by_file, in_flat_map. split.
  - intros (symbol & Hsym & Hr). apply file_row_iff in Hr.
    destruct Hr as (Hs & day & Hday & Hd & Hlen & Hsc). subst symbol.
    assert (Hday' := Hday). unfold in_range in Hday'.
    apply filter_In in Hday'. destruct Hday' as [Hin _].
    apply rows_of_get_stock_data in Hin. destruct Hin as (data & Hfile & _).
    exists data. rewrite (get_stock_data_loaded _ _ Hfile) in *.
    rewrite Hd. repeat split; auto. apply in_map. exact Hday.
  - intros (data & Hfile & Hdate & Hlen & Hsc). exists (Symbol r). split.
    + apply find_file_some. congruence.
    + apply file_row_iff. split; [reflexivity|].
      rewrite (get_stock_data_loaded _ _ Hfile).
      apply in_map_iff in Hdate. destruct Hdate as (day & Hd & Hday).
      exists day. rewrite Hd. auto.
Qed.

(** A line is printed exactly when an analyzer raises on such a prefix. *)
Lemma printed_iff (data_folder : folder) (start_date end_date : Z)
  (symbol : string) (date : Z) (e : exn) :
  In (ErrorCalculating symbol date e)
     (snd (load_and_score ta data_folder start_date end_date)) <->
  exists data,
    find_file symbol data_folder = Some data
    /\ In date (map Date (in_range start_date end_date data))
    /\ (50 <= List.length
                (loc_upto date (in_range start_date end_date data)))%nat
    /\ total_score ta (loc_upto date (in_range start_date end_date data))
       = Raise e.
Proof.
  rewrite printed_by_file, in_flat_map. split.
  - intros (name & Hname & Hm). apply file_message_iff in Hm.
    destruct Hm as (day & e' & Hday & Hm & Hlen & Hsc).
    injection Hm as -> -> ->.
    assert (Hday' := Hday). unfold in_range in Hday'.
    apply filter_In in Hday'. destruct Hday' as [Hin _].
    apply rows_of_get_stock_data in Hin. destruct Hin as (data & Hfile & _).
    exists data. rewrite (get_stock_data_loaded _ _ Hfile) in *.
    repeat split; auto. apply in_map. exact Hday.
  - intros (data & Hfile & Hdate & Hlen & Hsc). exists symbol. split.
    + apply find_file_some. congruence.
    + apply file_message_iff.
      rewrite (get_stock_data_loaded _ _ Hfile).
      apply in_map_iff in Hdate. destruct Hdate as (day & Hd & Hday).
      exists day, e. rewrite Hd. auto.
Qed.

End BuilderRows.

(** C3, as the code has it.  The table has a row for an instrument and a
    date exactly when the instrument has a bar of that date inside the
    analysis range, at least 50 of its bars lie inside the range at or before
    that date, and the analyzers return on them; the score is computed from
    those bars alone.  Bars before the start of the range are neither counted
    nor used, and changing bars after the date (or outside the range) changes
    neither the row nor its score. *)
Theorem rows_use_the_range_prefix (ta : TALib) (data_folder : folder)
  (start_date end_date : Z) (r : score_row) :
  (In r (load_and_score_stock_data ta data_folder start_date end_date) <->
   exists data,
     find_file (Symbol r) data_folder = Some data
     /\ In (sDate r)
           (map Date (loc_upto (sDate r)
                        (in_range start_date end_date data)))
     /\ (50 <= List.length
                 (loc_upto (sDate r)
                    (in_range start_date end_date data)))%nat
     /\ total_score ta
          (loc_upto (sDate r) (in_range start_date end_date data))
        = Ok (Score r))
  /\ (forall (data_folder' : folder) (data data' : DataFrame),
        find_file (Symbol r) data_folder = Some data ->
        find_file (Symbol r) data_folder' = Some data' ->
        loc_upto (sDate r) (in_range start_date end_date data)
        = loc_upto (sDate r) (in_range start_date end_date data') ->
        (In r (load_and_score_stock_data ta data_folder start_date end_date)
         <->
         In r (load_and_score_stock_data ta data_folder' start_date
                 end_date))).
Proof.
  split.
  - rewrite table_row_iff. split.
    + intros (data & Hfile & Hdate & Hrest). exists data.
      split; [exact Hfile|]. split; [|exact Hrest].
      apply -> date_in_prefix. exact Hdate.
    + intros (data & Hfile & Hdate & Hrest). exists data.
      split; [exact Hfile|]. split; [|exact Hrest].
      apply <- date_in_prefix. exact Hdate.
  - intros data_folder' data data' Hfile Hfile' Hsame.
    rewrite !table_row_iff. split.
    + intros (d & Hd & Hdate & Hlen & Hsc).
      assert (d = data) by congruence. subst d.
      exists data'. split; [exact Hfile'|].
      rewrite date_in_prefix in Hdate. rewrite Hsame in Hdate, Hlen, Hsc.
      rewrite date_in_prefix. auto.
    + intros (d & Hd & Hdate & Hlen & Hsc).
      assert (d = data') by congruence. subst d.
      exists data. split; [exact Hfile|].
      rewrite date_in_prefix in Hdate. rewrite <- Hsame in Hdate, Hlen, Hsc.
      rewrite date_in_prefix. auto.
Qed.

(** The table of the sample has the row of day 60, the only day with 50
    bars of the range from day 11 to day 60 behind it. *)
Lemma rows_use_the_range_prefix_witness :
  In (mkRow 60 "AAA" (11 / 5)%float)
     (load_and_score_stock_data Sample.ta_echo
        [("AAA"%string, Sample.sixty_bars)] 11 60).
Proof.
  apply (proj1 (rows_use_the_range_prefix Sample.ta_echo
                  [("AAA"%string, Sample.sixty_bars)] 11 60
                  (mkRow 60 "AAA" (11 / 5)%float))).
  exists Sample.sixty_bars. split; [reflexivity|]. split.
  - apply in_map_iff. exists (Sample.flat_bar 100 1 60). split; [reflexivity|].
    apply filter_In. split; [|reflexivity].
    apply filter_In. split; [|reflexivity].
    unfold Sample.sixty_bars. apply in_map. unfold Sample.days.
    apply in_map_iff. exists 59%nat. split; [reflexivity|].
    apply in_seq. lia.
  - split; [vm_compute; lia | vm_compute; reflexivity].
Defined.

(** C3 as stated fails, twice.  AAA has 55 bars up to and including day 55,
    which is inside the range from day 11 to day 60, and the table has no
    row for AAA on day 55, because only 45 of those bars lie inside the
    range.  And with the range from day 1 to day 60, where all 55 bars
    count, the table has no row for day 55 either when an analyzer raises on
    them. *)
Lemma row_missing_despite_fifty_bars :
  (11 <= 55 <= 60
   /\ In 55 (map Date Sample.sixty_bars)
   /\ (50 <= List.length (loc_upto 55 Sample.sixty_bars))%nat
   /\ ~ exists r,
          In r (load_and_score_stock_data Sample.ta_echo
                  [("AAA"%string, Sample.sixty_bars)] 11 60)
          /\ Symbol r = "AAA"%string /\ sDate r = 55)
  /\ (1 <= 55 <= 60
      /\ In 55 (map Date Sample.sixty_bars_gap)
      /\ (50 <= List.length
                  (loc_upto 55 (in_range 1 60 Sample.sixty_bars_gap)))%nat
      /\ ~ exists r,
             In r (load_and_score_stock_data Sample.ta_strict
                     [("AAA"%string, Sample.sixty_bars_gap)] 1 60)
             /\ Symbol r = "AAA"%string /\ sDate r = 55).
Proof.
  split.
  - split; [lia|]. split.
    + apply in_map_iff. exists (Sample.flat_bar 100 1 55).
      split; [reflexivity|].
      unfold Sample.sixty_bars. apply in_map. unfold Sample.days.
      apply in_map_iff. exists 54%nat. split; [reflexivity|].
      apply in_seq. lia.
    + split.
      * vm_compute. lia.
      * intros (r & Hin & _ & Hdate). vm_compute in Hin.
        destruct Hin as [<-|[]]. discriminate Hdate.
  - split; [lia|]. split.
    + apply in_map_iff. exists (Sample.flat_bar 100 0 55).
      split; [reflexivity|].
      unfold Sample.sixty_bars_gap. apply in_map_iff. exists 55.
      split; [reflexivity|]. unfold Sample.days.
      apply in_map_iff. exists 54%nat. split; [reflexivity|].
      apply in_seq. lia.
    + split.
      * vm_compute. lia.
      * intros (r & Hin & _ & Hdate). vm_compute in Hin.
        repeat (destruct Hin as [<-|Hin]; [discriminate Hdate|]).
        destruct Hin.
Qed.

(** ** Errors while scoring *)

Lemma filter_all {A} (p : A -> bool) (l : list A) :
  (forall x, In x l -> p x = true) -> filter p l = l.
Proof.
  induction l as [|x l IH]; intro H; simpl; [reflexivity|].
  rewrite (H x (or_introl eq_refl)), IH; [reflexivity|].
  intros y Hy. apply H. right. exact Hy.
Qed.

Lemma filter_none {A} (p : A -> bool) (l : list A) :
  (forall x, In x l -> p x = false) -> filter p l = [].
Proof.
  induction l as [|x l IH]; intro H; simpl; [reflexivity|].
  rewrite (H x (or_introl eq_refl)). apply IH.
  intros y Hy. apply H. right. exact Hy.
Qed.

Lemma find_file_skip (name symbol : string) (file : DataFrame)
  (before after : folder) :
  name <> symbol ->
  find_file name (before ++ (symbol, file) :: after)
  = find_file name (before ++ after).
Proof.
  intro Hne. induction before as [|[n f] rest IH]; simpl.
  - destruct (String.eqb_spec symbol name); [congruence | reflexivity].
  - rewrite IH. reflexivity.
Qed.

Lemma score_file_skip (ta : TALib) (name symbol : string)
  (file : DataFrame) (before after : folder)
  (start_date end_date : Z) :
  name <> symbol ->
  score_file ta (before ++ (symbol, file) :: after) start_date end_date
    ([], []) name
  = score_file ta (before ++ after) start_date end_date ([], []) name.
Proof.
  intro Hne. unfold score_file, get_stock_data.
  rewrite (find_file_skip file before after Hne). reflexivity.
Qed.

(** The rows of the other files, as the folder without [symbol] gives them. *)
Lemma other_files_rows (ta : TALib) (symbol : string)
  (file : DataFrame) (before after : folder)
  (start_date end_date : Z) (names : list string) :
  ~ In symbol names ->
  filter (other_than symbol)
    (flat_map
       (fun name =>
          fst (score_file ta (before ++ (symbol, file) :: after) start_date
                 end_date ([], []) name)) names)
  = flat_map
      (fun name =>
         fst (score_file ta (before ++ after) start_date end_date ([], [])
                name)) names.
Proof.
  induction names as [|name rest IH]; intro Hnot; simpl; [reflexivity|].
  assert (Hne : name <> symbol) by (intro; subst; apply Hnot; left; reflexivity).
  rewrite filter_app, IH by (intro; apply Hnot; right; assumption).
  rewrite (score_file_skip ta file before after start_date end_date Hne).
  f_equal. apply filter_all. intros r Hr. apply file_row_iff in Hr.
  destruct Hr as [Hs _]. unfold other_than. rewrite Hs.
  destruct (String.eqb_spec name symbol); [contradiction | reflexivity].
Qed.

(** C4, as the code has it.  The [try] is inside the loop over the dates:
    when an analyzer raises [e] on the prefix of instrument [symbol] at the
    date of [day], the error is caught and printed and no row is made for
    that instrument on that date; every other date of the instrument on
    which the analyzers return still gets its row; and the rows of the other
    instruments are those the table has without this file, in the same
    order. *)
Theorem scoring_errors_are_isolated (ta : TALib) (before after : folder)
  (symbol : string) (data : DataFrame) (start_date end_date : Z)
  (day : bar) (e : exn) :
  ~ In symbol (map fst (before ++ after)) ->
  In day (in_range start_date end_date data) ->
  (50 <= List.length
           (loc_upto (Date day) (in_range start_date end_date data)))%nat ->
  total_score ta (loc_upto (Date day) (in_range start_date end_date data))
  = Raise e ->
  In (ErrorCalculating symbol (Date day) e)
     (snd (load_and_score ta (before ++ (symbol, data) :: after)
             start_date end_date))
  /\ (forall r,
        In r (load_and_score_stock_data ta
                (before ++ (symbol, data) :: after) start_date end_date)
        -> Symbol r = symbol -> sDate r <> Date day)
  /\ (forall day' score,
        In day' (in_range start_date end_date data) ->
        (50 <= List.length
                 (loc_upto (Date day')
                    (in_range start_date end_date data)))%nat ->
        total_score ta
          (loc_upto (Date day') (in_range start_date end_date data))
        = Ok score ->
        In (mkRow (Date day') symbol score)
           (load_and_score_stock_data ta
              (before ++ (symbol, data) :: after) start_date end_date))
  /\ filter (other_than symbol)
       (load_and_score_stock_data ta
          (before ++ (symbol, data) :: after) start_date end_date)
     = load_and_score_stock_data ta (before ++ after) start_date end_date.
Proof.
  intros Hnot Hday Hlen Hraise.
  assert (Hfile : find_file symbol (before ++ (symbol, data) :: after)
                  = Some data).
  { rewrite map_app, in_app_iff in Hnot.
    induction before as [|[n f] rest IH]; simpl.
    - rewrite String.eqb_refl. reflexivity.
    - destruct (String.eqb_spec n symbol) as [->|Hne].
      + exfalso. apply Hnot. left. left. reflexivity.
      + apply IH. intros [H|H]; apply Hnot; [left; right|right]; exact H. }
  refine (conj _ (conj _ (conj _ _))).
  - apply printed_iff. exists data. split; [exact Hfile|].
    split; [apply in_map; exact Hday|]. auto.
  - intros r Hr Hs Hd. apply table_row_iff in Hr.
    destruct Hr as (d & Hd' & _ & _ & Hsc). rewrite Hs in Hd'.
    assert (d = data) by congruence. subst d.
    rewrite Hd in Hsc. congruence.
  - intros day' score Hday' Hlen' Hsc. apply table_row_iff. simpl.
    exists data. split; [exact Hfile|].
    split; [apply in_map; exact Hday'|]. auto.
  - rewrite !table_by_file. rewrite !map_app. simpl.
    rewrite !flat_map_app. simpl. rewrite !filter_app.
    rewrite map_app, in_app_iff in Hnot.
    rewrite !other_files_rows by tauto.
    f_equal. rewrite <- (app_nil_l (flat_map _ (map fst after))) at 2.
    f_equal. apply filter_none. intros r Hr. apply file_row_iff in Hr.
    destruct Hr as [Hs _]. unfold other_than. rewrite Hs, String.eqb_refl.
    reflexivity.
Qed.

Lemma scoring_errors_are_isolated_witness :
  In (ErrorCalculating "AAA" 55 (LibraryError 1))
     (snd (load_and_score Sample.ta_strict
             ([] ++ ("AAA"%string, Sample.sixty_bars_gap) :: []) 1 60)).
Proof.
  refine (proj1 (@scoring_errors_are_isolated Sample.ta_strict [] []
                   "AAA"%string Sample.sixty_bars_gap 1 60
                   (Sample.flat_bar 100 0 55) (LibraryError 1) _ _ _ _)).
  - simpl. tauto.
  - apply filter_In. split; [|reflexivity].
    unfold Sample.sixty_bars_gap. apply in_map_iff. exists 55.
    split; [reflexivity|]. unfold Sample.days.
    apply in_map_iff. exists 54%nat. split; [reflexivity|].
    apply in_seq. lia.
  - vm_compute. lia.
  - vm_compute. reflexivity.
Defined.

(** C4 as stated fails: the instrument is not skipped for the run.  The
    analyzers raise on AAA for day 55 only, the error is printed, and the
    table still has AAA's rows of the other days. *)
Lemma instrument_not_skipped_after_error :
  In (ErrorCalculating "AAA" 55 (LibraryError 1))
     (snd (load_and_score Sample.ta_strict
             [("AAA"%string, Sample.sixty_bars_gap)] 1 60))
  /\ map (fun r => (Symbol r, sDate r))
         (load_and_score_stock_data Sample.ta_strict
            [("AAA"%string, Sample.sixty_bars_gap)] 1 60)
     = map (fun d => ("AAA"%string, d)) [50; 51; 52; 53; 54; 56; 57; 58; 59; 60].
Proof.
  split.
  - vm_compute. left. reflexivity.
  - vm_compute. reflexivity.
Qed.

(** ** The position selector *)

Section Selector.

Variable sort_values : list score_row -> list score_row.

Lemma no_row_no_day_scores (date : Z) (stock_scores : list score_row) :
  (forall r, In r stock_scores -> sDate r <> date) ->
  filter (fun r => sDate r =? date) stock_scores = [].
Proof.
  intro H. apply filter_none. intros r Hr. apply Z.eqb_neq. apply H. exact Hr.
Qed.

Lemma get_best_stock_none (date : Z) (stock_scores : list score_row) :
  stock_scores <> [] ->
  (forall r, In r stock_scores -> sDate r <> date) ->
  get_best_stock sort_values date stock_scores = Ok (None, None).
Proof.
  intros Hne H. unfold get_best_stock.
  destruct stock_scores as [|r0 rest] eqn:Hscores; [congruence|].
  cbv zeta. rewrite (no_row_no_day_scores _ H). reflexivity.
Qed.

(** On the table without rows the column lookup fails before any date is
    compared. *)
Lemma get_best_stock_empty (date : Z) :
  get_best_stock sort_values date [] = Raise KeyError.
Proof. reflexivity. Qed.

(** The selection on a table that has a row of the date. *)
Lemma get_best_stock_day (date : Z) (stock_scores : list score_row) :
  filter (fun r => sDate r =? date) stock_scores <> [] ->
  get_best_stock sort_values date stock_scores
  = match sort_values (filter (fun r => sDate r =? date) stock_scores) with
    | best_stock :: _ =>
        Ok (Some (Symbol best_stock), Some (Score best_stock))
    | [] => Raise IndexError
    end.
Proof.
  intro Hne. unfold get_best_stock.
  destruct stock_scores as [|r0 rest] eqn:Hscores;
    [exfalso; apply Hne; reflexivity|].
  cbv zeta.
  destruct (filter (fun r => sDate r =? date) (r0 :: rest)); [congruence|].
  reflexivity.
Qed.

End Selector.

(** X27. The selector returns a best row of the date.  When the sort gives
    back the rows of the date in decreasing order of score, the pair
    returned is the symbol and the score of a row of that date whose score
    no other row of the date exceeds; and when one row of the date has a
    score above the score of every other, it is that row, whatever the sort
    does with rows of equal score. *)
Theorem selected_row_has_the_best_score
  (sort_values : list score_row -> list score_row) (date : Z)
  (stock_scores : list score_row) :
  Permutation
    (sort_values (filter (fun r => sDate r =? date) stock_scores))
    (filter (fun r => sDate r =? date) stock_scores) ->
  StronglySorted (fun a b => fle (Score b) (Score a) = true)
    (sort_values (filter (fun r => sDate r =? date) stock_scores)) ->
  filter (fun r => sDate r =? date) stock_scores <> [] ->
  (exists best,
     In best stock_scores /\ sDate best = date
     /\ get_best_stock sort_values date stock_scores
        = Ok (Some (Symbol best), Some (Score best))
     /\ forall r, In r stock_scores -> sDate r = date ->
          r = best \/ fle (Score r) (Score best) = true)
  /\ forall top,
       In top stock_scores -> sDate top = date ->
       (forall r, In r stock_scores -> sDate r = date ->
          r = top \/ flt (Score r) (Score top) = true) ->
       get_best_stock sort_values date stock_scores
       = Ok (Some (Symbol top), Some (Score top)).
Proof.
  intros Hperm Hsorted Hne. rewrite (get_best_stock_day _ _ _ Hne).
  set (day_scores := filter (fun r => sDate r =? date) stock_scores) in *.
  destruct (sort_values day_scores) as [|best sorted] eqn:Hsort.
  { apply Permutation_nil in Hperm. congruence. }
  assert (Hin : forall r, In r (best :: sorted) <->
                  In r stock_scores /\ sDate r = date).
  { intro r. split.
    - intro Hr. apply (Permutation_in _ Hperm) in Hr.
      apply filter_In in Hr.
      destruct Hr as [Hr Hd]. apply Z.eqb_eq in Hd. auto.
    - intros [Hr Hd]. apply (Permutation_in _ (Permutation_sym Hperm)).
      apply filter_In. split; [exact Hr|].
      apply Z.eqb_eq. exact Hd. }
  assert (Hbest : forall r, In r stock_scores -> sDate r = date ->
                    r = best \/ fle (Score r) (Score best) = true).
  { intros r Hr Hrd. destruct (proj2 (Hin r) (conj Hr Hrd)) as [<-|Htail].
    - left. reflexivity.
    - right. apply StronglySorted_inv in Hsorted.
      destruct Hsorted as [_ Hall].
      rewrite Forall_forall in Hall. apply Hall. exact Htail. }
  destruct (proj1 (Hin best) (or_introl eq_refl)) as [Hb Hd]. split.
  - exists best. auto.
  - intros top Htop Htd Habove.
    destruct (Habove best Hb Hd) as [->|Hlt]; [reflexivity|].
    destruct (Hbest top Htop Htd) as [->|Hle]; [reflexivity|]. exfalso.
    apply fle_not_fgt in Hle. unfold fgt in Hle. unfold flt in Hlt.
    congruence.
Qed.

(** The table of the sample has a tie on day 0, which the sample sort
    resolves for AAA; with BBB at 5 instead, BBB is returned. *)
Lemma selected_row_has_the_best_score_witness :
  (exists best,
     In best Sample.tied_scores /\ sDate best = 0
     /\ get_best_stock Sample.sort_desc 0 Sample.tied_scores
        = Ok (Some (Symbol best), Some (Score best))
     /\ forall r, In r Sample.tied_scores -> sDate r = 0 ->
          r = best \/ fle (Score r) (Score best) = true)
  /\ get_best_stock Sample.sort_desc 0 Sample.two_scores
     = Ok (Some "AAA"%string, Some 4%float).
Proof.
  split.
  - apply (@selected_row_has_the_best_score Sample.sort_desc 0
             Sample.tied_scores).
    + apply Permutation_refl.
    + repeat constructor.
    + discriminate.
  - apply (proj2 (@selected_row_has_the_best_score Sample.sort_desc 0
                    Sample.two_scores (Permutation_refl _)
                    ltac:(repeat constructor) ltac:(discriminate))
             (mkRow 0 "AAA" 4)).
    + left. reflexivity.
    + reflexivity.
    + intros r Hr Hd. simpl in Hr.
      destruct Hr as [<-|[<-|[<-|[<-|[]]]]];
        [left; reflexivity | right; reflexivity | discriminate Hd
        | discriminate Hd].
Defined.

(** ** The backtest simulator *)

Section Simulation.

Variable sort_values : list score_row -> list score_row.
Variable stock_scores : list score_row.
Variable stop_loss : float.
Variable reevaluation_period : Z.
Variable data_folder : folder.

Local Abbreviation select := (get_best_stock sort_values).
Local Abbreviation exit_on := (stop_loss_exit sort_values stock_scores stop_loss
                             data_folder).
Local Abbreviation watch := (monitor sort_values stock_scores stop_loss
                           data_folder).
Local Abbreviation step := (run_period sort_values stock_scores stop_loss
                          reevaluation_period data_folder).
Local Abbreviation loop := (backtest_loop sort_values stock_scores stop_loss
                          reevaluation_period data_folder).
Local Abbreviation quiet s := (fun day => breach stop_loss s day = false).

Lemma breach_price (s : state) (day : bar) :
  breach stop_loss s day = true ->
  exists price, entry_price s = Some price
                /\ fle (Low day) (stop_price stop_loss price) = true.
Proof.
  unfold breach. destruct (entry_price s) as [price|]; [|discriminate].
  intro H. exists price. auto.
Qed.

(** The loop stops at the first breach and runs the stop-loss exit there. *)
Lemma monitor_first_breach (before after : DataFrame) (day : bar)
  (stock_data : frame) (s : state) :
  Forall (quiet s) before ->
  breach stop_loss s day = true ->
  watch (before ++ day :: after) stock_data s = exit_on day s.
Proof.
  intros Hquiet Hbreach.
  destruct (breach_price _ _ Hbreach) as (price & Hprice & Hlow).
  induction Hquiet as [|d rest Hd _ IH]; simpl.
  - unfold read_entry_price. rewrite Hprice. cbn [bind]. rewrite Hlow.
    reflexivity.
  - unfold read_entry_price. rewrite Hprice. cbn [bind].
    unfold breach in Hd. rewrite Hprice in Hd. rewrite Hd. exact IH.
Qed.

(** Without a breach the loop changes nothing. *)
Lemma monitor_quiet (days : DataFrame) (stock_data : frame) (s : state)
  (price : float) :
  entry_price s = Some price ->
  Forall (quiet s) days ->
  watch days stock_data s = Ok (s, stock_data).
Proof.
  intros Hprice Hquiet. induction Hquiet as [|d rest Hd _ IH]; simpl.
  - reflexivity.
  - unfold read_entry_price. rewrite Hprice. cbn [bind].
    unfold breach in Hd. rewrite Hprice in Hd. rewrite Hd. exact IH.
Qed.

(** The two ways the loop returns. *)
Lemma monitor_cases (days : DataFrame) (stock_data : frame) (s s2 : state)
  (stock_data2 : frame) :
  watch days stock_data s = Ok (s2, stock_data2) ->
  (Forall (quiet s) days /\ s2 = s /\ stock_data2 = stock_data)
  \/ (exists before day after,
        days = before ++ day :: after
        /\ Forall (quiet s) before
        /\ breach stop_loss s day = true
        /\ exit_on day s = Ok (s2, stock_data2)).
Proof.
  induction days as [|d rest IH]; simpl.
  - intro H. injection H as <- <-. left. auto.
  - unfold read_entry_price. destruct (entry_price s) as [price|] eqn:Hprice;
      cbn [bind]; [|discriminate].
    destruct (fle (Low d) (stop_price stop_loss price)) eqn:Hlow.
    + intro H. right. exists [], d, rest. repeat split; auto.
      unfold breach. rewrite Hprice. exact Hlow.
    + intro H. destruct (IH H) as [(Hq & -> & ->)|(b & day & a & -> & Hq & Hb & He)].
      * left. repeat split; auto. constructor; [|exact Hq].
        unfold breach. rewrite Hprice. exact Hlow.
      * right. exists (d :: b), day, a. repeat split; auto.
        constructor; [|exact Hq]. unfold breach. rewrite Hprice. exact Hlow.
Qed.

(** What a stop-loss exit that returns has done. *)
Lemma stop_loss_exit_ok (day : bar) (s s2 : state) (stock_data2 : frame) :
  exit_on day s = Ok (s2, stock_data2) ->
  exists price best score new_price,
    entry_price s = Some price
    /\ select (Date day) stock_scores = Ok (best, score)
    /\ stock_data2 = get_stock_data (py_str best) data_folder
    /\ open_on stock_data2 (Date day) = Ok new_price
    /\ s2 = mkState
              (investment_log s ++
                 [mkEntry (Date day) (current_stock s) "Stop-Loss"
                    (current_shares s) (stop_price stop_loss price)
                    (current_shares s * stop_price stop_loss price)%float])
              (current_shares s * stop_price stop_loss price)%float
              best
              (current_shares s * stop_price stop_loss price / new_price)%float
              (Some new_price) (current_date s).
Proof.
  unfold stop_loss_exit, read_entry_price.
  destruct (entry_price s) as [price|]; cbn [bind]; [|discriminate].
  destruct (select (Date day) stock_scores) as [[best score]|e]; cbn [bind];
    [|discriminate].
  destruct (open_on (get_stock_data (py_str best) data_folder) (Date day))
    as [new_price|e] eqn:Hopen; cbn [bind]; [|discriminate].
  intro H. injection H as <- <-.
  exists price, best, score, new_price. auto.
Qed.

End Simulation.

Section Periods.

Variable sort_values : list score_row -> list score_row.
Variable stock_scores : list score_row.
Variable stop_loss : float.
Variable reevaluation_period : Z.
Variable data_folder : folder.

Local Abbreviation select := (get_best_stock sort_values).
Local Abbreviation exit_on := (stop_loss_exit sort_values stock_scores
                                 stop_loss data_folder).
Local Abbreviation watch := (monitor sort_values stock_scores stop_loss
                               data_folder).
Local Abbreviation step := (run_period sort_values stock_scores stop_loss
                              reevaluation_period data_folder).
Local Abbreviation loop := (backtest_loop sort_values stock_scores stop_loss
                              reevaluation_period data_folder).

Lemma symbol_eqb_eq (a b : option string) : symbol_eqb a b = true <-> a = b.
Proof.
  destruct a as [x|], b as [y|]; simpl; split; try congruence.
  - intro H. apply String.eqb_eq in H. congruence.
  - intro H. injection H as ->. apply String.eqb_refl.
Qed.

Lemma symbol_eqb_neq (a b : option string) : symbol_eqb a b = false <-> a <> b.
Proof.
  rewrite <- symbol_eqb_eq. destruct (symbol_eqb a b); split; congruence.
Qed.

(** Opening a position writes nothing in the log and leaves the date. *)
Lemma enter_or_switch_ok (best : option string) (stock_data : frame)
  (s s1 : state) :
  enter_or_switch best stock_data s = Ok s1 ->
  investment_log s1 = investment_log s
  /\ current_date s1 = current_date s
  /\ current_investment s1 = current_investment s.
Proof.
  unfold enter_or_switch.
  destruct (negb (symbol_eqb (current_stock s) best)).
  - destruct (open_on stock_data (current_date s)) as [price|e]; cbn [bind];
      [|discriminate].
    intro H. injection H as <-. simpl. auto.
  - intro H. injection H as <-. auto.
Qed.

(** The ways an iteration of the [while] loop returns. *)
Lemma run_period_cases (s s' : state) :
  step s = Ok s' ->
  s' = next_period reevaluation_period s
  \/ exists best score s1 s2 stock_data2 price,
       select (current_date s) stock_scores = Ok (best, score)
       /\ truthy best = true
       /\ empty (get_stock_data (py_str best) data_folder) = false
       /\ enter_or_switch best (get_stock_data (py_str best) data_folder) s
          = Ok s1
       /\ watch (window (get_stock_data (py_str best) data_folder)
                   (current_date s) (current_date s + reevaluation_period))
                (get_stock_data (py_str best) data_folder) s1
          = Ok (s2, stock_data2)
       /\ open_on stock_data2 (current_date s + reevaluation_period)
          = Ok price
       /\ s' = mkState
                 (investment_log s2 ++
                    [mkEntry (current_date s + reevaluation_period)
                       (current_stock s2) "Reevaluate" (current_shares s2)
                       price (current_shares s2 * price)%float])
                 (current_shares s2 * price)%float (current_stock s2)
                 (current_shares s2) (entry_price s2)
                 (current_date s2 + reevaluation_period).
Proof.
  unfold run_period.
  destruct (select (current_date s) stock_scores) as [[best score]|e];
    cbn [bind]; [|discriminate].
  destruct (truthy best) eqn:Htruthy; simpl negb; cbv iota.
  2:{ intro H. injection H as <-. left. reflexivity. }
  destruct (empty (get_stock_data (py_str best) data_folder)) eqn:Hempty.
  { intro H. injection H as <-. left. reflexivity. }
  destruct (enter_or_switch best (get_stock_data (py_str best) data_folder) s)
    as [s1|e] eqn:Henter; cbn [bind]; [|discriminate].
  destruct (watch _ (get_stock_data (py_str best) data_folder) s1)
    as [[s2 stock_data2]|e] eqn:Hwatch; cbn [bind]; [|discriminate].
  unfold reevaluate.
  destruct (open_on stock_data2 (current_date s + reevaluation_period))
    as [price|e] eqn:Hopen; cbn [bind]; [|discriminate].
  intro H. injection H as <-. right.
  exists best, score, s1, s2, stock_data2, price. repeat split; auto.
Qed.

Lemma stop_loss_exit_date (day : bar) (s s2 : state) (stock_data2 : frame) :
  exit_on day s = Ok (s2, stock_data2) -> current_date s2 = current_date s.
Proof.
  intro H. apply stop_loss_exit_ok in H.
  destruct H as (price & best & score & new_price & _ & _ & _ & _ & ->).
  reflexivity.
Qed.

Lemma monitor_date (days : DataFrame) (stock_data : frame) (s s2 : state)
  (stock_data2 : frame) :
  watch days stock_data s = Ok (s2, stock_data2) ->
  current_date s2 = current_date s.
Proof.
  intro H. apply monitor_cases in H.
  destruct H as [(_ & -> & _)|(b & day & a & _ & _ & _ & He)].
  - reflexivity.
  - apply (stop_loss_exit_date _ _ He).
Qed.

(** Every iteration that returns moves the date by the period. *)
Lemma run_period_date (s s' : state) :
  step s = Ok s' ->
  current_date s' = current_date s + reevaluation_period.
Proof.
  intro H. apply run_period_cases in H.
  destruct H as [->|(best & score & s1 & s2 & sd2 & price & _ & _ & _ & He
                     & Hw & _ & ->)].
  - reflexivity.
  - simpl. apply monitor_date in Hw. apply enter_or_switch_ok in He.
    destruct He as (_ & Hd & _). congruence.
Qed.

(** With a positive period the loop ends: [fuel] iterations are enough as
    soon as [fuel] periods lead past the last date of the table. *)
Lemma backtest_loop_ends (fuel : nat) (s : state) :
  0 < reevaluation_period ->
  max_date stock_scores - current_date s < Z.of_nat fuel * reevaluation_period ->
  loop fuel s <> None.
Proof.
  intro Hpos. revert s. induction fuel as [|fuel IH]; intros s Hfuel.
  - simpl. destruct (Z.leb_spec (current_date s) (max_date stock_scores));
      [lia | discriminate].
  - simpl. destruct (Z.leb_spec (current_date s) (max_date stock_scores));
      [|discriminate].
    destruct (step s) as [s'|e] eqn:Hstep; [|discriminate].
    apply IH. rewrite (run_period_date _ Hstep). lia.
Qed.

Lemma run_backtest_ends (initial_investment : float) :
  0 < reevaluation_period ->
  run_backtest sort_values stock_scores stop_loss reevaluation_period
    data_folder initial_investment <> None.
Proof.
  intro Hpos. unfold run_backtest.
  destruct stock_scores as [|r rest] eqn:Hscores; [discriminate|].
  rewrite <- Hscores.
  destruct (Z.eqb_spec reevaluation_period 0); [discriminate|].
  assert (Hloop : loop (periods stock_scores reevaluation_period)
                    (initial_state stock_scores initial_investment) <> None).
  { apply backtest_loop_ends; [exact Hpos|]. unfold periods, initial_state.
    simpl current_date.
    set (d := max_date stock_scores - min_date stock_scores).
    rewrite Nat2Z.inj_succ.
    destruct (Z.le_gt_cases 0 d) as [Hd|Hd].
    - rewrite Z2Nat.id by (apply Z.div_pos; lia).
      pose proof (Z.mul_succ_div_gt d reevaluation_period Hpos). lia.
    - assert (0 <= Z.of_nat (Z.to_nat (d / reevaluation_period))) by lia.
      nia. }
  destruct (loop _ _) as [[s|e]|]; [discriminate | discriminate | congruence].
Qed.

(** An iteration without a candidate, or with a candidate that has no
    data, only moves the date. *)
Lemma run_period_skipped (s : state) (best : option string)
  (score : option float) :
  select (current_date s) stock_scores = Ok (best, score) ->
  truthy best = false
  \/ empty (get_stock_data (py_str best) data_folder) = true ->
  step s = Ok (next_period reevaluation_period s).
Proof.
  intros Hbest Hskip. unfold run_period. rewrite Hbest. cbn [bind].
  destruct (truthy best); simpl negb; cbv iota; [|reflexivity].
  destruct Hskip as [Hf|He]; [discriminate Hf|]. rewrite He. reflexivity.
Qed.

(** An iteration with a candidate that has data enters or holds, watches
    the window and reevaluates. *)
Lemma run_period_held (s : state) (best : option string)
  (score : option float) :
  select (current_date s) stock_scores = Ok (best, score) ->
  truthy best = true ->
  empty (get_stock_data (py_str best) data_folder) = false ->
  step s
  = (s1 <- enter_or_switch best (get_stock_data (py_str best) data_folder) s ;;
     '(s2, stock_data2) <-
        watch (window (get_stock_data (py_str best) data_folder)
                 (current_date s) (current_date s + reevaluation_period))
              (get_stock_data (py_str best) data_folder) s1 ;;
     reevaluate reevaluation_period (current_date s + reevaluation_period)
       stock_data2 s2).
Proof.
  intros Hbest Htruthy Hempty. unfold run_period. rewrite Hbest. cbn [bind].
  rewrite Htruthy, Hempty. reflexivity.
Qed.

(** After the entry the instrument held is the selected one. *)
Lemma enter_or_switch_stock (best : option string) (stock_data : frame)
  (s s1 : state) :
  enter_or_switch best stock_data s = Ok s1 -> current_stock s1 = best.
Proof.
  unfold enter_or_switch.
  destruct (symbol_eqb (current_stock s) best) eqn:Heq; simpl negb; cbv iota.
  - intro H. injection H as <-. apply symbol_eqb_eq. exact Heq.
  - destruct (open_on stock_data (current_date s)) as [price|e]; cbn [bind];
      [|discriminate].
    intro H. injection H as <-. reflexivity.
Qed.

(** A switch opens the position at the opening price of the date. *)
Lemma enter_or_switch_opens (best : option string) (stock_data : frame)
  (s : state) (price : float) :
  current_stock s <> best ->
  open_on stock_data (current_date s) = Ok price ->
  enter_or_switch best stock_data s
  = Ok (mkState (investment_log s) (current_investment s) best
          (current_investment s / price)%float (Some price)
          (current_date s)).
Proof.
  intros Hswitch Hopen. unfold enter_or_switch.
  rewrite (proj2 (symbol_eqb_neq _ _) Hswitch). simpl negb. cbv iota.
  rewrite Hopen. reflexivity.
Qed.

(** The run of the period from the first breach of the window on: the
    Stop-Loss row, the selection of the breach day, the entry at that day's
    opening price and the reevaluation.  The days after the breach are not
    read. *)
Lemma run_period_stopped (s s1 : state) (best : option string)
  (score : option float) (entry : float) (before after : DataFrame)
  (day : bar) :
  select (current_date s) stock_scores = Ok (best, score) ->
  truthy best = true ->
  empty (get_stock_data (py_str best) data_folder) = false ->
  enter_or_switch best (get_stock_data (py_str best) data_folder) s = Ok s1 ->
  entry_price s1 = Some entry ->
  window (get_stock_data (py_str best) data_folder) (current_date s)
    (current_date s + reevaluation_period) = before ++ day :: after ->
  Forall (fun d => fle (Low d) (entry * (1 - stop_loss))%float = false)
    before ->
  fle (Low day) (entry * (1 - stop_loss))%float = true ->
  step s
  = ('(best2, score2) <- select (Date day) stock_scores ;;
     new_price <- open_on (get_stock_data (py_str best2) data_folder)
                    (Date day) ;;
     reevaluate reevaluation_period (current_date s + reevaluation_period)
       (get_stock_data (py_str best2) data_folder)
       (mkState
          (investment_log s ++
             [mkEntry (Date day) best "Stop-Loss" (current_shares s1)
                (entry * (1 - stop_loss))%float
                (current_shares s1 * (entry * (1 - stop_loss)))%float])
          (current_shares s1 * (entry * (1 - stop_loss)))%float best2
          (current_shares s1 * (entry * (1 - stop_loss)) / new_price)%float
          (Some new_price) (current_date s))).
Proof.
  intros Hbest Htruthy Hempty Henter Hentry Hwindow Hquiet Hbreach.
  rewrite (run_period_held _ Hbest Htruthy Hempty), Henter. cbn [bind].
  rewrite Hwindow, monitor_first_breach.
  - destruct (enter_or_switch_ok _ _ _ Henter) as (Hlog & Hdate & _).
    unfold stop_loss_exit, read_entry_price. rewrite Hentry. cbn [bind].
    rewrite (enter_or_switch_stock _ _ _ Henter), Hlog, Hdate.
    unfold stop_price.
    destruct (select (Date day) stock_scores) as [[best2 score2]|e];
      cbn [bind]; [|reflexivity].
    destruct (open_on (get_stock_data (py_str best2) data_folder) (Date day))
      as [new_price|e]; reflexivity.
  - apply Forall_impl with (2 := Hquiet). intros d Hd.
    unfold breach. rewrite Hentry. exact Hd.
  - unfold breach. rewrite Hentry. exact Hbreach.
Qed.

End Periods.

Section StopLoss.

Variable sort_values : list score_row -> list score_row.
Variable stock_scores : list score_row.
Variable stop_loss : float.
Variable reevaluation_period : Z.
Variable data_folder : folder.

(** C6. In a period that holds a position bought at [entry], let [day] be
    the first day of the period, among the bars of the instrument dated from
    the current date to the end date of the period, whose low is at or below
    [entry * (1 - stop_loss)].  Whatever days follow in the window, the
    iteration then is: sell at that stop price and not at the day's low,
    with the investment the shares times the stop price; append the
    Stop-Loss row of that day; select again for that day and buy what is
    selected at that day's opening price; reevaluate at the end date.  The
    selection of the breach day is not tested as the selection at the start
    of a period is: when the table has no row for the breach day, the
    iteration does not skip, it looks for a file of the name None and ends
    in a KeyError. *)
Theorem stop_loss_at_first_breach (s s1 : state) (best : option string)
  (score : option float) (entry : float) (before after : DataFrame)
  (day : bar) :
  get_best_stock sort_values (current_date s) stock_scores
  = Ok (best, score) ->
  truthy best = true ->
  empty (get_stock_data (py_str best) data_folder) = false ->
  enter_or_switch best (get_stock_data (py_str best) data_folder) s = Ok s1 ->
  entry_price s1 = Some entry ->
  filter (fun d => (current_date s <=? Date d)
                   && (Date d <=? current_date s + reevaluation_period))
    (rows_of (get_stock_data (py_str best) data_folder))
  = before ++ day :: after ->
  Forall (fun d => fle (Low d) (entry * (1 - stop_loss))%float = false)
    before ->
  fle (Low day) (entry * (1 - stop_loss))%float = true ->
  run_period sort_values stock_scores stop_loss reevaluation_period
    data_folder s
  = ('(best2, score2) <- get_best_stock sort_values (Date day) stock_scores ;;
     new_price <- open_on (get_stock_data (py_str best2) data_folder)
                    (Date day) ;;
     reevaluate reevaluation_period (current_date s + reevaluation_period)
       (get_stock_data (py_str best2) data_folder)
       (mkState
          (investment_log s ++
             [mkEntry (Date day) best "Stop-Loss" (current_shares s1)
                (entry * (1 - stop_loss))%float
                (current_shares s1 * (entry * (1 - stop_loss)))%float])
          (current_shares s1 * (entry * (1 - stop_loss)))%float best2
          (current_shares s1 * (entry * (1 - stop_loss)) / new_price)%float
          (Some new_price) (current_date s)))
  /\ ((forall r, In r stock_scores -> sDate r <> Date day) ->
      find_file "None" data_folder = None ->
      run_period sort_values stock_scores stop_loss reevaluation_period
        data_folder s = Raise KeyError).
Proof.
  intros Hbest Htruthy Hempty Henter Hentry Hwindow Hquiet Hbreach.
  split; [eapply run_period_stopped; eassumption|]. intros Hnone Hfile.
  erewrite run_period_stopped; [|eassumption ..].
  assert (Hrows : stock_scores <> []).
  { intros Hnil. rewrite Hnil in Hbest. discriminate Hbest. }
  rewrite (get_best_stock_none _ Hrows Hnone). cbn [bind py_str].
  unfold get_stock_data. rewrite Hfile. reflexivity.
Qed.

End StopLoss.

(** AAA, bought at 100 on day 0, falls to 90 on day 10.  With the scores of
    days 0 and 10, it is sold at 95 that day and BBB is bought at its
    opening price of 50; with the scores of day 0 alone the iteration, and
    with it the run, ends in a KeyError.  So does the script on a file of
    seventy bars scored up to day 60, when the low of day 62 breaches. *)
Lemma stop_loss_at_first_breach_witness :
  map (fun e => (lDate e, lSymbol e, Action e, Exit_Price e))
      (match run_period Sample.sort_desc Sample.two_scores STOP_LOSS
               REEVALUATION_PERIOD Sample.two_stocks
               (initial_state Sample.two_scores INITIAL_INVESTMENT) with
       | Ok s' => investment_log s'
       | Raise _ => []
       end)
  = [(10, Some "AAA"%string, "Stop-Loss"%string, (100 * (1 - STOP_LOSS))%float);
     (14, Some "BBB"%string, "Reevaluate"%string, 50%float)]
  /\ run_period Sample.sort_desc MoreSamples.first_day_scores STOP_LOSS
       REEVALUATION_PERIOD Sample.two_stocks
       (initial_state MoreSamples.first_day_scores INITIAL_INVESTMENT)
     = Raise KeyError
  /\ backtest Sample.sort_desc MoreSamples.first_day_scores
       INITIAL_INVESTMENT STOP_LOSS REEVALUATION_PERIOD Sample.two_stocks
     = Some (Raise KeyError)
  /\ main Sample.ta_echo Sample.sort_desc
       [("AAA"%string, MoreSamples.dip_bars)] 1 60
     = Some (Raise KeyError).
Proof.
  assert (Hwindow : filter (fun d => (0 <=? Date d)
                                     && (Date d <=? 0 + REEVALUATION_PERIOD))
                      (rows_of (get_stock_data "AAA" Sample.two_stocks))
                    = firstn 10 Sample.aaa_bars
                      ++ mkBar 10 100 101 90 100 1
                         :: skipn 11 Sample.aaa_bars) by reflexivity.
  assert (Hquiet : Forall
                     (fun d => fle (Low d) (100 * (1 - STOP_LOSS))%float
                               = false)
                     (firstn 10 Sample.aaa_bars)) by (repeat constructor).
  refine (conj _ (conj _ (conj _ _))).
  - rewrite (proj1 (@stop_loss_at_first_breach Sample.sort_desc
                      Sample.two_scores STOP_LOSS REEVALUATION_PERIOD
                      Sample.two_stocks
                      (initial_state Sample.two_scores INITIAL_INVESTMENT)
                      (mkState [] INITIAL_INVESTMENT (Some "AAA"%string)
                         (INITIAL_INVESTMENT / 100)%float (Some 100%float) 0)
                      (Some "AAA"%string) (Some 4%float) 100%float
                      (firstn 10 Sample.aaa_bars)
                      (skipn 11 Sample.aaa_bars) (mkBar 10 100 101 90 100 1)
                      eq_refl eq_refl eq_refl eq_refl eq_refl Hwindow Hquiet
                      eq_refl)).
    reflexivity.
  - apply (proj2 (@stop_loss_at_first_breach Sample.sort_desc
                    MoreSamples.first_day_scores STOP_LOSS
                    REEVALUATION_PERIOD Sample.two_stocks
                    (initial_state MoreSamples.first_day_scores
                       INITIAL_INVESTMENT)
                    (mkState [] INITIAL_INVESTMENT (Some "AAA"%string)
                       (INITIAL_INVESTMENT / 100)%float (Some 100%float) 0)
                    (Some "AAA"%string) (Some 4%float) 100%float
                    (firstn 10 Sample.aaa_bars)
                    (skipn 11 Sample.aaa_bars) (mkBar 10 100 101 90 100 1)
                    eq_refl eq_refl eq_refl eq_refl eq_refl Hwindow Hquiet
                    eq_refl)).
    + intros r Hr. simpl in Hr.
      destruct Hr as [<-|[<-|[]]]; simpl; lia.
    + reflexivity.
  - reflexivity.
  - vm_compute. reflexivity.
Defined.

Section Partiality.

Variable sort_values : list score_row -> list score_row.
Variable stock_scores : list score_row.
Variable stop_loss : float.
Variable reevaluation_period : Z.
Variable data_folder : folder.

(** C9. For a date without a row in a score table that has rows, the
    selector returns [(None, None)] and does not raise; the simulator then
    moves the date by one reevaluation period and changes nothing else: no
    log entry, the same investment value and the same position.  On the
    table without any row, the frame without columns that the builder
    returns when it has scored nothing, the selector raises a KeyError
    instead, and so does the iteration. *)
Theorem no_candidate_skips_the_period (s : state) :
  (forall r, In r stock_scores -> sDate r <> current_date s) ->
  (stock_scores <> [] ->
   get_best_stock sort_values (current_date s) stock_scores = Ok (None, None)
   /\ run_period sort_values stock_scores stop_loss reevaluation_period
        data_folder s
      = Ok (mkState (investment_log s) (current_investment s)
              (current_stock s) (current_shares s) (entry_price s)
              (current_date s + reevaluation_period)))
  /\ (stock_scores = [] ->
      get_best_stock sort_values (current_date s) stock_scores
      = Raise KeyError
      /\ run_period sort_values stock_scores stop_loss reevaluation_period
           data_folder s
         = Raise KeyError).
Proof.
  intro Hnone. split.
  - intro Hrows.
    pose proof (get_best_stock_none sort_values Hrows Hnone) as Hbest.
    split; [exact Hbest|].
    unfold run_period. rewrite Hbest. reflexivity.
  - intros ->. split; reflexivity.
Qed.

Lemma open_on_loaded (stock_data : frame) (date : Z) (price : float) :
  open_on stock_data date = Ok price -> exists rows, stock_data = Loaded rows.
Proof.
  destruct stock_data as [|rows]; simpl; [discriminate|].
  intros _. exists rows. reflexivity.
Qed.

Lemma not_empty_loaded (stock_data : frame) :
  empty stock_data = false -> exists rows, stock_data = Loaded rows.
Proof.
  destruct stock_data as [|rows]; simpl; [discriminate|].
  intros _. exists rows. reflexivity.
Qed.

(** Indexing an empty selection: no bar of that date in a loaded file. *)
Lemma open_on_missing (rows : DataFrame) (date : Z) :
  ~ In date (map Date rows) -> open_on (Loaded rows) date = Raise IndexError.
Proof.
  intro Hnot. simpl.
  rewrite (@filter_none _ (fun b => Date b =? date) rows); [reflexivity|].
  intros b Hb. apply Z.eqb_neq. intro Heq. apply Hnot.
  rewrite <- Heq. apply in_map. exact Hb.
Qed.

(** C10. [backtest] is partial: an iteration that selects an instrument
    raises [IndexError], which nothing catches, so the run ends there, when
    the instrument to enter has no bar on the current date, when the
    instrument bought after a stop-loss has no bar on the breach day, and
    when the instrument held at the end of the period has no bar on the end
    date of the period. *)
Theorem missing_bar_aborts_the_backtest (fuel : nat) (s : state)
  (best : option string) (score : option float) :
  current_date s <= max_date stock_scores ->
  get_best_stock sort_values (current_date s) stock_scores = Ok (best, score) ->
  truthy best = true ->
  empty (get_stock_data (py_str best) data_folder) = false ->
  (current_stock s <> best ->
   ~ In (current_date s)
        (dates_of (get_stock_data (py_str best) data_folder)) ->
   backtest_loop sort_values stock_scores stop_loss reevaluation_period
     data_folder (S fuel) s = Some (Raise IndexError))
  /\ (forall s1 before day after best2 score2 rows2,
        enter_or_switch best (get_stock_data (py_str best) data_folder) s
        = Ok s1 ->
        window (get_stock_data (py_str best) data_folder) (current_date s)
          (current_date s + reevaluation_period)
        = before ++ day :: after ->
        Forall (fun d => breach stop_loss s1 d = false) before ->
        breach stop_loss s1 day = true ->
        get_best_stock sort_values (Date day) stock_scores
        = Ok (best2, score2) ->
        get_stock_data (py_str best2) data_folder = Loaded rows2 ->
        ~ In (Date day) (map Date rows2) ->
        backtest_loop sort_values stock_scores stop_loss reevaluation_period
          data_folder (S fuel) s = Some (Raise IndexError))
  /\ (forall s1 s2 stock_data2,
        enter_or_switch best (get_stock_data (py_str best) data_folder) s
        = Ok s1 ->
        monitor sort_values stock_scores stop_loss data_folder
          (window (get_stock_data (py_str best) data_folder) (current_date s)
             (current_date s + reevaluation_period))
          (get_stock_data (py_str best) data_folder) s1
        = Ok (s2, stock_data2) ->
        ~ In (current_date s + reevaluation_period) (dates_of stock_data2) ->
        backtest_loop sort_values stock_scores stop_loss reevaluation_period
          data_folder (S fuel) s = Some (Raise IndexError)).
Proof.
  intros Hdate Hbest Htruthy Hempty.
  assert (Hloop : forall e,
            run_period sort_values stock_scores stop_loss reevaluation_period
              data_folder s = Raise e ->
            backtest_loop sort_values stock_scores stop_loss
              reevaluation_period data_folder (S fuel) s = Some (Raise e)).
  { intros e He. simpl. rewrite He.
    destruct (Z.leb_spec (current_date s) (max_date stock_scores));
      [reflexivity | lia]. }
  destruct (@not_empty_loaded _ Hempty) as [rows Hrows].
  refine (conj _ (conj _ _)).
  - intros Hswitch Hnot. apply Hloop. unfold run_period.
    rewrite Hbest. cbn [bind]. rewrite Htruthy, Hempty. simpl negb. cbv iota.
    unfold enter_or_switch.
    rewrite (proj2 (@symbol_eqb_neq _ _) Hswitch). simpl negb. cbv iota.
    rewrite Hrows in *. unfold dates_of in Hnot. simpl rows_of in Hnot.
    rewrite (@open_on_missing _ _ Hnot). reflexivity.
  - intros s1 before day after best2 score2 rows2 Henter Hwindow Hquiet
      Hbreach Hbest2 Hrows2 Hnot.
    apply Hloop. unfold run_period.
    rewrite Hbest. cbn [bind]. rewrite Htruthy, Hempty. simpl negb. cbv iota.
    rewrite Henter. cbn [bind]. rewrite Hwindow.
    rewrite (@monitor_first_breach _ _ _ _ _ _ _ _ _ Hquiet Hbreach).
    destruct (@breach_price _ _ _ Hbreach) as (price & Hprice & _).
    unfold stop_loss_exit, read_entry_price. rewrite Hprice. cbn [bind].
    rewrite Hbest2. cbn [bind]. rewrite Hrows2.
    rewrite (@open_on_missing _ _ Hnot). reflexivity.
  - intros s1 s2 stock_data2 Henter Hwatch Hnot.
    apply Hloop. unfold run_period.
    rewrite Hbest. cbn [bind]. rewrite Htruthy, Hempty. simpl negb. cbv iota.
    rewrite Henter. cbn [bind]. rewrite Hwatch. cbn [bind].
    assert (Hloaded : exists rows2, stock_data2 = Loaded rows2).
    { apply monitor_cases in Hwatch.
      destruct Hwatch as [(_ & _ & ->)|(b & d & a & _ & _ & _ & He)].
      - exists rows. exact Hrows.
      - apply stop_loss_exit_ok in He.
        destruct He as (p & b2 & sc2 & np & _ & _ & _ & Hopen & _).
        apply (@open_on_loaded _ _ _ Hopen). }
    destruct Hloaded as [rows2 ->]. unfold dates_of in Hnot.
    simpl rows_of in Hnot. unfold reevaluate.
    rewrite (@open_on_missing _ _ Hnot). reflexivity.
Qed.

End Partiality.

(** Day 5 has no row in the sample table, and no table has a row when the
    builder has scored nothing. *)
Lemma no_candidate_skips_the_period_witness :
  (get_best_stock Sample.sort_desc 5 Sample.two_scores = Ok (None, None)
   /\ run_period Sample.sort_desc Sample.two_scores STOP_LOSS
        REEVALUATION_PERIOD Sample.two_stocks
        (mkState [] 50000 (Some "AAA"%string) 500 (Some 100%float) 5)
      = Ok (mkState [] 50000 (Some "AAA"%string) 500 (Some 100%float) 19))
  /\ (get_best_stock Sample.sort_desc 5 [] = Raise KeyError
      /\ run_period Sample.sort_desc [] STOP_LOSS REEVALUATION_PERIOD
           Sample.two_stocks
           (mkState [] 50000 (Some "AAA"%string) 500 (Some 100%float) 5)
         = Raise KeyError).
Proof.
  split.
  - apply (@no_candidate_skips_the_period Sample.sort_desc Sample.two_scores
             STOP_LOSS REEVALUATION_PERIOD Sample.two_stocks
             (mkState [] 50000 (Some "AAA"%string) 500 (Some 100%float) 5)).
    + intros r Hr. simpl in Hr.
      destruct Hr as [<-|[<-|[<-|[<-|[]]]]]; simpl; lia.
    + discriminate.
  - apply (@no_candidate_skips_the_period Sample.sort_desc [] STOP_LOSS
             REEVALUATION_PERIOD Sample.two_stocks
             (mkState [] 50000 (Some "AAA"%string) 500 (Some 100%float) 5)).
    + intros r [].
    + reflexivity.
Defined.

(** CCC has a bar on day 0 and none on day 14, the end of the first period:
    the run ends in [IndexError]. *)
Lemma missing_bar_aborts_the_backtest_witness :
  backtest_loop Sample.sort_desc Sample.one_score STOP_LOSS
    REEVALUATION_PERIOD Sample.one_bar_stock 1
    (initial_state Sample.one_score INITIAL_INVESTMENT)
  = Some (Raise IndexError)
  /\ backtest Sample.sort_desc Sample.one_score INITIAL_INVESTMENT STOP_LOSS
       REEVALUATION_PERIOD Sample.one_bar_stock
     = Some (Raise IndexError).
Proof.
  assert (H : backtest_loop Sample.sort_desc Sample.one_score STOP_LOSS
                REEVALUATION_PERIOD Sample.one_bar_stock 1
                (initial_state Sample.one_score INITIAL_INVESTMENT)
              = Some (Raise IndexError)).
  { refine (proj2 (proj2 (@missing_bar_aborts_the_backtest Sample.sort_desc
                     Sample.one_score STOP_LOSS REEVALUATION_PERIOD
                     Sample.one_bar_stock 0
                     (initial_state Sample.one_score INITIAL_INVESTMENT)
                     (Some "CCC"%string) (Some 3%float) _ _ _ _))
                  (mkState [] INITIAL_INVESTMENT (Some "CCC"%string)
                     (INITIAL_INVESTMENT / 10)%float (Some 10%float) 0)
                  (mkState [] INITIAL_INVESTMENT (Some "CCC"%string)
                     (INITIAL_INVESTMENT / 10)%float (Some 10%float) 0)
                  (Loaded [Sample.flat_bar 10 1 0]) _ _ _).
    - vm_compute. discriminate.
    - reflexivity.
    - reflexivity.
    - reflexivity.
    - reflexivity.
    - reflexivity.
    - vm_compute. intros [H|[]]. discriminate H. }
  split; [exact H | reflexivity].
Defined.

Section Ledger.

Variable sort_values : list score_row -> list score_row.
Variable stock_scores : list score_row.
Variable stop_loss : float.
Variable reevaluation_period : Z.
Variable data_folder : folder.

(** C1, as the code has it.  The statements that append the Reevaluate row
    follow the monitoring loop without a condition.  An iteration that
    returns has left the log as it was exactly when it skipped the period,
    for want of a candidate or of data for it.  Otherwise it has appended a
    Reevaluate row dated at the end of the period, whether or not a
    stop-loss fired: when no bar of the instrument dated from the current
    date to the end date breaches, that row, for the selected instrument,
    is all the period appends; when one breaches,
    the period appends the Stop-Loss row of the first such day, for the
    selected instrument, and after it the Reevaluate row, for the
    instrument that is selected and bought on the breach day. *)
Theorem completed_period_ends_with_reevaluate (s s' : state)
  (best : option string) (score : option float) :
  get_best_stock sort_values (current_date s) stock_scores
  = Ok (best, score) ->
  run_period sort_values stock_scores stop_loss reevaluation_period
    data_folder s = Ok s' ->
  (truthy best = false
   \/ empty (get_stock_data (py_str best) data_folder) = true ->
   investment_log s' = investment_log s)
  /\ (truthy best = true ->
      empty (get_stock_data (py_str best) data_folder) = false ->
      exists s1,
        enter_or_switch best (get_stock_data (py_str best) data_folder) s
        = Ok s1
        /\ (Forall (fun d => breach stop_loss s1 d = false)
              (filter (fun d => (current_date s <=? Date d)
                                && (Date d
                                    <=? current_date s + reevaluation_period))
                 (rows_of (get_stock_data (py_str best) data_folder))) ->
            exists price,
              open_on (get_stock_data (py_str best) data_folder)
                (current_date s + reevaluation_period) = Ok price
              /\ investment_log s'
                 = investment_log s ++
                     [mkEntry (current_date s + reevaluation_period) best
                        "Reevaluate" (current_shares s1) price
                        (current_shares s1 * price)%float])
        /\ (forall before day after,
              filter (fun d => (current_date s <=? Date d)
                               && (Date d
                                   <=? current_date s + reevaluation_period))
                (rows_of (get_stock_data (py_str best) data_folder))
              = before ++ day :: after ->
              Forall (fun d => breach stop_loss s1 d = false) before ->
              breach stop_loss s1 day = true ->
              exists entry best2 score2 new_price price,
                entry_price s1 = Some entry
                /\ get_best_stock sort_values (Date day) stock_scores
                   = Ok (best2, score2)
                /\ open_on (get_stock_data (py_str best2) data_folder)
                     (Date day) = Ok new_price
                /\ open_on (get_stock_data (py_str best2) data_folder)
                     (current_date s + reevaluation_period) = Ok price
                /\ investment_log s'
                   = investment_log s ++
                       [mkEntry (Date day) best "Stop-Loss"
                          (current_shares s1) (stop_price stop_loss entry)
                          (current_shares s1 * stop_price stop_loss entry)%float;
                        mkEntry (current_date s + reevaluation_period) best2
                          "Reevaluate"
                          (current_shares s1 * stop_price stop_loss entry
                           / new_price)%float
                          price
                          (current_shares s1 * stop_price stop_loss entry
                           / new_price * price)%float])).
Proof.
  intros Hbest Hstep. split.
  - intro Hskip. erewrite run_period_skipped in Hstep by eassumption.
    injection Hstep as <-. reflexivity.
  - intros Htruthy Hempty.
    erewrite run_period_held in Hstep by eassumption.
    destruct (enter_or_switch best (get_stock_data (py_str best) data_folder)
                s) as [s1|e] eqn:Henter; cbn [bind] in Hstep;
      [|discriminate Hstep].
    exists s1. split; [reflexivity|].
    destruct (enter_or_switch_ok _ _ _ Henter) as (Hlog & _ & _).
    pose proof (enter_or_switch_stock _ _ _ Henter) as Hstock.
    destruct (monitor sort_values stock_scores stop_loss data_folder _
                (get_stock_data (py_str best) data_folder) s1)
      as [[s2 stock_data2]|e] eqn:Hwatch; cbn [bind] in Hstep;
      [|discriminate Hstep].
    unfold window, in_range in Hwatch. unfold reevaluate in Hstep.
    destruct (open_on stock_data2 (current_date s + reevaluation_period))
      as [price|e] eqn:Hopen; cbn [bind] in Hstep; [|discriminate Hstep].
    injection Hstep as <-. cbn [investment_log]. split.
    + intro Hquiet. apply monitor_cases in Hwatch.
      destruct Hwatch as [(_ & -> & ->)|(b & d & a & Hw & _ & Hb & _)].
      * exists price. rewrite Hlog, Hstock. auto.
      * exfalso. rewrite Hw in Hquiet. apply Forall_app in Hquiet.
        destruct Hquiet as [_ Hq]. apply Forall_inv in Hq. congruence.
    + intros before day after Hwindow Hquiet Hbreach.
      rewrite Hwindow in Hwatch.
      erewrite monitor_first_breach in Hwatch by eassumption.
      apply stop_loss_exit_ok in Hwatch.
      destruct Hwatch as (entry & best2 & score2 & new_price & Hentry & Hbest2
                          & -> & Hnew & ->).
      exists entry, best2, score2, new_price, price.
      cbn [investment_log current_stock current_shares].
      rewrite Hlog, Hstock, <- app_assoc. auto.
Qed.

(** An iteration only appends Stop-Loss and Reevaluate rows. *)
Lemma run_period_actions (s s' : state) :
  run_period sort_values stock_scores stop_loss reevaluation_period
    data_folder s = Ok s' ->
  Forall logged_action (investment_log s) ->
  Forall logged_action (investment_log s').
Proof.
  intros Hstep Hlog. apply run_period_cases in Hstep.
  destruct Hstep as [->|(best & score & s1 & s2 & sd2 & price & _ & _ & _
                         & Henter & Hwatch & _ & ->)]; [exact Hlog|].
  destruct (enter_or_switch_ok _ _ _ Henter) as (Hlog1 & _ & _).
  simpl. rewrite Forall_app. split.
  - apply monitor_cases in Hwatch.
    destruct Hwatch as [(_ & -> & _)|(b & day & a & _ & _ & _ & He)].
    + rewrite Hlog1. exact Hlog.
    + apply stop_loss_exit_ok in He.
      destruct He as (entry & best2 & score2 & new_price & _ & _ & _ & _ & ->).
      simpl. rewrite Forall_app, Hlog1. split; [exact Hlog|].
      constructor; [left; reflexivity | constructor].
  - constructor; [right; reflexivity | constructor].
Qed.

Lemma backtest_loop_actions (fuel : nat) (s s' : state) :
  backtest_loop sort_values stock_scores stop_loss reevaluation_period
    data_folder fuel s = Some (Ok s') ->
  Forall logged_action (investment_log s) ->
  Forall logged_action (investment_log s').
Proof.
  revert s. induction fuel as [|fuel IH]; intros s; simpl.
  - destruct (current_date s <=? max_date stock_scores); [discriminate|].
    intro H. injection H as <-. auto.
  - destruct (current_date s <=? max_date stock_scores).
    + destruct (run_period _ _ _ _ _ s) as [s1|e] eqn:Hstep; [|discriminate].
      intros Hloop Hlog. apply (IH _ Hloop).
      apply (run_period_actions _ Hstep Hlog).
    + intro H. injection H as <-. auto.
Qed.

End Ledger.

(** In the first period of the sample a stop-loss fires on day 10, and the
    period still ends with its Reevaluate row, for BBB, which is bought that
    day. *)
Lemma completed_period_ends_with_reevaluate_witness :
  exists s',
    run_period Sample.sort_desc Sample.two_scores STOP_LOSS
      REEVALUATION_PERIOD Sample.two_stocks
      (initial_state Sample.two_scores INITIAL_INVESTMENT) = Ok s'
    /\ map (fun e => (lDate e, lSymbol e, Action e)) (investment_log s')
       = [(10, Some "AAA", "Stop-Loss"); (14, Some "BBB", "Reevaluate")]%string.
Proof.
  eexists. split; [reflexivity|].
  match goal with
  | |- map _ (investment_log ?s') = _ =>
      destruct (@completed_period_ends_with_reevaluate Sample.sort_desc
                  Sample.two_scores STOP_LOSS REEVALUATION_PERIOD
                  Sample.two_stocks
                  (initial_state Sample.two_scores INITIAL_INVESTMENT) s'
                  (Some "AAA"%string) (Some 4%float) eq_refl eq_refl)
        as [_ Hheld]
  end.
  destruct (Hheld eq_refl eq_refl) as (s1 & Henter & _ & Hstop).
  injection Henter as <-.
  destruct (Hstop (firstn 10 Sample.aaa_bars) (mkBar 10 100 101 90 100 1)
              (skipn 11 Sample.aaa_bars) eq_refl
              ltac:(repeat constructor) eq_refl)
    as (entry & best2 & score2 & new_price & price & Hentry & Hbest2 & _ & _
        & Hlog).
  rewrite Hlog. injection Hbest2 as <- _. reflexivity.
Defined.

(** C1 as stated fails: a stop-loss fires on day 10 of the period from day 0
    to day 14, and the log has the Stop-Loss row of day 10 and a Reevaluate
    row for that same period, dated day 14. *)
Lemma reevaluate_follows_stop_loss :
  exists log,
    backtest Sample.sort_desc Sample.two_scores INITIAL_INVESTMENT STOP_LOSS
      REEVALUATION_PERIOD Sample.two_stocks = Some (Ok log)
    /\ map (fun e => (lDate e, lSymbol e, Action e)) log
       = [(10, Some "AAA", "Stop-Loss"); (14, Some "BBB", "Reevaluate")]%string.
Proof. eexists. split; reflexivity. Qed.

Section Switch.

Variable sort_values : list score_row -> list score_row.
Variable stock_scores : list score_row.
Variable stop_loss : float.
Variable reevaluation_period : Z.
Variable data_folder : folder.

(** C2, as the code has it.  When the instrument selected for the current
    date differs from the one held (none held included) and its file has a
    bar of that date, the iteration opens the position at that bar's opening
    price with [shares = investment / entry_price] and writes nothing in the
    log for it: the period is watched and reevaluated from the state that
    holds the new position and the log as it was.  So the first row that
    the iteration appends is for the selected instrument and for these
    shares, and every row it appends is a Stop-Loss or a Reevaluate row:
    there is no Switch row. *)
Theorem switch_opens_without_log_entry (s : state) (best : option string)
  (score : option float) (price : float) :
  get_best_stock sort_values (current_date s) stock_scores
  = Ok (best, score) ->
  truthy best = true ->
  empty (get_stock_data (py_str best) data_folder) = false ->
  current_stock s <> best ->
  open_on (get_stock_data (py_str best) data_folder) (current_date s)
  = Ok price ->
  run_period sort_values stock_scores stop_loss reevaluation_period
    data_folder s
  = ('(s2, stock_data2) <-
       monitor sort_values stock_scores stop_loss data_folder
         (filter (fun d => (current_date s <=? Date d)
                           && (Date d <=? current_date s + reevaluation_period))
            (rows_of (get_stock_data (py_str best) data_folder)))
         (get_stock_data (py_str best) data_folder)
         (mkState (investment_log s) (current_investment s) best
            (current_investment s / price)%float (Some price)
            (current_date s)) ;;
     reevaluate reevaluation_period (current_date s + reevaluation_period)
       stock_data2 s2)
  /\ forall s',
       run_period sort_values stock_scores stop_loss reevaluation_period
         data_folder s = Ok s' ->
       exists first rest,
         investment_log s' = investment_log s ++ first :: rest
         /\ lSymbol first = best
         /\ Shares first = (current_investment s / price)%float
         /\ Forall logged_action (first :: rest).
Proof.
  intros Hbest Htruthy Hempty Hswitch Hopen.
  assert (Hrun : run_period sort_values stock_scores stop_loss
                   reevaluation_period data_folder s
                 = ('(s2, stock_data2) <-
                      monitor sort_values stock_scores stop_loss data_folder
                        (filter
                           (fun d => (current_date s <=? Date d)
                                     && (Date d
                                         <=? current_date s
                                             + reevaluation_period))
                           (rows_of
                              (get_stock_data (py_str best) data_folder)))
                        (get_stock_data (py_str best) data_folder)
                        (mkState (investment_log s) (current_investment s)
                           best (current_investment s / price)%float
                           (Some price) (current_date s)) ;;
                    reevaluate reevaluation_period
                      (current_date s + reevaluation_period) stock_data2 s2)).
  { erewrite run_period_held by eassumption.
    erewrite enter_or_switch_opens by eassumption. reflexivity. }
  split; [exact Hrun|]. intros s' Hstep. rewrite Hrun in Hstep.
  destruct (monitor sort_values stock_scores stop_loss data_folder _ _ _)
    as [[s2 stock_data2]|e] eqn:Hwatch; cbn [bind] in Hstep;
    [|discriminate Hstep].
  unfold reevaluate in Hstep.
  destruct (open_on stock_data2 (current_date s + reevaluation_period))
    as [end_price|e]; cbn [bind] in Hstep; [|discriminate Hstep].
  injection Hstep as <-. cbn [investment_log].
  apply monitor_cases in Hwatch.
  destruct Hwatch as [(_ & -> & _)|(b & d & a & _ & _ & _ & Hexit)].
  - eexists. exists []. cbn [investment_log current_stock current_shares].
    split; [reflexivity|]. split; [reflexivity|]. split; [reflexivity|].
    constructor; [right; reflexivity | constructor].
  - apply stop_loss_exit_ok in Hexit.
    destruct Hexit as (entry & best2 & score2 & new_price & _ & _ & _ & _
                       & ->).
    cbn [investment_log current_stock current_shares].
    rewrite <- app_assoc. eexists. eexists.
    split; [reflexivity|]. split; [reflexivity|]. split; [reflexivity|].
    constructor; [left; reflexivity|].
    constructor; [right; reflexivity | constructor].
Qed.

End Switch.

(** On day 0 nothing is held and AAA is selected: it is bought at its opening
    price of 100, and the first row of the period, the Stop-Loss row of day
    10, is for AAA and for the shares bought. *)
Lemma switch_opens_without_log_entry_witness :
  exists s' first rest,
    run_period Sample.sort_desc Sample.two_scores STOP_LOSS
      REEVALUATION_PERIOD Sample.two_stocks
      (initial_state Sample.two_scores INITIAL_INVESTMENT) = Ok s'
    /\ investment_log s' = first :: rest
    /\ lSymbol first = Some "AAA"%string
    /\ Shares first = (INITIAL_INVESTMENT / 100)%float
    /\ Forall logged_action (first :: rest).
Proof.
  eexists.
  match goal with
  | |- exists first rest, _ = Ok ?s' /\ _ =>
      destruct (proj2 (@switch_opens_without_log_entry Sample.sort_desc
                         Sample.two_scores STOP_LOSS REEVALUATION_PERIOD
                         Sample.two_stocks
                         (initial_state Sample.two_scores INITIAL_INVESTMENT)
                         (Some "AAA"%string) (Some 4%float) 100%float
                         eq_refl eq_refl eq_refl ltac:(discriminate) eq_refl)
                  s' eq_refl)
        as (first & rest & Hlog & Hsymbol & Hshares & Hactions)
  end.
  exists first, rest. split; [reflexivity|]. auto.
Defined.

(** C2 as stated fails: nothing is held on day 0, AAA is selected and
    bought, BBB replaces it on day 10, and the log of the run has no Switch
    row. *)
Lemma switch_is_not_logged :
  current_stock (initial_state Sample.two_scores INITIAL_INVESTMENT) = None
  /\ get_best_stock Sample.sort_desc 0 Sample.two_scores
     = Ok (Some "AAA"%string, Some 4%float)
  /\ exists log,
       backtest Sample.sort_desc Sample.two_scores INITIAL_INVESTMENT
         STOP_LOSS REEVALUATION_PERIOD Sample.two_stocks = Some (Ok log)
       /\ map lSymbol log = [Some "AAA"%string; Some "BBB"%string]
       /\ ~ In "Switch"%string (map Action log).
Proof.
  split; [reflexivity|]. split; [reflexivity|].
  eexists. split; [reflexivity|]. split; [reflexivity|].
  simpl. intros [H|[H|[]]]; discriminate H.
Qed.

(** * Further properties *)

(** ** The shape of the signals *)

Lemma iloc_is_last (s : Series) (c d : float) :
  iloc_neg 1 s = Ok c -> c = last s d.
Proof.
  intro H. destruct s as [|x s'].
  - discriminate H.
  - rewrite (@iloc_last (x :: s') d) in H by discriminate.
    injection H as <-. reflexivity.
Qed.

Ltac split_result H :=
  repeat match type of H with
    | context [bind ?m _] =>
        let E := fresh "E" in destruct m eqn:E; cbn [bind] in H
    | context [if ?b then _ else _] =>
        let E := fresh "E" in destruct b eqn:E
    end.

Ltac close_signal d :=
  match goal with
  | H : Ok _ = Ok _ |- _ => injection H as <-; simpl; tauto
  | H : enter_now _ _ = Ok _ |- _ =>
      unfold enter_now in H; split_result H; try discriminate H;
      injection H as <-;
      match goal with
      | E : iloc_neg 1 _ = Ok _ |- _ =>
          rewrite (iloc_is_last _ d E); simpl; tauto
      end
  | H : exit_now _ _ = Ok _ |- _ =>
      unfold exit_now in H; split_result H; try discriminate H;
      injection H as <-;
      match goal with
      | E : iloc_neg 1 _ = Ok _ |- _ =>
          rewrite (iloc_is_last _ d E); simpl; tauto
      end
  | H : Raise _ = Ok _ |- _ => discriminate H
  end.

Section SignalShape.

Variable ta : TALib.
Variable data : DataFrame.

Local Abbreviation close := (last (col Close data) 0%float).

Lemma ema_shape (sig : signal) :
  analyze_ema ta data = Ok sig -> signal_shape close sig.
Proof.
  unfold analyze_ema, and_then, cmp_at. intro H.
  split_result H; close_signal 0%float.
Qed.

Lemma rsi_shape (sig : signal) :
  analyze_rsi ta data = Ok sig -> signal_shape close sig.
Proof.
  unfold analyze_rsi, and_then, cmp_const. intro H. cbv zeta in H.
  split_result H; close_signal 0%float.
Qed.

Lemma adx_shape (sig : signal) :
  analyze_adx ta data = Ok sig -> signal_shape close sig.
Proof.
  unfold analyze_adx, cmp_const, cmp_at. intro H. cbv zeta in H.
  split_result H; close_signal 0%float.
Qed.

Lemma donchian_shape (sig : signal) :
  analyze_donchian ta data = Ok sig -> signal_shape close sig.
Proof.
  unfold analyze_donchian. intro H. cbv zeta in H.
  split_result H; close_signal 0%float.
Qed.

Lemma volume_shape (sig : signal) :
  analyze_volume ta data = Ok sig -> signal_shape close sig.
Proof.
  unfold analyze_volume, and_then, cmp_at. intro H. cbv zeta in H.
  split_result H; close_signal 0%float.
Qed.

End SignalShape.

(** X1. Whatever the history and the indicator library, a signal that one of
    the five analyzers returns has a score from 1 to 5 and at most one
    price: none with 3, the latest close as entry price with 4 and 5, the
    latest close as exit price with 1 and 2. *)
Theorem signals_have_one_price (ta : TALib) (data : DataFrame) (sig : signal) :
  analyze_ema ta data = Ok sig \/ analyze_rsi ta data = Ok sig
  \/ analyze_adx ta data = Ok sig \/ analyze_donchian ta data = Ok sig
  \/ analyze_volume ta data = Ok sig ->
  signal_shape (last (col Close data) 0%float) sig.
Proof.
  intros [H|[H|[H|[H|H]]]].
  - exact (ema_shape _ _ H).
  - exact (rsi_shape _ _ H).
  - exact (adx_shape _ _ H).
  - exact (donchian_shape _ _ H).
  - exact (volume_shape _ _ H).
Qed.

Lemma signals_have_one_price_witness :
  signal_shape 10%float (5, Some 10%float, None).
Proof.
  apply (@signals_have_one_price Sample.ta_echo Sample.trending_bars
           (5, Some 10%float, None)).
  right. right. left. reflexivity.
Defined.

(** ** NaN in the indicator series *)

Lemma SFcompare_refl (x : spec_float) :
  SFcompare x x = Some Eq \/ x = S754_nan.
Proof.
  destruct x as [s|s| |s m e]; simpl.
  - left. reflexivity.
  - left. destruct s; reflexivity.
  - right. reflexivity.
  - left. rewrite Z.compare_refl, Pos.compare_cont_refl.
    destruct s; reflexivity.
Qed.

Lemma is_nan_spec (x : float) : is_nan x = true -> Prim2SF x = S754_nan.
Proof.
  unfold is_nan. rewrite FloatAxioms.eqb_spec. unfold SFeqb. intro H.
  destruct (SFcompare_refl (Prim2SF x)) as [E|E]; [|exact E].
  rewrite E in H. discriminate H.
Qed.

Lemma SFcompare_nan_r (x : spec_float) : SFcompare x S754_nan = None.
Proof. destruct x; reflexivity. Qed.

(** No comparison holds with NaN on either side. *)
Lemma nan_compares_false (x y : float) :
  is_nan x = true \/ is_nan y = true ->
  fgt x y = false /\ flt x y = false.
Proof.
  unfold fgt, flt. rewrite !ltb_spec. unfold SFltb.
  intros [H|H]; apply is_nan_spec in H; rewrite H; simpl;
    rewrite ?SFcompare_nan_r; auto.
Qed.

(** X2. On a history of at least 50 bars the EMA analyzer never answers
    neutral: its score is 1, 2, 4 or 5. *)
Theorem ema_is_never_neutral_on_long_history (ta : TALib) (data : DataFrame)
  (score : Z) (entry exit : option float) :
  (50 <= List.length data)%nat ->
  analyze_ema ta data = Ok (score, entry, exit) ->
  score = 1 \/ score = 2 \/ score = 4 \/ score = 5.
Proof.
  intros Hlen H. unfold analyze_ema, and_then, cmp_at in H.
  rewrite (long_guard _ Hlen) in H.
  split_result H; try discriminate H;
    unfold enter_now, exit_now in H; split_result H; try discriminate H;
    injection H as <- _ _; auto.
Qed.

Lemma ema_is_never_neutral_on_long_history_witness :
  2 = 1 \/ 2 = 2 \/ 2 = 4 \/ 2 = 5.
Proof.
  apply (@ema_is_never_neutral_on_long_history Sample.ta_echo
           Sample.sixty_bars 2 None (Some 100%float)).
  - simpl. lia.
  - reflexivity.
Defined.

(** X3. The EMA analyzer reads NaN as bearish or as no cross.  On at least
    50 bars, when the latest fast or slow EMA is NaN the answer is 2 with the
    latest close as exit price; when the one before the latest is NaN (the
    slow EMA of a history of exactly 50 bars) no cross is seen, and the
    answer is 4 or 2 by the latest values alone. *)
Theorem ema_with_nan (ta : TALib) (data : DataFrame)
  (ema_short ema_long : Series) (s1 l1 : float) :
  (50 <= List.length data)%nat ->
  ema_indicator ta 20 (col Close data) = Ok ema_short ->
  ema_indicator ta 50 (col Close data) = Ok ema_long ->
  iloc_neg 1 ema_short = Ok s1 ->
  iloc_neg 1 ema_long = Ok l1 ->
  (is_nan s1 = true \/ is_nan l1 = true ->
   analyze_ema ta data = Ok (2, None, Some (last (col Close data) 0%float)))
  /\ (forall s2 l2,
        iloc_neg 2 ema_short = Ok s2 -> iloc_neg 2 ema_long = Ok l2 ->
        is_nan s2 = true \/ is_nan l2 = true ->
        analyze_ema ta data
        = if fgt s1 l1
          then Ok (4, Some (last (col Close data) 0%float), None)
          else Ok (2, None, Some (last (col Close data) 0%float))).
Proof.
  intros Hlen Hs Hl Hs1 Hl1.
  assert (Hclose : iloc_neg 1 (col Close data)
                   = Ok (last (col Close data) 0%float))
    by (apply latest_close; lia).
  unfold analyze_ema, and_then, cmp_at, enter_now, exit_now.
  rewrite Hs, Hl. cbn [bind]. rewrite (long_guard _ Hlen), Hs1, Hl1, Hclose.
  cbn [bind]. split.
  - intro Hnan. destruct (nan_compares_false _ _ Hnan) as [-> ->].
    reflexivity.
  - intros s2 l2 Hs2 Hl2 Hnan. rewrite Hs2, Hl2. cbn [bind].
    destruct (nan_compares_false _ _ Hnan) as [-> ->].
    destruct (fgt s1 l1), (flt s1 l1); reflexivity.
Qed.

(** A history of exactly 50 bars: the slow EMA before the latest is NaN. *)
Lemma ema_with_nan_witness :
  analyze_ema MoreSamples.ta_warm_up MoreSamples.fifty_bars
  = Ok (2, None, Some 100%float).
Proof.
  refine (proj2 (@ema_with_nan MoreSamples.ta_warm_up MoreSamples.fifty_bars
                   (MoreSamples.warm_up 20 (col Close MoreSamples.fifty_bars))
                   (MoreSamples.warm_up 50 (col Close MoreSamples.fifty_bars))
                   100%float 100%float _ _ _ _ _) 100%float nan _ _ _).
  - simpl. lia.
  - reflexivity.
  - reflexivity.
  - reflexivity.
  - reflexivity.
  - reflexivity.
  - reflexivity.
  - right. reflexivity.
Defined.

(** ** The composite score *)

Lemma shape_score_range (close : float) (score : Z)
  (entry exit : option float) :
  signal_shape close (score, entry, exit) -> 1 <= score <= 5.
Proof. unfold signal_shape. intros [H|[H|H]]; lia. Qed.

(** The composite is a number of fifths between 5/5 and 25/5. *)
Lemma total_score_mean (ta : TALib) (data : DataFrame) (score : float) :
  total_score ta data = Ok score ->
  exists k, 5 <= k <= 25 /\ score = (float_of_Z k / 5)%float.
Proof.
  unfold total_score. intro H.
  destruct (analyze_ema ta data) as [[[a ?] ?]|] eqn:Ea; cbn [bind] in H;
    [|discriminate H].
  destruct (analyze_rsi ta data) as [[[b ?] ?]|] eqn:Eb; cbn [bind] in H;
    [|discriminate H].
  destruct (analyze_adx ta data) as [[[c ?] ?]|] eqn:Ec; cbn [bind] in H;
    [|discriminate H].
  destruct (analyze_donchian ta data) as [[[d ?] ?]|] eqn:Ed; cbn [bind] in H;
    [|discriminate H].
  destruct (analyze_volume ta data) as [[[e ?] ?]|] eqn:Ee; cbn [bind] in H;
    [|discriminate H].
  injection H as <-.
  apply ema_shape, shape_score_range in Ea.
  apply rsi_shape, shape_score_range in Eb.
  apply adx_shape, shape_score_range in Ec.
  apply donchian_shape, shape_score_range in Ed.
  apply volume_shape, shape_score_range in Ee.
  exists (a + b + c + d + e). split; [lia | reflexivity].
Qed.

Lemma fifths_bounds (k : Z) :
  5 <= k <= 25 ->
  fle 1 (float_of_Z k / 5)%float = true
  /\ fle (float_of_Z k / 5)%float 5 = true.
Proof.
  intro H.
  assert (Hk : In k [5; 6; 7; 8; 9; 10; 11; 12; 13; 14; 15; 16; 17; 18; 19;
                     20; 21; 22; 23; 24; 25]) by (simpl; lia).
  simpl in Hk.
  repeat (destruct Hk as [<-|Hk]; [split; reflexivity|]).
  destruct Hk.
Qed.

(** X4. The composite score of a history, when the five analyzers return, is
    the sum of five scores from 1 to 5 divided by 5: a float between 1 and 5
    (never NaN), one of the 21 values k/5. *)
Theorem composite_score_in_range (ta : TALib) (data : DataFrame)
  (score : float) :
  total_score ta data = Ok score ->
  fle 1 score = true /\ fle score 5 = true
  /\ exists k, 5 <= k <= 25 /\ score = (float_of_Z k / 5)%float.
Proof.
  intro H. destruct (total_score_mean _ _ H) as (k & Hk & ->).
  destruct (fifths_bounds Hk) as [H1 H5].
  split; [exact H1|]. split; [exact H5|]. exists k. auto.
Qed.

Lemma composite_score_in_range_witness :
  fle 1 (11 / 5)%float = true /\ fle (11 / 5)%float 5 = true
  /\ exists k, 5 <= k <= 25 /\ (11 / 5)%float = (float_of_Z k / 5)%float.
Proof.
  apply (@composite_score_in_range Sample.ta_echo Sample.sixty_bars).
  reflexivity.
Defined.

(** ** The rows of the score table *)

Section TableRows.

Variable ta : TALib.

Lemma in_range_bounds (start_date end_date : Z) (rows : DataFrame)
  (date : Z) :
  In date (map Date (in_range start_date end_date rows)) ->
  start_date <= date <= end_date.
Proof.
  intro H. apply in_map_iff in H. destruct H as (b & <- & Hb).
  apply filter_In in Hb. destruct Hb as [_ Hb].
  apply andb_prop in Hb. destruct Hb as [H1 H2].
  apply Z.leb_le in H1. apply Z.leb_le in H2. lia.
Qed.

End TableRows.

(** X5. Every row of the score table is dated inside the analysis range,
    belongs to a file of the folder, and carries a score between 1 and 5. *)
Theorem table_rows_are_in_range (ta : TALib) (data_folder : folder)
  (start_date end_date : Z) (r : score_row) :
  In r (load_and_score_stock_data ta data_folder start_date end_date) ->
  start_date <= sDate r <= end_date
  /\ In (Symbol r) (map fst data_folder)
  /\ fle 1 (Score r) = true /\ fle (Score r) 5 = true.
Proof.
  intro H. apply table_row_iff in H.
  destruct H as (data & Hfile & Hdate & _ & Hscore).
  split; [exact (in_range_bounds _ _ _ _ Hdate)|].
  split; [apply find_file_some; congruence|].
  destruct (total_score_mean _ _ Hscore) as (k & Hk & ->).
  exact (fifths_bounds Hk).
Qed.

Lemma table_rows_are_in_range_witness :
  11 <= 60 <= 60
  /\ In "AAA"%string (map fst [("AAA"%string, Sample.sixty_bars)])
  /\ fle 1 (11 / 5)%float = true /\ fle (11 / 5)%float 5 = true.
Proof.
  apply (@table_rows_are_in_range Sample.ta_echo
           [("AAA"%string, Sample.sixty_bars)] 11 60
           (mkRow 60 "AAA" (11 / 5)%float)).
  vm_compute. left. reflexivity.
Defined.

(** X6. An instrument with fewer than 50 bars inside the analysis range is
    passed over in silence, however long its history outside the range: the
    table has no row for it and nothing is printed about it. *)
Theorem short_range_is_silent (ta : TALib) (data_folder : folder)
  (start_date end_date : Z) (symbol : string) (data : DataFrame) :
  find_file symbol data_folder = Some data ->
  (List.length (in_range start_date end_date data) < 50)%nat ->
  (forall r,
     In r (load_and_score_stock_data ta data_folder start_date end_date) ->
     Symbol r <> symbol)
  /\ (forall date e,
        ~ In (ErrorCalculating symbol date e)
             (snd (load_and_score ta data_folder start_date end_date))).
Proof.
  intros Hfile Hshort. split.
  - intros r Hr Hs. apply table_row_iff in Hr.
    destruct Hr as (d & Hd & _ & Hlen & _). rewrite Hs in Hd.
    assert (d = data) by congruence. subst d.
    pose proof (loc_upto_length (sDate r) (in_range start_date end_date data)).
    lia.
  - intros date e Hm. apply printed_iff in Hm.
    destruct Hm as (d & Hd & _ & Hlen & _).
    assert (d = data) by congruence. subst d.
    pose proof (loc_upto_length date (in_range start_date end_date data)).
    lia.
Qed.

(** Sixty bars of history, forty of them in the range: no row. *)
Lemma short_range_is_silent_witness :
  forallb (fun r => negb (of_symbol "AAA" r))
    (load_and_score_stock_data Sample.ta_echo
       [("AAA"%string, Sample.sixty_bars)] 21 60) = true.
Proof.
  destruct (@short_range_is_silent Sample.ta_echo
              [("AAA"%string, Sample.sixty_bars)] 21 60 "AAA"%string
              Sample.sixty_bars eq_refl) as [Hrows _].
  - vm_compute. lia.
  - apply forallb_forall. intros r Hr. unfold of_symbol.
    destruct (String.eqb_spec (Symbol r) "AAA"); [|reflexivity].
    exfalso. exact (Hrows r Hr e).
Defined.

(** ** Histories with increasing dates *)

Lemma increasing_tail (b : bar) (l : DataFrame) :
  increasing_dates (b :: l) ->
  increasing_dates l /\ Forall (fun x => Date b < Date x) l.
Proof. intro H. apply StronglySorted_inv in H. exact H. Qed.

Lemma increasing_filter (p : bar -> bool) (l : DataFrame) :
  increasing_dates l -> increasing_dates (filter p l).
Proof.
  unfold increasing_dates. induction l as [|b l IH]; intro H; simpl.
  - constructor.
  - apply StronglySorted_inv in H. destruct H as [Hl Hb].
    destruct (p b); [|auto]. constructor; [auto|].
    rewrite Forall_forall in *. intros x Hx. apply filter_In in Hx.
    apply Hb. tauto.
Qed.

Lemma increasing_NoDup (l : DataFrame) :
  increasing_dates l -> NoDup (map Date l).
Proof.
  unfold increasing_dates. induction l as [|b l IH]; intro H; simpl.
  - constructor.
  - apply StronglySorted_inv in H. destruct H as [Hl Hb].
    constructor; [|auto]. intro Hin. apply in_map_iff in Hin.
    destruct Hin as (x & Hx & Hin). rewrite Forall_forall in Hb.
    specialize (Hb x Hin). lia.
Qed.

(** In such a history the label slice up to the date of a bar is the
    history up to that bar. *)
Lemma loc_upto_prefix (before after : DataFrame) (b : bar) :
  increasing_dates (before ++ b :: after) ->
  loc_upto (Date b) (before ++ b :: after) = before ++ [b].
Proof.
  unfold loc_upto. induction before as [|a before IH]; simpl; intro H.
  - apply increasing_tail in H. destruct H as [_ Hb].
    rewrite Z.leb_refl. f_equal. apply filter_none.
    rewrite Forall_forall in Hb. intros x Hx. apply Z.leb_gt. auto.
  - apply increasing_tail in H. destruct H as [Hl Ha].
    rewrite Forall_forall in Ha.
    assert (Hab : Date a < Date b) by (apply Ha; apply in_elt).
    destruct (Z.leb_spec (Date a) (Date b)); [|lia].
    f_equal. apply IH. exact Hl.
Qed.

Section FiftiethBar.

Variable ta : TALib.
Variable symbol : string.

(** The rows and the lines of the days [rest] that follow [before] in an
    increasing history, when the analyzers return on every prefix of at
    least 50 bars. *)
Lemma rows_after_prefix (rest before : DataFrame) :
  increasing_dates (before ++ rest) ->
  (forall k, (50 <= k)%nat ->
     returns (total_score ta (firstn k (before ++ rest)))) ->
  map sDate
    (flat_map
       (fun day => fst (score_date ta symbol (before ++ rest) ([], []) day))
       rest)
  = map Date (skipn (49 - List.length before) rest)
  /\ flat_map
       (fun day => snd (score_date ta symbol (before ++ rest) ([], []) day))
       rest = [].
Proof.
  revert before. induction rest as [|b rest IH]; intros before Hinc Hret.
  - simpl. rewrite skipn_nil. auto.
  - assert (Hsame : before ++ b :: rest = (before ++ [b]) ++ rest)
      by (rewrite <- app_assoc; reflexivity).
    assert (Hprefix : loc_upto (Date b) (before ++ b :: rest) = before ++ [b])
      by (apply loc_upto_prefix; exact Hinc).
    assert (Hfirst : firstn (S (List.length before)) (before ++ b :: rest)
                     = before ++ [b]).
    { assert (Hlen : List.length (before ++ [b]) = S (List.length before))
        by (rewrite length_app, Nat.add_comm; reflexivity).
      rewrite Hsame, firstn_app, Hlen, Nat.sub_diag.
      rewrite firstn_all2 by (rewrite Hlen; apply Nat.le_refl).
      simpl. rewrite app_nil_r. reflexivity. }
    destruct (IH (before ++ [b])) as [IHrows IHprinted].
    { rewrite <- Hsame. exact Hinc. }
    { rewrite <- Hsame. exact Hret. }
    rewrite <- Hsame in IHrows, IHprinted.
    rewrite length_app in IHrows. simpl List.length in IHrows.
    cbn [flat_map]. rewrite !map_app, IHrows, IHprinted.
    unfold score_date. cbv zeta. rewrite Hprefix.
    rewrite length_app. simpl List.length.
    destruct (Nat.leb_spec 50 (List.length before + 1)) as [Hlong|Hshort].
    + destruct (Hret (S (List.length before))) as [score Hscore]; [lia|].
      rewrite Hfirst in Hscore. rewrite Hscore.
      replace (49 - List.length before)%nat with 0%nat by lia.
      replace (49 - (List.length before + 1))%nat with 0%nat by lia.
      split; reflexivity.
    + replace (49 - List.length before)%nat
        with (S (49 - (List.length before + 1)))%nat by lia.
      split; reflexivity.
Qed.

End FiftiethBar.

(** The rows of one file, picked out of the table. *)
Lemma rows_of_symbol (ta : TALib) (data_folder : folder)
  (start_date end_date : Z) (symbol : string) (names : list string) :
  NoDup names -> In symbol names ->
  filter (of_symbol symbol)
    (flat_map
       (fun name =>
          fst (score_file ta data_folder start_date end_date ([], []) name))
       names)
  = fst (score_file ta data_folder start_date end_date ([], []) symbol).
Proof.
  assert (Hother : forall l, ~ In symbol l ->
            filter (of_symbol symbol)
              (flat_map
                 (fun name =>
                    fst (score_file ta data_folder start_date end_date
                           ([], []) name)) l) = []).
  { intros l Hl. apply filter_none. intros r Hr. apply in_flat_map in Hr.
    destruct Hr as (name & Hname & Hr). apply file_row_iff in Hr.
    destruct Hr as [Hs _]. unfold of_symbol. rewrite Hs.
    apply String.eqb_neq. intro; subst. contradiction. }
  induction names as [|name rest IH]; intros Hnd Hin; [destruct Hin|].
  inversion Hnd as [|? ? Hnot Hrest]; subst. simpl. rewrite filter_app.
  destruct Hin as [->|Hin].
  - rewrite (Hother rest Hnot), app_nil_r. apply filter_all.
    intros r Hr. apply file_row_iff in Hr. destruct Hr as [Hs _].
    unfold of_symbol. rewrite Hs. apply String.eqb_refl.
  - rewrite (IH Hrest Hin).
    rewrite (@filter_none _ (of_symbol symbol)); [reflexivity|].
    intros r Hr. apply file_row_iff in Hr. destruct Hr as [Hs _].
    unfold of_symbol. rewrite Hs. apply String.eqb_neq.
    intro; subst. contradiction.
Qed.

(** X7. For an instrument whose history has increasing dates, and on which
    the analyzers return, the table holds one row for each of its bars
    inside the analysis range from the 50th on, in the order of the dates,
    and none for the first 49. *)
Theorem rows_start_at_the_fiftieth_bar (ta : TALib) (data_folder : folder)
  (start_date end_date : Z) (symbol : string) (data : DataFrame) :
  NoDup (map fst data_folder) ->
  find_file symbol data_folder = Some data ->
  increasing_dates data ->
  (forall k, (50 <= k)%nat ->
     returns (total_score ta (firstn k (in_range start_date end_date data)))) ->
  map sDate
    (filter (of_symbol symbol)
       (load_and_score_stock_data ta data_folder start_date end_date))
  = map Date (skipn 49 (in_range start_date end_date data)).
Proof.
  intros Hnd Hfile Hinc Hret.
  rewrite table_by_file, rows_of_symbol;
    [|exact Hnd|apply find_file_some; congruence].
  unfold score_file. cbv zeta. rewrite (get_stock_data_loaded _ _ Hfile).
  set (stock_data := in_range start_date end_date data) in *.
  destruct (Nat.ltb_spec (List.length stock_data) 50) as [Hshort|Hlong].
  - rewrite skipn_all2 by lia. reflexivity.
  - rewrite score_dates_app. simpl.
    destruct (@rows_after_prefix ta symbol stock_data []) as [Hrows _].
    + apply increasing_filter. exact Hinc.
    + exact Hret.
    + exact Hrows.
Qed.

(** Sixty bars, all inside the range: rows for day 50 to day 60. *)
Lemma rows_start_at_the_fiftieth_bar_witness :
  map sDate
    (filter (of_symbol "AAA")
       (load_and_score_stock_data Sample.ta_echo
          [("AAA"%string, Sample.sixty_bars)] 1 60))
  = map Date (skipn 49 (in_range 1 60 Sample.sixty_bars)).
Proof.
  apply (@rows_start_at_the_fiftieth_bar Sample.ta_echo
           [("AAA"%string, Sample.sixty_bars)] 1 60 "AAA"%string
           Sample.sixty_bars).
  - repeat constructor. simpl. tauto.
  - reflexivity.
  - unfold increasing_dates. vm_compute.
    repeat (constructor; [|repeat (constructor; [reflexivity|])]);
      constructor.
  - intros k Hk. exists (11 / 5)%float.
    replace (firstn k (in_range 1 60 Sample.sixty_bars))
      with (firstn (Nat.min k 60) (in_range 1 60 Sample.sixty_bars)).
    + assert (Hin : In (Nat.min k 60)
                      [50; 51; 52; 53; 54; 55; 56; 57; 58; 59; 60]%nat)
        by (simpl; lia).
      simpl in Hin.
      repeat (destruct Hin as [<-|Hin]; [vm_compute; reflexivity|]).
      destruct Hin.
    + destruct (Nat.le_ge_cases k 60) as [Hle|Hge].
      * rewrite Nat.min_l by exact Hle. reflexivity.
      * rewrite Nat.min_r by exact Hge.
        rewrite !firstn_all2; [reflexivity| |]; vm_compute; lia.
Defined.

(** ** One row for a date and an instrument *)

Section RowKeys.

Variable ta : TALib.

(** A date gives at most one row. *)
Lemma score_date_one_row (symbol : string) (stock_data : DataFrame)
  (day : bar) :
  fst (score_date ta symbol stock_data ([], []) day) = []
  \/ exists score,
       fst (score_date ta symbol stock_data ([], []) day)
       = [mkRow (Date day) symbol score].
Proof.
  unfold score_date. cbv zeta.
  destruct (50 <=? List.length (loc_upto (Date day) stock_data))%nat;
    [|left; reflexivity].
  destruct (total_score ta (loc_upto (Date day) stock_data)) as [score|e].
  - right. exists score. reflexivity.
  - left. reflexivity.
Qed.

Lemma score_dates_keys (symbol : string) (stock_data days : DataFrame) :
  NoDup (map Date days) ->
  NoDup (map row_key
           (flat_map
              (fun day => fst (score_date ta symbol stock_data ([], []) day))
              days)).
Proof.
  induction days as [|day rest IH]; simpl; intro Hnd; [constructor|].
  inversion Hnd as [|? ? Hnot Hrest]; subst.
  destruct (score_date_one_row symbol stock_data day) as [->|[score ->]];
    simpl; [auto|].
  constructor; [|auto].
  intro Hin. apply in_map_iff in Hin. destruct Hin as (r & Hkey & Hr).
  apply in_flat_map in Hr. destruct Hr as (d & Hd & Hr).
  apply date_row_iff in Hr. destruct Hr as (Hdate & _).
  unfold row_key in Hkey. simpl in Hkey. injection Hkey as Hk _.
  apply Hnot. apply in_map_iff. exists d. split; [congruence | exact Hd].
Qed.

Lemma find_file_in (symbol : string) (data_folder : folder)
  (data : DataFrame) :
  find_file symbol data_folder = Some data -> In (symbol, data) data_folder.
Proof.
  induction data_folder as [|[name file] rest IH]; simpl; [discriminate|].
  destruct (String.eqb_spec name symbol) as [->|Hne].
  - intro H. injection H as ->. left. reflexivity.
  - intro H. right. auto.
Qed.

Lemma score_file_keys (data_folder : folder) (start_date end_date : Z)
  (symbol : string) :
  (forall name data, In (name, data) data_folder -> increasing_dates data) ->
  NoDup (map row_key
           (fst (score_file ta data_folder start_date end_date ([], [])
                   symbol))).
Proof.
  intro Hinc. unfold score_file. cbv zeta.
  destruct (List.length _ <? 50)%nat; [constructor|].
  rewrite score_dates_app. simpl. apply score_dates_keys.
  apply increasing_NoDup. apply increasing_filter.
  unfold get_stock_data.
  destruct (find_file symbol data_folder) as [data|] eqn:Hfile; simpl.
  - apply (Hinc symbol). apply find_file_in. exact Hfile.
  - constructor.
Qed.

End RowKeys.

(** X8. When the files of the folder have distinct names and histories with
    increasing dates, the score table has at most one row for a date and an
    instrument. *)
Theorem one_row_per_date_and_symbol (ta : TALib) (data_folder : folder)
  (start_date end_date : Z) :
  NoDup (map fst data_folder) ->
  (forall name data, In (name, data) data_folder -> increasing_dates data) ->
  NoDup (map row_key
           (load_and_score_stock_data ta data_folder start_date end_date)).
Proof.
  intros Hnames Hinc. rewrite table_by_file.
  induction (map fst data_folder) as [|name rest IH]; simpl; [constructor|].
  inversion Hnames as [|? ? Hnot Hrest]; subst.
  rewrite map_app. apply NoDup_app.
  - apply score_file_keys. exact Hinc.
  - apply IH. exact Hrest.
  - intros key Hk Hk'.
    apply in_map_iff in Hk. destruct Hk as (r & <- & Hr).
    apply in_map_iff in Hk'. destruct Hk' as (r' & Hkey & Hr').
    apply file_row_iff in Hr. destruct Hr as [Hs _].
    apply in_flat_map in Hr'. destruct Hr' as (name' & Hname' & Hr').
    apply file_row_iff in Hr'. destruct Hr' as [Hs' _].
    unfold row_key in Hkey. injection Hkey as _ Hsym.
    apply Hnot. congruence.
Qed.

Lemma one_row_per_date_and_symbol_witness :
  NoDup (map row_key
           (load_and_score_stock_data Sample.ta_echo
              [("AAA"%string, Sample.sixty_bars)] 1 60)).
Proof.
  apply (@one_row_per_date_and_symbol Sample.ta_echo
           [("AAA"%string, Sample.sixty_bars)] 1 60).
  - repeat constructor. simpl. tauto.
  - intros name data [H|[]]. injection H as _ <-.
    unfold increasing_dates. vm_compute.
    repeat (constructor; [|repeat (constructor; [reflexivity|])]);
      constructor.
Defined.

(** ** The rows of the investment log *)

Section LogRows.

Variable sort_values : list score_row -> list score_row.
Variable stock_scores : list score_row.
Variable stop_loss : float.
Variable reevaluation_period : Z.
Variable data_folder : folder.

Local Abbreviation step := (run_period sort_values stock_scores stop_loss
                              reevaluation_period data_folder).
Local Abbreviation loop := (backtest_loop sort_values stock_scores stop_loss
                              reevaluation_period data_folder).

Lemma window_bounds (stock_data : frame) (from to : Z) (day : bar) :
  In day (window stock_data from to) -> from <= Date day <= to.
Proof.
  intro H. apply (@in_range_bounds from to (rows_of stock_data)).
  apply in_map. exact H.
Qed.

(** What an iteration that returns has added to the log. *)
Lemma run_period_rows (s s' : state) :
  step s = Ok s' ->
  current_date s' = current_date s + reevaluation_period
  /\ (investment_log s' = investment_log s
      \/ (exists re,
            investment_log s' = investment_log s ++ [re]
            /\ Action re = "Reevaluate"%string
            /\ lDate re = current_date s + reevaluation_period
            /\ priced re)
      \/ (exists sl re,
            investment_log s' = investment_log s ++ [sl; re]
            /\ Action sl = "Stop-Loss"%string
            /\ current_date s <= lDate sl
               <= current_date s + reevaluation_period
            /\ priced sl
            /\ Action re = "Reevaluate"%string
            /\ lDate re = current_date s + reevaluation_period
            /\ priced re)).
Proof.
  intro Hstep. split; [exact (run_period_date _ _ _ _ _ _ Hstep)|].
  apply run_period_cases in Hstep.
  destruct Hstep as [->|(best & score & s1 & s2 & sd2 & price & _ & _ & _
                         & Henter & Hwatch & _ & ->)]; [left; reflexivity|].
  right. destruct (enter_or_switch_ok _ _ _ Henter) as (Hlog & Hdate & _).
  apply monitor_cases in Hwatch.
  destruct Hwatch as [(_ & -> & _)|(b & day & a & Hw & _ & _ & He)].
  - left. eexists. simpl. rewrite Hlog. split; [reflexivity|].
    unfold priced. simpl. repeat split; reflexivity.
  - right. apply stop_loss_exit_ok in He.
    destruct He as (entry & best2 & score2 & new_price & _ & _ & _ & _ & ->).
    assert (Hday : In day (window (get_stock_data (py_str best) data_folder)
                             (current_date s)
                             (current_date s + reevaluation_period)))
      by (rewrite Hw; apply in_elt).
    apply window_bounds in Hday.
    eexists. eexists. simpl. rewrite Hlog, <- app_assoc.
    split; [reflexivity|]. unfold priced. simpl.
    repeat split; try reflexivity; lia.
Qed.

Lemma sorted_snoc (l : list Z) (d : Z) :
  StronglySorted Z.le l -> Forall (fun x => x <= d) l ->
  StronglySorted Z.le (l ++ [d]).
Proof.
  induction l as [|x l IH]; simpl; intros Hs Hd.
  - repeat constructor.
  - apply StronglySorted_inv in Hs. destruct Hs as [Hs Hx].
    inversion Hd as [|? ? Hxd Hld]; subst.
    constructor; [auto|]. rewrite Forall_app. split; [exact Hx|].
    constructor; [exact Hxd | constructor].
Qed.

(** The rows of the log are in the order of their dates, none later than
    the current date. *)
Lemma run_period_dated (s s' : state) :
  0 <= reevaluation_period ->
  step s = Ok s' ->
  StronglySorted Z.le (map lDate (investment_log s))
  /\ Forall (fun d => d <= current_date s) (map lDate (investment_log s)) ->
  StronglySorted Z.le (map lDate (investment_log s'))
  /\ Forall (fun d => d <= current_date s') (map lDate (investment_log s')).
Proof.
  intros Hpos Hstep [Hsorted Hpast]. apply run_period_rows in Hstep.
  destruct Hstep as [Hdate Hrows]. rewrite Hdate.
  assert (Hpast' : Forall (fun d => d <= current_date s + reevaluation_period)
                     (map lDate (investment_log s))).
  { apply Forall_impl with (2 := Hpast). intros d Hd. simpl in Hd. lia. }
  destruct Hrows as [->|[(re & -> & _ & Hre & _)
                        |(sl & re & -> & _ & Hsl & _ & _ & Hre & _)]].
  - auto.
  - rewrite map_app. simpl. rewrite Hre. split.
    + apply sorted_snoc; assumption.
    + rewrite Forall_app. split; [exact Hpast'|].
      constructor; [lia | constructor].
  - change [sl; re] with ([sl] ++ [re]). rewrite app_assoc, !map_app.
    simpl. rewrite Hre. split.
    + apply sorted_snoc.
      * apply sorted_snoc; [exact Hsorted|].
        apply Forall_impl with (2 := Hpast). intros d Hd. simpl in Hd. lia.
      * rewrite Forall_app. split; [exact Hpast'|].
        constructor; [lia | constructor].
    + rewrite !Forall_app. split; [split; [exact Hpast'|]|].
      * constructor; [lia | constructor].
      * constructor; [lia | constructor].
Qed.

Lemma backtest_loop_dated (fuel : nat) (s s' : state) :
  0 <= reevaluation_period ->
  loop fuel s = Some (Ok s') ->
  StronglySorted Z.le (map lDate (investment_log s))
  /\ Forall (fun d => d <= current_date s) (map lDate (investment_log s)) ->
  StronglySorted Z.le (map lDate (investment_log s')).
Proof.
  intro Hpos. revert s. induction fuel as [|fuel IH]; intros s; simpl.
  - destruct (current_date s <=? max_date stock_scores); [discriminate|].
    intro H. injection H as <-. tauto.
  - destruct (current_date s <=? max_date stock_scores).
    + destruct (step s) as [s1|e] eqn:Hstep; [|discriminate].
      intros Hloop Hs. apply (IH _ Hloop).
      exact (@run_period_dated s s1 Hpos Hstep Hs).
    + intro H. injection H as <-. tauto.
Qed.

Lemma backtest_loop_priced (fuel : nat) (s s' : state) :
  loop fuel s = Some (Ok s') ->
  Forall priced (investment_log s) -> Forall priced (investment_log s').
Proof.
  revert s. induction fuel as [|fuel IH]; intros s; simpl.
  - destruct (current_date s <=? max_date stock_scores); [discriminate|].
    intro H. injection H as <-. auto.
  - destruct (current_date s <=? max_date stock_scores).
    + destruct (step s) as [s1|e] eqn:Hstep; [|discriminate].
      intros Hloop Hs. apply (IH _ Hloop).
      apply run_period_rows in Hstep. destruct Hstep as [_ Hrows].
      destruct Hrows as [->|[(re & -> & _ & _ & Hre)
                            |(sl & re & -> & _ & _ & Hsl & _ & _ & Hre)]].
      * exact Hs.
      * rewrite Forall_app. split; [exact Hs|]. repeat constructor; auto.
      * rewrite Forall_app. split; [exact Hs|]. repeat constructor; auto.
    + intro H. injection H as <-. auto.
Qed.

Lemma backtest_loop_period_rows (fuel : nat) (s s' : state) :
  loop fuel s = Some (Ok s') ->
  period_rows (map Action (investment_log s)) ->
  period_rows (map Action (investment_log s')).
Proof.
  revert s. induction fuel as [|fuel IH]; intros s; simpl.
  - destruct (current_date s <=? max_date stock_scores); [discriminate|].
    intro H. injection H as <-. auto.
  - destruct (current_date s <=? max_date stock_scores).
    + destruct (step s) as [s1|e] eqn:Hstep; [|discriminate].
      intros Hloop Hs. apply (IH _ Hloop).
      apply run_period_rows in Hstep. destruct Hstep as [_ Hrows].
      destruct Hrows as [->|[(re & -> & Hre & _)
                            |(sl & re & -> & Hsl & _ & _ & Hre & _)]].
      * exact Hs.
      * rewrite map_app. simpl. rewrite Hre. apply quiet_period. exact Hs.
      * rewrite map_app. simpl. rewrite Hsl, Hre. apply stopped_period.
        exact Hs.
    + intro H. injection H as <-. auto.
Qed.

End LogRows.

(** ** Whole runs *)

Section Runs.

Variable sort_values : list score_row -> list score_row.
Variable stock_scores : list score_row.
Variable stop_loss : float.
Variable reevaluation_period : Z.
Variable data_folder : folder.

Local Abbreviation step := (run_period sort_values stock_scores stop_loss
                              reevaluation_period data_folder).
Local Abbreviation loop := (backtest_loop sort_values stock_scores stop_loss
                              reevaluation_period data_folder).

Lemma min_date_le_max_date : min_date stock_scores <= max_date stock_scores.
Proof.
  unfold min_date, max_date.
  set (a := hd 0 (map sDate stock_scores)).
  assert (Hmin : forall l, fold_right Z.min a l <= a)
    by (induction l; simpl; lia).
  assert (Hmax : forall l, a <= fold_right Z.max a l)
    by (induction l; simpl; lia).
  specialize (Hmin (map sDate stock_scores)).
  specialize (Hmax (map sDate stock_scores)). lia.
Qed.

(** With a period that is not positive the loop condition stays true. *)
Lemma loop_goes_on (fuel : nat) (s s' : state) :
  reevaluation_period <= 0 ->
  current_date s <= max_date stock_scores ->
  loop fuel s <> Some (Ok s').
Proof.
  intro Hneg. revert s. induction fuel as [|fuel IH]; intros s Hdate; simpl;
    destruct (Z.leb_spec (current_date s) (max_date stock_scores));
    try lia; [discriminate|].
  destruct (step s) as [s1|e] eqn:Hstep; [|discriminate].
  apply IH. rewrite (run_period_date _ _ _ _ _ _ Hstep). lia.
Qed.

(** A run that returns a log: its table is not empty, its period is
    positive, and the log is the one of the state the loop ends in. *)
Lemma backtest_returns (initial_investment : float) (log : list log_entry) :
  backtest sort_values stock_scores initial_investment stop_loss
    reevaluation_period data_folder = Some (Ok log) ->
  stock_scores <> [] /\ 0 < reevaluation_period
  /\ exists s',
       loop (periods stock_scores reevaluation_period)
            (initial_state stock_scores initial_investment) = Some (Ok s')
       /\ log = investment_log s'.
Proof.
  unfold backtest, run_backtest.
  destruct stock_scores as [|r rest] eqn:Hscores; [discriminate|].
  rewrite <- Hscores.
  destruct (Z.eqb_spec reevaluation_period 0) as [|Hnz]; [discriminate|].
  destruct (loop _ _) as [[s'|e]|] eqn:Hloop; [|discriminate|discriminate].
  intro H. injection H as <-.
  split; [rewrite Hscores; discriminate|]. split.
  - destruct (Z.lt_ge_cases 0 reevaluation_period) as [Hpos|Hneg];
      [exact Hpos|].
    exfalso. apply (@loop_goes_on _ _ s' Hneg) in Hloop; [exact Hloop|].
    simpl. apply min_date_le_max_date.
  - exists s'. auto.
Qed.

End Runs.

(** X9. With a positive reevaluation period a run of [backtest] ends, after
    at most one iteration for each multiple of the period between the first
    and the last date of the table: it returns a log or raises. *)
Theorem backtest_ends (sort_values : list score_row -> list score_row)
  (stock_scores : list score_row) (initial_investment stop_loss : float)
  (reevaluation_period : Z) (data_folder : folder) :
  0 < reevaluation_period ->
  exists outcome,
    backtest sort_values stock_scores initial_investment stop_loss
      reevaluation_period data_folder = Some outcome.
Proof.
  intro Hpos.
  pose proof (@run_backtest_ends sort_values stock_scores stop_loss
                reevaluation_period data_folder initial_investment Hpos) as H.
  unfold backtest.
  destruct (run_backtest _ _ _ _ _ _) as [outcome|]; [|congruence].
  exists outcome. reflexivity.
Qed.

Lemma backtest_ends_witness :
  exists outcome,
    backtest Sample.sort_desc Sample.two_scores INITIAL_INVESTMENT STOP_LOSS
      REEVALUATION_PERIOD Sample.two_stocks = Some outcome.
Proof.
  apply (@backtest_ends Sample.sort_desc Sample.two_scores INITIAL_INVESTMENT
           STOP_LOSS REEVALUATION_PERIOD Sample.two_stocks).
  reflexivity.
Defined.

(** X10. With a negative reevaluation period the loop of [backtest] never
    ends normally: the date only moves back, so the loop condition stays
    true, and however many iterations are run the loop is still running or
    has raised. *)
Theorem backwards_run_never_returns
  (sort_values : list score_row -> list score_row)
  (stock_scores : list score_row) (initial_investment stop_loss : float)
  (reevaluation_period : Z) (data_folder : folder) (fuel : nat) (s' : state) :
  reevaluation_period < 0 ->
  backtest_loop sort_values stock_scores stop_loss reevaluation_period
    data_folder fuel (initial_state stock_scores initial_investment)
  <> Some (Ok s').
Proof.
  intro Hneg. apply loop_goes_on; [lia|].
  simpl. apply min_date_le_max_date.
Qed.

Lemma backwards_run_never_returns_witness :
  backtest_loop Sample.sort_desc Sample.two_scores STOP_LOSS (-14)
    Sample.two_stocks 5 (initial_state Sample.two_scores INITIAL_INVESTMENT)
  <> Some (Ok (initial_state Sample.two_scores INITIAL_INVESTMENT)).
Proof.
  apply (@backwards_run_never_returns Sample.sort_desc Sample.two_scores
           INITIAL_INVESTMENT STOP_LOSS (-14) Sample.two_stocks 5).
  reflexivity.
Defined.

(** X11. The investment log that a run returns is in chronological order:
    the dates of its rows never decrease. *)
Theorem log_is_chronological (sort_values : list score_row -> list score_row)
  (stock_scores : list score_row) (initial_investment stop_loss : float)
  (reevaluation_period : Z) (data_folder : folder) (log : list log_entry) :
  backtest sort_values stock_scores initial_investment stop_loss
    reevaluation_period data_folder = Some (Ok log) ->
  StronglySorted Z.le (map lDate log).
Proof.
  intro H. apply backtest_returns in H.
  destruct H as (_ & Hpos & s' & Hloop & ->).
  apply (@backtest_loop_dated _ _ _ _ _ _ _ _ (Z.lt_le_incl _ _ Hpos) Hloop).
  simpl. split; constructor.
Qed.

Lemma log_is_chronological_witness :
  exists log,
    backtest Sample.sort_desc Sample.two_scores INITIAL_INVESTMENT STOP_LOSS
      REEVALUATION_PERIOD Sample.two_stocks = Some (Ok log)
    /\ StronglySorted Z.le (map lDate log).
Proof.
  eexists. split; [reflexivity|].
  apply (@log_is_chronological Sample.sort_desc Sample.two_scores
           INITIAL_INVESTMENT STOP_LOSS REEVALUATION_PERIOD
           Sample.two_stocks).
  reflexivity.
Defined.

(** X12. In every row of the investment log that a run returns, the
    investment value is the product of the shares and the price of the
    row. *)
Theorem log_rows_are_priced (sort_values : list score_row -> list score_row)
  (stock_scores : list score_row) (initial_investment stop_loss : float)
  (reevaluation_period : Z) (data_folder : folder) (log : list log_entry) :
  backtest sort_values stock_scores initial_investment stop_loss
    reevaluation_period data_folder = Some (Ok log) ->
  Forall priced log.
Proof.
  intro H. apply backtest_returns in H.
  destruct H as (_ & _ & s' & Hloop & ->).
  apply (@backtest_loop_priced _ _ _ _ _ _ _ _ Hloop). constructor.
Qed.

Lemma log_rows_are_priced_witness :
  exists log,
    backtest Sample.sort_desc Sample.two_scores INITIAL_INVESTMENT STOP_LOSS
      REEVALUATION_PERIOD Sample.two_stocks = Some (Ok log)
    /\ Forall priced log.
Proof.
  eexists. split; [reflexivity|].
  apply (@log_rows_are_priced Sample.sort_desc Sample.two_scores
           INITIAL_INVESTMENT STOP_LOSS REEVALUATION_PERIOD
           Sample.two_stocks).
  reflexivity.
Defined.

Lemma period_rows_end (l : list string) :
  period_rows l -> l = [] \/ exists rest, l = rest ++ ["Reevaluate"%string].
Proof.
  intros [|l0 _|l0 _].
  - left. reflexivity.
  - right. exists l0. reflexivity.
  - right. exists (l0 ++ ["Stop-Loss"%string]). rewrite <- app_assoc.
    reflexivity.
Qed.

(** X13. The investment log that a run returns is made of periods: each
    adds a Reevaluate row, or a Stop-Loss row and right after it a
    Reevaluate row.  In particular a log that is not empty ends with a
    Reevaluate row. *)
Theorem log_is_made_of_periods
  (sort_values : list score_row -> list score_row)
  (stock_scores : list score_row) (initial_investment stop_loss : float)
  (reevaluation_period : Z) (data_folder : folder) (log : list log_entry) :
  backtest sort_values stock_scores initial_investment stop_loss
    reevaluation_period data_folder = Some (Ok log) ->
  period_rows (map Action log)
  /\ (map Action log = []
      \/ exists rest, map Action log = rest ++ ["Reevaluate"%string]).
Proof.
  intro H. apply backtest_returns in H.
  destruct H as (_ & _ & s' & Hloop & ->).
  assert (Hrows : period_rows (map Action (investment_log s')))
    by (apply (@backtest_loop_period_rows _ _ _ _ _ _ _ _ Hloop);
        constructor).
  split; [exact Hrows | exact (period_rows_end Hrows)].
Qed.

Lemma log_is_made_of_periods_witness :
  exists log,
    backtest Sample.sort_desc Sample.two_scores INITIAL_INVESTMENT STOP_LOSS
      REEVALUATION_PERIOD Sample.two_stocks = Some (Ok log)
    /\ period_rows (map Action log).
Proof.
  eexists. split; [reflexivity|].
  apply (@log_is_made_of_periods Sample.sort_desc Sample.two_scores
           INITIAL_INVESTMENT STOP_LOSS REEVALUATION_PERIOD
           Sample.two_stocks _ eq_refl).
Defined.

(** ** Periods without data, periods without breach *)

Section QuietPeriods.

Variable sort_values : list score_row -> list score_row.
Variable stock_scores : list score_row.
Variable stop_loss : float.
Variable reevaluation_period : Z.
Variable data_folder : folder.

(** X14. When the instrument selected for the current date has an empty
    symbol, no file in the folder, or a file without a bar, the simulator
    skips the period as it does without a candidate: the date moves by one
    period, nothing is logged, and the investment and the position stay as
    they are. *)
Theorem no_data_skips_the_period (s : state) (symbol : string)
  (score : option float) :
  get_best_stock sort_values (current_date s) stock_scores
  = Ok (Some symbol, score) ->
  symbol = ""%string \/ find_file symbol data_folder = None
  \/ find_file symbol data_folder = Some [] ->
  run_period sort_values stock_scores stop_loss reevaluation_period
    data_folder s
  = Ok (mkState (investment_log s) (current_investment s) (current_stock s)
          (current_shares s) (entry_price s)
          (current_date s + reevaluation_period)).
Proof.
  intros Hbest Hcase. unfold run_period. rewrite Hbest. cbn [bind].
  destruct (truthy (Some symbol)) eqn:Htruthy; [|reflexivity].
  simpl negb. cbv iota. unfold empty, get_stock_data. simpl py_str.
  destruct Hcase as [->|[->| ->]]; [discriminate Htruthy| |]; reflexivity.
Qed.

(** X15. While the instrument held stays the selected one and no day of the
    window reaches the stop price, a period changes neither the shares nor
    the entry price, so that the stop price stays the one of the first
    entry; it values the shares at the opening price of the end date and
    appends one Reevaluate row with that value. *)
Theorem quiet_period_holds_the_position (s : state) (symbol : string)
  (score : option float) (rows : DataFrame) (entry price : float) :
  get_best_stock sort_values (current_date s) stock_scores
  = Ok (Some symbol, score) ->
  symbol <> ""%string ->
  find_file symbol data_folder = Some rows -> rows <> [] ->
  current_stock s = Some symbol ->
  entry_price s = Some entry ->
  Forall (fun d => fle (Low d) (entry * (1 - stop_loss))%float = false)
    (in_range (current_date s) (current_date s + reevaluation_period) rows) ->
  open_on (Loaded rows) (current_date s + reevaluation_period) = Ok price ->
  run_period sort_values stock_scores stop_loss reevaluation_period
    data_folder s
  = Ok (mkState
          (investment_log s ++
             [mkEntry (current_date s + reevaluation_period) (Some symbol)
                "Reevaluate" (current_shares s) price
                (current_shares s * price)%float])
          (current_shares s * price)%float (Some symbol) (current_shares s)
          (Some entry) (current_date s + reevaluation_period)).
Proof.
  intros Hbest Hsym Hfile Hrows Hheld Hentry Hquiet Hopen.
  unfold run_period. rewrite Hbest. cbn [bind].
  assert (Htruthy : truthy (Some symbol) = true).
  { simpl. destruct (String.eqb_spec symbol ""); [contradiction|reflexivity]. }
  rewrite Htruthy. simpl negb. cbv iota. simpl py_str.
  unfold get_stock_data. rewrite Hfile.
  assert (Hempty : empty (Loaded rows) = false)
    by (destruct rows; [contradiction | reflexivity]).
  rewrite Hempty. unfold enter_or_switch. rewrite Hheld.
  simpl symbol_eqb. rewrite String.eqb_refl. simpl negb. cbv iota.
  cbn [bind]. unfold window. simpl rows_of.
  rewrite (@monitor_quiet sort_values stock_scores stop_loss data_folder
             _ (Loaded rows) s entry Hentry).
  - cbn [bind]. unfold reevaluate. rewrite Hopen. cbn [bind].
    rewrite Hheld, Hentry. reflexivity.
  - apply Forall_impl with (2 := Hquiet). intros d Hd.
    unfold breach. rewrite Hentry. exact Hd.
Qed.

End QuietPeriods.

(** The best stock of day 0 is DDD, which has no file. *)
Lemma no_data_skips_the_period_witness :
  run_period Sample.sort_desc [mkRow 0 "DDD" 5] STOP_LOSS REEVALUATION_PERIOD
    Sample.two_stocks (mkState [] 50000 None 0 None 0)
  = Ok (mkState [] 50000 None 0 None 14).
Proof.
  apply (@no_data_skips_the_period Sample.sort_desc [mkRow 0 "DDD" 5]
           STOP_LOSS REEVALUATION_PERIOD Sample.two_stocks
           (mkState [] 50000 None 0 None 0) "DDD"%string (Some 5%float)).
  - reflexivity.
  - right. left. reflexivity.
Defined.

(** AAA, bought at 100, is held over the three days from day 0: no day is as
    low as 95, and the shares are valued at the opening price of day 3. *)
Lemma quiet_period_holds_the_position_witness :
  run_period Sample.sort_desc Sample.two_scores STOP_LOSS 3
    Sample.two_stocks
    (mkState [] 50000 (Some "AAA"%string) 500 (Some 100%float) 0)
  = Ok (mkState
          [mkEntry 3 (Some "AAA"%string) "Reevaluate" 500 100
             (500 * 100)%float]
          (500 * 100)%float (Some "AAA"%string) 500 (Some 100%float) 3).
Proof.
  apply (@quiet_period_holds_the_position Sample.sort_desc Sample.two_scores
           STOP_LOSS 3 Sample.two_stocks
           (mkState [] 50000 (Some "AAA"%string) 500 (Some 100%float) 0)
           "AAA"%string (Some 4%float) Sample.aaa_bars 100%float 100%float).
  - reflexivity.
  - discriminate.
  - reflexivity.
  - discriminate.
  - reflexivity.
  - reflexivity.
  - repeat constructor.
  - reflexivity.
Defined.

(** * The analysis scripts *)

Import Analysis.

(** ** Stripping and splitting *)

Lemma lstrip_spaces (ws : string) : all_space ws = true -> lstrip ws = ""%string.
Proof.
  induction ws as [|c ws IH]; simpl; [reflexivity|].
  intro H. apply andb_prop in H. destruct H as [Hc Hws].
  rewrite Hc. auto.
Qed.

Lemma rstrip_spaces (ws : string) : all_space ws = true -> rstrip ws = ""%string.
Proof.
  induction ws as [|c ws IH]; simpl; [reflexivity|].
  intro H. apply andb_prop in H. destruct H as [Hc Hws].
  rewrite (IH Hws), Hc. reflexivity.
Qed.

Lemma rstrip_app_spaces (s ws : string) :
  all_space ws = true -> rstrip (s ++ ws) = rstrip s.
Proof.
  intro Hws. induction s as [|c s IH]; simpl.
  - apply rstrip_spaces. exact Hws.
  - rewrite IH. reflexivity.
Qed.

(** Whitespace at the end of a line does not count. *)
Lemma strip_app_spaces (s ws : string) :
  all_space ws = true -> strip (s ++ ws) = strip s.
Proof.
  intro Hws. unfold strip. induction s as [|c s IH]; simpl.
  - rewrite (@lstrip_spaces ws Hws). reflexivity.
  - destruct (is_space c); [exact IH|].
    apply (@rstrip_app_spaces (String c s) ws Hws).
Qed.

Lemma rstrip_clean (body : string) (c : Ascii.ascii) :
  is_space c = false ->
  rstrip (body ++ String c "") = (body ++ String c "")%string.
Proof.
  intro Hc. induction body as [|a body IH]; simpl.
  - rewrite Hc. reflexivity.
  - rewrite IH. destruct body; reflexivity.
Qed.

Lemma has_tab_lstrip (s : string) :
  has_tab s = false -> has_tab (lstrip s) = false.
Proof.
  induction s as [|c s IH]; simpl; [auto|].
  intro H. apply orb_false_elim in H. destruct H as [Hc Hs].
  destruct (is_space c); [auto|]. simpl. rewrite Hc, Hs. reflexivity.
Qed.

Lemma has_tab_rstrip (s : string) :
  has_tab s = false -> has_tab (rstrip s) = false.
Proof.
  induction s as [|c s IH]; simpl; [auto|].
  intro H. apply orb_false_elim in H. destruct H as [Hc Hs].
  specialize (IH Hs). destruct (rstrip s) as [|a kept].
  - destruct (is_space c); simpl; [reflexivity|]. rewrite Hc. reflexivity.
  - simpl. simpl in IH. rewrite Hc, IH. reflexivity.
Qed.

Lemma split_tab_none (s : string) :
  has_tab s = false -> split_tab s = (s, None).
Proof.
  induction s as [|c s IH]; simpl; [reflexivity|].
  intro H. apply orb_false_elim in H. destruct H as [Hc Hs].
  rewrite Hc, (IH Hs). reflexivity.
Qed.

Lemma split_tab_first (symbol rest : string) :
  has_tab symbol = false ->
  split_tab (symbol ++ String tab rest) = (symbol, Some rest).
Proof.
  induction symbol as [|c s IH]; simpl.
  - reflexivity.
  - intro H. apply orb_false_elim in H. destruct H as [Hc Hs].
    rewrite Hc, (IH Hs). reflexivity.
Qed.

Lemma append_assoc (a b c : string) :
  ((a ++ b) ++ c = a ++ (b ++ c))%string.
Proof. induction a as [|x a IH]; simpl; [reflexivity | rewrite IH; reflexivity]. Qed.

(** A well-formed line gives back its symbol and its description. *)
Lemma split_description_line (symbol description : string) :
  clean_symbol symbol -> clean_description description ->
  split_tab (strip (description_line (symbol, description)))
  = (symbol, Some description).
Proof.
  intros [Htab (c & rest & Hsym & Hc)] (body & c' & -> & Hc').
  unfold description_line, strip. cbn [fst snd].
  assert (Hl : forall x, lstrip (symbol ++ x) = (symbol ++ x)%string).
  { intro x. rewrite Hsym. simpl. rewrite Hc. reflexivity. }
  rewrite Hl.
  change (String tab ((body ++ String c' "")
                        ++ String (Ascii.ascii_of_nat 10) ""))%string
    with (String tab (body ++ String c' "")
            ++ String (Ascii.ascii_of_nat 10) "")%string.
  rewrite <- append_assoc.
  rewrite rstrip_app_spaces by reflexivity.
  change (String tab (body ++ String c' ""))%string
    with (String tab body ++ String c' "")%string.
  rewrite <- append_assoc.
  rewrite rstrip_clean by exact Hc'.
  rewrite append_assoc. apply split_tab_first. exact Htab.
Qed.

(** ** The dictionary of descriptions *)

Lemma dict_get_set (d : dict) (key value other : string) :
  dict_get (dict_set d key value) other
  = if (key =? other)%string then Some value else dict_get d other.
Proof.
  induction d as [|[k v] d IH]; simpl.
  - reflexivity.
  - destruct (String.eqb_spec k key) as [->|Hne]; simpl.
    + destruct (String.eqb_spec key other); reflexivity.
    + rewrite IH. destruct (String.eqb_spec k other) as [->|Hko];
        [|reflexivity].
      destruct (String.eqb_spec key other); [congruence | reflexivity].
Qed.

Lemma dict_get_app (d1 d2 : dict) (key : string) :
  dict_get (d1 ++ d2) key
  = match dict_get d1 key with
    | Some v => Some v
    | None => dict_get d2 key
    end.
Proof.
  induction d1 as [|[k v] d1 IH]; simpl; [reflexivity|].
  destruct (k =? key)%string; [reflexivity | exact IH].
Qed.

(** Reading well-formed lines into a dictionary: a symbol gets the
    description of the last line that has it, and a symbol that no line has
    keeps the one it had. *)
Lemma read_description_lines (entries : list (string * string))
  (descriptions : dict) :
  Forall (fun entry => clean_symbol (fst entry)
                       /\ clean_description (snd entry)) entries ->
  exists d,
    read_descriptions (map description_line entries) descriptions
    = Descriptions d
    /\ forall symbol,
         dict_get d symbol
         = match dict_get (rev entries) symbol with
           | Some description => Some description
           | None => dict_get descriptions symbol
           end.
Proof.
  revert descriptions.
  induction entries as [|[symbol description] rest IH];
    intros descriptions Hclean.
  - exists descriptions. split; reflexivity.
  - inversion Hclean as [|? ? [Hs Hd] Hrest]; subst. simpl in Hs, Hd.
    cbn [map read_descriptions].
    rewrite (split_description_line Hs Hd).
    destruct (IH (dict_set descriptions symbol description) Hrest)
      as (d & Hread & Hget).
    exists d. split; [exact Hread|]. intro key.
    rewrite Hget, dict_get_set. simpl rev. rewrite dict_get_app. simpl.
    destruct (dict_get (rev rest) key); [reflexivity|].
    destruct (symbol =? key)%string; reflexivity.
Qed.

(** X16. Loading a description file whose lines after the header are a
    symbol, a tab, a description and a line feed gives a dictionary in which
    every symbol has the description of the last line that names it, and no
    other symbol has one.  The header line is not read. *)
Theorem descriptions_round_trip (header : string)
  (entries : list (string * string)) :
  Forall (fun entry => clean_symbol (fst entry)
                       /\ clean_description (snd entry)) entries ->
  exists d,
    load_stock_descriptions (header :: map description_line entries)
    = Descriptions d
    /\ forall symbol, dict_get d symbol = dict_get (rev entries) symbol.
Proof.
  intro Hclean. unfold load_stock_descriptions. simpl tl.
  destruct (read_description_lines [] Hclean) as (d & Hread & Hget).
  exists d. split; [exact Hread|]. intro symbol. rewrite Hget.
  destruct (dict_get (rev entries) symbol); reflexivity.
Qed.

(** X17. A line that is a text without a tab followed by whitespace makes
    [load_stock_descriptions] raise: the tab and the line feed at the end of
    a line are stripped before the line is split.  So a blank line, a line
    with a symbol alone and a line whose description is empty all end the
    load, whatever the lines before and after hold, once the header is
    passed and the lines before are well formed. *)
Theorem line_without_description_fails (header text spaces : string)
  (entries : list (string * string)) (after : list string) :
  Forall (fun entry => clean_symbol (fst entry)
                       /\ clean_description (snd entry)) entries ->
  has_tab text = false -> all_space spaces = true ->
  load_stock_descriptions
    (header :: map description_line entries ++ (text ++ spaces)%string :: after)
  = ValueError (text ++ spaces)%string.
Proof.
  intros Hclean Htext Hspaces. unfold load_stock_descriptions. simpl tl.
  generalize (@nil (string * string)) as descriptions.
  induction entries as [|[symbol description] rest IH]; intro descriptions.
  - cbn [map app read_descriptions].
    rewrite (@strip_app_spaces text spaces Hspaces).
    rewrite split_tab_none; [reflexivity|].
    unfold strip. apply has_tab_rstrip, has_tab_lstrip. exact Htext.
  - inversion Hclean as [|? ? [Hs Hd] Hrest]; subst. simpl in Hs, Hd.
    cbn [map app read_descriptions].
    rewrite (split_description_line Hs Hd). apply IH. exact Hrest.
Qed.

Lemma three_entries_clean :
  Forall (fun entry => clean_symbol (fst entry)
                       /\ clean_description (snd entry))
    MoreSamples.three_entries.
Proof.
  repeat constructor; simpl.
  - eexists. eexists. split; reflexivity.
  - exists "Appl"%string, (Ascii.ascii_of_nat 101). split; reflexivity.
  - eexists. eexists. split; reflexivity.
  - exists "Microsof"%string, (Ascii.ascii_of_nat 116). split; reflexivity.
  - eexists. eexists. split; reflexivity.
  - exists "Apple In"%string, (Ascii.ascii_of_nat 99). split; reflexivity.
Defined.

(** AAPL has the description of its last line. *)
Lemma descriptions_round_trip_witness :
  exists d,
    load_stock_descriptions
      (MoreSamples.header_line
         :: map description_line MoreSamples.three_entries)
    = Descriptions d
    /\ dict_get d "AAPL" = Some "Apple Inc"%string
    /\ dict_get d "GOOG" = None.
Proof.
  destruct (@descriptions_round_trip MoreSamples.header_line
              MoreSamples.three_entries three_entries_clean)
    as (d & Hload & Hget).
  exists d. split; [exact Hload|]. rewrite !Hget. split; reflexivity.
Defined.

(** A line with MSFT, a tab and nothing else. *)
Lemma line_without_description_fails_witness :
  load_stock_descriptions
    (MoreSamples.header_line
       :: map description_line MoreSamples.three_entries
       ++ ("MSFT" ++ MoreSamples.tab_and_line_feed)%string
       :: [description_line ("GOOG", "Alphabet")%string])
  = ValueError ("MSFT" ++ MoreSamples.tab_and_line_feed)%string.
Proof.
  apply (@line_without_description_fails MoreSamples.header_line "MSFT"
           MoreSamples.tab_and_line_feed MoreSamples.three_entries).
  - exact three_entries_clean.
  - reflexivity.
  - reflexivity.
Defined.

(** ** Processing the files of a folder *)

Section Processing.

Variable ta : TALib.

Lemma collect_app {A} (symbol : string) (body : result (option A))
  (acc : collected A) :
  collect symbol body acc
  = (fst acc ++ fst (collect symbol body ([], [])),
     snd acc ++ snd (collect symbol body ([], []))).
Proof.
  destruct body as [[row|]|e], acc as [rows printed]; simpl;
    rewrite ?app_nil_r; reflexivity.
Qed.

Lemma process_folder_app (descriptions : dict)
  (files : list (string * result DataFrame)) (acc : collected analysis) :
  fold_left
    (fun analysis_results file =>
       process_stock_file ta (snd file) (fst file) descriptions
         analysis_results) files acc
  = (fst acc ++ fst (process_folder ta files descriptions),
     snd acc ++ snd (process_folder ta files descriptions)).
Proof.
  unfold process_folder. revert acc.
  induction files as [|file rest IH]; intro acc; simpl.
  - rewrite !app_nil_r. destruct acc; reflexivity.
  - rewrite IH. rewrite (IH (process_stock_file ta _ _ _ ([], []))).
    unfold process_stock_file. rewrite (collect_app _ _ acc). simpl.
    rewrite !app_assoc. reflexivity.
Qed.

(** The files are processed one after the other, each on its own. *)
Lemma process_folder_split (descriptions : dict)
  (files1 files2 : list (string * result DataFrame)) :
  process_folder ta (files1 ++ files2) descriptions
  = (fst (process_folder ta files1 descriptions)
       ++ fst (process_folder ta files2 descriptions),
     snd (process_folder ta files1 descriptions)
       ++ snd (process_folder ta files2 descriptions)).
Proof.
  unfold process_folder at 1. rewrite fold_left_app.
  fold (process_folder ta files1 descriptions).
  apply process_folder_app.
Qed.

(** The analysis of a history and its composite score in the score table
    are the same computation. *)
Lemma analyze_total_score (data : DataFrame) (symbol : string)
  (descriptions : dict) (score : float) :
  Backtesting.total_score ta data = Ok score <->
  exists row,
    analyze ta data symbol descriptions = Ok row /\ Total_Score row = score.
Proof.
  unfold Backtesting.total_score, analyze, mean_of_five.
  destruct (analyze_ema ta data) as [[[a ?] ?]|]; cbn [bind];
    [|split; [discriminate | intros (? & H & _); discriminate H]].
  destruct (analyze_rsi ta data) as [[[b ?] ?]|]; cbn [bind];
    [|split; [discriminate | intros (? & H & _); discriminate H]].
  destruct (analyze_adx ta data) as [[[c ?] ?]|]; cbn [bind];
    [|split; [discriminate | intros (? & H & _); discriminate H]].
  destruct (analyze_donchian ta data) as [[[d ?] ?]|]; cbn [bind];
    [|split; [discriminate | intros (? & H & _); discriminate H]].
  destruct (analyze_volume ta data) as [[[e ?] ?]|]; cbn [bind];
    [|split; [discriminate | intros (? & H & _); discriminate H]].
  split.
  - intro H. injection H as <-. eexists. split; reflexivity.
  - intros (row & H & <-). injection H as <-. reflexivity.
Qed.

End Processing.

(** X18. In the loop over the files of analyze_all_stocks.py a file that
    fails, because it cannot be read or because an analyzer raises on its
    50 bars or more, adds no row and prints one line, and the rows and the
    lines of the files before and after it are what they are without it. *)
Theorem failing_file_is_skipped (ta : TALib) (descriptions : dict)
  (before after : list (string * result DataFrame)) (symbol : string)
  (read_csv : result DataFrame) (e : exn) :
  read_csv = Raise e
  \/ (exists data,
        read_csv = Ok data /\ (50 <= List.length data)%nat
        /\ analyze ta data symbol descriptions = Raise e) ->
  fst (process_folder ta (before ++ (symbol, read_csv) :: after) descriptions)
  = fst (process_folder ta (before ++ after) descriptions)
  /\ snd (process_folder ta (before ++ (symbol, read_csv) :: after)
            descriptions)
     = snd (process_folder ta before descriptions)
         ++ [ErrorProcessing symbol e]
         ++ snd (process_folder ta after descriptions).
Proof.
  intro Hfail.
  assert (Hone : process_folder ta [(symbol, read_csv)] descriptions
                 = ([], [ErrorProcessing symbol e])).
  { unfold process_folder, process_stock_file. simpl.
    destruct Hfail as [->|(data & -> & Hlen & Hraise)]; [reflexivity|].
    cbn [bind]. apply Nat.ltb_ge in Hlen. rewrite Hlen, Hraise. reflexivity. }
  change ((symbol, read_csv) :: after) with ([(symbol, read_csv)] ++ after).
  rewrite !process_folder_split. cbn [fst snd]. rewrite Hone.
  split; reflexivity.
Qed.

Lemma failing_file_is_skipped_witness :
  fst (process_folder Sample.ta_echo MoreSamples.three_files [])
  = fst (process_folder Sample.ta_echo
           ([("AAA"%string, Ok Sample.sixty_bars)]
              ++ [("CCC"%string, Ok Sample.sixty_bars)]) [])
  /\ snd (process_folder Sample.ta_echo MoreSamples.three_files [])
     = snd (process_folder Sample.ta_echo
              [("AAA"%string, Ok Sample.sixty_bars)] [])
         ++ [ErrorProcessing "BAD" (LibraryError 2)]
         ++ snd (process_folder Sample.ta_echo
                   [("CCC"%string, Ok Sample.sixty_bars)] []).
Proof.
  apply (@failing_file_is_skipped Sample.ta_echo []
           [("AAA"%string, Ok Sample.sixty_bars)]
           [("CCC"%string, Ok Sample.sixty_bars)] "BAD"%string
           (Raise (LibraryError 2)) (LibraryError 2)).
  left. reflexivity.
Defined.

Section AnalysisRows.

Variable ta : TALib.

Lemma analyze_fields (data : DataFrame) (symbol : string)
  (descriptions : dict) (row : analysis) :
  analyze ta data symbol descriptions = Ok row ->
  aSymbol row = symbol
  /\ Description row = description_of descriptions symbol
  /\ Total_Score row
     = mean_of_five (EMA_Score row) (RSI_Score row) (ADX_Score row)
         (Donchian_Score row) (Volume_Score row)
  /\ 1 <= EMA_Score row <= 5 /\ 1 <= RSI_Score row <= 5
  /\ 1 <= ADX_Score row <= 5 /\ 1 <= Donchian_Score row <= 5
  /\ 1 <= Volume_Score row <= 5
  /\ ((50 <= List.length data)%nat -> EMA_Score row <> 3).
Proof.
  unfold analyze. intro H.
  destruct (analyze_ema ta data) as [[[a ea] xa]|] eqn:Ea; cbn [bind] in H;
    [|discriminate H].
  destruct (analyze_rsi ta data) as [[[b ?] ?]|] eqn:Eb; cbn [bind] in H;
    [|discriminate H].
  destruct (analyze_adx ta data) as [[[c ?] ?]|] eqn:Ec; cbn [bind] in H;
    [|discriminate H].
  destruct (analyze_donchian ta data) as [[[d ?] ?]|] eqn:Ed; cbn [bind] in H;
    [|discriminate H].
  destruct (analyze_volume ta data) as [[[e ?] ?]|] eqn:Ee; cbn [bind] in H;
    [|discriminate H].
  injection H as <-. simpl.
  pose proof (shape_score_range (ema_shape _ _ Ea)).
  pose proof (shape_score_range (rsi_shape _ _ Eb)).
  pose proof (shape_score_range (adx_shape _ _ Ec)).
  pose proof (shape_score_range (donchian_shape _ _ Ed)).
  pose proof (shape_score_range (volume_shape _ _ Ee)).
  repeat (split; [first [reflexivity | assumption]|]).
  intros Hlen Ha. subst a.
  unfold analyze_ema, and_then, cmp_at in Ea.
  rewrite (long_guard _ Hlen) in Ea.
  split_result Ea; try discriminate Ea;
    unfold enter_now, exit_now in Ea; split_result Ea; discriminate Ea.
Qed.

(** The rows of a folder: one for each file that is read, has 50 bars or
    more and is analyzed without an error. *)
Lemma process_folder_rows (descriptions : dict)
  (files : list (string * result DataFrame)) (row : analysis) :
  In row (fst (process_folder ta files descriptions)) <->
  exists symbol data,
    In (symbol, Ok data) files /\ (50 <= List.length data)%nat
    /\ analyze ta data symbol descriptions = Ok row.
Proof.
  induction files as [|[symbol read_csv] rest IH].
  - simpl. split; [intros [] | intros (? & ? & [] & _)].
  - change ((symbol, read_csv) :: rest) with ([(symbol, read_csv)] ++ rest).
    rewrite process_folder_split. cbn [fst]. rewrite in_app_iff, IH.
    unfold process_folder, process_stock_file. simpl. split.
    + intros [Hrow|(s & d & Hin & Hrest)].
      * destruct read_csv as [data|e]; cbn [bind] in Hrow; [|destruct Hrow].
        destruct (Nat.ltb_spec (List.length data) 50) as [Hs|Hl];
          [destruct Hrow|].
        destruct (analyze ta data symbol descriptions) as [r|e] eqn:Ha;
          cbn [bind] in Hrow; [|destruct Hrow].
        destruct Hrow as [<-|[]]. exists symbol, data. auto.
      * exists s, d. auto.
    + intros (s & d & [Heq|Hin] & Hlen & Ha).
      * injection Heq as -> ->. left. cbn [bind].
        apply Nat.ltb_ge in Hlen. rewrite Hlen, Ha. left. reflexivity.
      * right. exists s, d. auto.
Qed.

End AnalysisRows.

(** X19. Every row that the loop of analyze_all_stocks.py collects belongs
    to a file that was read and has at least 50 bars; its five scores are
    between 1 and 5, the EMA score is not 3, its total score is their mean,
    a float between 1 and 5, and its description is the one of the
    dictionary or, for a symbol the dictionary does not have, the text
    'No description available'. *)
Theorem analysis_rows_are_scored (ta : TALib) (descriptions : dict)
  (files : list (string * result DataFrame)) (row : analysis) :
  In row (fst (process_folder ta files descriptions)) ->
  (exists data,
     In (aSymbol row, Ok data) files /\ (50 <= List.length data)%nat)
  /\ (1 <= EMA_Score row <= 5 /\ EMA_Score row <> 3)
  /\ 1 <= RSI_Score row <= 5 /\ 1 <= ADX_Score row <= 5
  /\ 1 <= Donchian_Score row <= 5 /\ 1 <= Volume_Score row <= 5
  /\ Total_Score row
     = mean_of_five (EMA_Score row) (RSI_Score row) (ADX_Score row)
         (Donchian_Score row) (Volume_Score row)
  /\ fle 1 (Total_Score row) = true /\ fle (Total_Score row) 5 = true
  /\ Description row
     = match dict_get descriptions (aSymbol row) with
       | Some description => description
       | None => "No description available"%string
       end.
Proof.
  intro H. apply process_folder_rows in H.
  destruct H as (symbol & data & Hin & Hlen & Ha).
  destruct (analyze_fields _ _ _ _ Ha)
    as (Hs & Hd & Ht & He & Hr & Hx & Hdo & Hv & Hne).
  subst symbol. split; [exists data; auto|].
  split; [split; [exact He | exact (Hne Hlen)]|].
  repeat (split; [assumption|]).
  assert (Hb : fle 1 (Total_Score row) = true
               /\ fle (Total_Score row) 5 = true).
  { rewrite Ht. unfold mean_of_five. apply fifths_bounds. lia. }
  destruct Hb as [H1 H5]. split; [exact H1|]. split; [exact H5|].
  exact Hd.
Qed.

Lemma analysis_rows_are_scored_witness :
  exists row,
    In row (fst (process_folder Sample.ta_echo MoreSamples.three_files []))
    /\ Total_Score row
       = mean_of_five (EMA_Score row) (RSI_Score row) (ADX_Score row)
           (Donchian_Score row) (Volume_Score row)
    /\ Description row = "No description available"%string.
Proof.
  eexists. split; [left; reflexivity|].
  match goal with
  | |- Total_Score ?r = _ /\ _ =>
      destruct (@analysis_rows_are_scored Sample.ta_echo []
                  MoreSamples.three_files r (or_introl eq_refl))
        as (_ & _ & _ & _ & _ & _ & Ht & _ & _ & Hd)
  end.
  split; [exact Ht | exact Hd].
Defined.

(** ** The analysis up to a selected day *)

Lemma prefix_of_range (start_date end_date selected_day : Z)
  (data : DataFrame) :
  (forall b, In b data -> start_date <= Date b) ->
  selected_day <= end_date ->
  loc_upto selected_day (in_range start_date end_date data)
  = filter_data_up_to_selected_day data selected_day.
Proof.
  intros Hstart Hend. unfold loc_upto, in_range,
    filter_data_up_to_selected_day.
  induction data as [|b data IH]; simpl; [reflexivity|].
  assert (Hb : start_date <= Date b) by (apply Hstart; left; reflexivity).
  rewrite <- IH by (intros x Hx; apply Hstart; right; exact Hx).
  destruct (Z.leb_spec start_date (Date b)); [|lia].
  destruct (Z.leb_spec (Date b) selected_day) as [Hle|Hgt].
  - destruct (Z.leb_spec (Date b) end_date); [|lia]. simpl.
    destruct (Z.leb_spec (Date b) selected_day); [reflexivity | lia].
  - destruct (Z.leb_spec (Date b) end_date); simpl; [|reflexivity].
    destruct (Z.leb_spec (Date b) selected_day); [lia | reflexivity].
Qed.

(** X20. The two scripts agree on a day.  For an instrument whose history
    starts inside the analysis range, and a selected day of that history
    that is not after the end of the range, the score table of the backtest
    has a row for the instrument on that day with a given score exactly
    when analyze_all_stock_past.py, run for that day, collects a row for the
    instrument with that total score. *)
Theorem past_analysis_matches_score_table (ta : TALib) (data_folder : folder)
  (start_date end_date : Z) (symbol : string) (data : DataFrame)
  (descriptions : dict) (selected_day : Z) (score : float) :
  find_file symbol data_folder = Some data ->
  (forall b, In b data -> start_date <= Date b) ->
  selected_day <= end_date ->
  In selected_day (map Date data) ->
  (In (mkRow selected_day symbol score)
      (load_and_score_stock_data ta data_folder start_date end_date)
   <->
   exists row,
     fst (process_stock_file_past ta (Ok data) symbol descriptions
            selected_day ([], [])) = [row]
     /\ Total_Score row = score).
Proof.
  intros Hfile Hstart Hend Hday.
  pose proof (@prefix_of_range start_date end_date selected_day data Hstart Hend) as Hprefix.
  rewrite table_row_iff. simpl sDate. simpl Symbol. simpl Score.
  unfold process_stock_file_past. cbn [bind]. cbv zeta.
  set (prefix := filter_data_up_to_selected_day data selected_day) in *.
  split.
  - intros (d & Hd & _ & Hlen & Hscore).
    assert (d = data) by congruence. subst d.
    rewrite Hprefix in Hlen, Hscore.
    apply (analyze_total_score ta prefix symbol descriptions) in Hscore.
    destruct Hscore as (row & Ha & Ht). exists row.
    destruct prefix as [|b rest] eqn:Hp; [simpl in Hlen; lia|].
    apply Nat.ltb_ge in Hlen. rewrite Hlen, Ha. cbn [orb bind collect fst app].
    auto.
  - intros (row & Hrow & Ht). exists data. split; [exact Hfile|].
    rewrite Hprefix.
    destruct prefix as [|b rest] eqn:Hp; [discriminate Hrow|].
    destruct (Nat.ltb_spec (List.length (b :: rest)) 50) as [Hs|Hl];
      [discriminate Hrow|].
    destruct (analyze ta (b :: rest) symbol descriptions) as [r|e] eqn:Ha;
      [|discriminate Hrow].
    cbn [orb bind collect fst app] in Hrow. injection Hrow as ->.
    split; [|split; [exact Hl|]].
    + apply in_map_iff in Hday. destruct Hday as (x & Hx & Hin).
      apply in_map_iff. exists x. split; [exact Hx|].
      apply filter_In. split; [exact Hin|].
      specialize (Hstart x Hin).
      apply andb_true_intro. split; apply Z.leb_le; lia.
    + apply (analyze_total_score ta (b :: rest) symbol descriptions).
      exists row. auto.
Qed.

Lemma past_analysis_matches_score_table_witness :
  In (mkRow 55 "AAA" (11 / 5)%float)
     (load_and_score_stock_data Sample.ta_echo
        [("AAA"%string, Sample.sixty_bars)] 1 60)
  <->
  exists row,
    fst (process_stock_file_past Sample.ta_echo (Ok Sample.sixty_bars)
           "AAA" [] 55 ([], [])) = [row]
    /\ Total_Score row = (11 / 5)%float.
Proof.
  apply (@past_analysis_matches_score_table Sample.ta_echo
           [("AAA"%string, Sample.sixty_bars)] 1 60 "AAA"%string
           Sample.sixty_bars [] 55 (11 / 5)%float).
  - reflexivity.
  - intros b Hb. unfold Sample.sixty_bars in Hb. apply in_map_iff in Hb.
    destruct Hb as (d & <- & Hd). unfold Sample.days in Hd.
    apply in_map_iff in Hd. destruct Hd as (k & <- & _).
    unfold Sample.flat_bar. cbn [Date]. lia.
  - lia.
  - unfold Sample.sixty_bars. rewrite map_map. apply in_map_iff.
    exists 55. split; [reflexivity|]. unfold Sample.days.
    apply in_map_iff. exists 54%nat. split; [reflexivity|].
    apply in_seq. lia.
Defined.

(** On a file that has no bar after the selected day the two scripts do the
    same. *)
Lemma past_file_of_the_last_day (ta : TALib) (read_csv : result DataFrame)
  (symbol : string) (descriptions : dict) (selected_day : Z)
  (analysis_results : collected analysis) :
  (forall data b, read_csv = Ok data -> In b data -> Date b <= selected_day) ->
  process_stock_file_past ta read_csv symbol descriptions selected_day
    analysis_results
  = process_stock_file ta read_csv symbol descriptions analysis_results.
Proof.
  intro Hlast. unfold process_stock_file_past, process_stock_file.
  destruct read_csv as [data|e]; [|reflexivity]. cbn [bind]. cbv zeta.
  assert (Hall : filter_data_up_to_selected_day data selected_day = data).
  { apply filter_all. intros b Hb. apply Z.leb_le.
    exact (Hlast data b eq_refl Hb). }
  rewrite Hall. destruct data as [|b rest]; reflexivity.
Qed.

(** X21. Run for a selected day that no bar of the folder comes after,
    analyze_all_stock_past.py collects the rows and prints the lines of
    analyze_all_stocks.py. *)
Theorem past_analysis_of_the_last_day (ta : TALib)
  (files : list (string * result DataFrame)) (descriptions : dict)
  (selected_day : Z) :
  (forall symbol data b,
     In (symbol, Ok data) files -> In b data -> Date b <= selected_day) ->
  process_folder_past ta files descriptions selected_day
  = process_folder ta files descriptions.
Proof.
  unfold process_folder_past, process_folder.
  generalize (@nil analysis, @nil line) as acc.
  induction files as [|[symbol read_csv] rest IH]; intros acc Hlast;
    [reflexivity|].
  cbn [fold_left fst snd]. rewrite past_file_of_the_last_day.
  - apply IH. intros s d b Hin. apply (Hlast s d b). right. exact Hin.
  - intros data b -> Hb. apply (Hlast symbol data b); [left; reflexivity|].
    exact Hb.
Qed.

Lemma past_analysis_of_the_last_day_witness :
  process_folder_past Sample.ta_echo MoreSamples.three_files [] 60
  = process_folder Sample.ta_echo MoreSamples.three_files [].
Proof.
  apply (@past_analysis_of_the_last_day Sample.ta_echo
           MoreSamples.three_files [] 60).
  intros symbol data b Hin Hb.
  assert (Hdata : data = Sample.sixty_bars).
  { destruct Hin as [H|[H|[H|[]]]]; [injection H as _ <- | discriminate H
                                    | injection H as _ <-]; reflexivity. }
  subst data. unfold Sample.sixty_bars in Hb. apply in_map_iff in Hb.
  destruct Hb as (d & <- & Hd). unfold Sample.days in Hd.
  apply in_map_iff in Hd. destruct Hd as (k & <- & Hk).
  apply in_seq in Hk. unfold Sample.flat_bar. cbn [Date]. lia.
Defined.

(** ** The main block of the backtest *)

Lemma min_date_in (stock_scores : list score_row) :
  stock_scores <> [] -> In (min_date stock_scores) (map sDate stock_scores).
Proof.
  destruct stock_scores as [|r rest]; [congruence|]. intros _.
  unfold min_date. cbn [map hd].
  assert (H : forall a l, fold_right Z.min a l = a
                          \/ In (fold_right Z.min a l) l).
  { intros a l. induction l as [|x l IH]; simpl; [left; reflexivity|].
    destruct (Z.min_spec x (fold_right Z.min a l)) as [[_ ->]|[_ ->]].
    - right. left. reflexivity.
    - destruct IH as [IH|IH]; [left; exact IH | right; right; exact IH]. }
  destruct (H (sDate r) (sDate r :: map sDate rest)) as [->|Hin];
    [left; reflexivity | exact Hin].
Qed.

Section MainBlock.

Variable ta : TALib.
Variable sort_values : list score_row -> list score_row.
Variable stock_scores : list score_row.
Variable stop_loss : float.
Variable reevaluation_period : Z.
Variable data_folder : folder.

Local Abbreviation step := (run_period sort_values stock_scores stop_loss
                              reevaluation_period data_folder).
Local Abbreviation loop := (backtest_loop sort_values stock_scores stop_loss
                              reevaluation_period data_folder).

(** An iteration that finds a candidate with data and returns has logged a
    Reevaluate row. *)
Lemma scored_period_logs (s s' : state) (best : option string)
  (score : option float) :
  get_best_stock sort_values (current_date s) stock_scores = Ok (best, score) ->
  truthy best = true ->
  empty (get_stock_data (py_str best) data_folder) = false ->
  step s = Ok s' ->
  exists rest re,
    investment_log s' = rest ++ [re] /\ Action re = "Reevaluate"%string.
Proof.
  intros Hsel Htruthy Hempty. unfold run_period.
  rewrite Hsel. cbn [bind]. rewrite Htruthy. simpl negb. cbv iota.
  rewrite Hempty.
  destruct (enter_or_switch best (get_stock_data (py_str best) data_folder) s)
    as [s1|e]; cbn [bind]; [|discriminate].
  destruct (monitor _ _ _ _ _ (get_stock_data (py_str best) data_folder) s1)
    as [[s2 stock_data2]|e]; cbn [bind]; [|discriminate].
  unfold reevaluate.
  destruct (open_on stock_data2 (current_date s + reevaluation_period))
    as [price|e]; cbn [bind]; [|discriminate].
  intro H. injection H as <-. eexists. eexists. simpl.
  split; reflexivity.
Qed.

(** Once the log ends with a Reevaluate row it does so for the rest of the
    run. *)
Lemma backtest_loop_last (fuel : nat) (s s' : state) :
  loop fuel s = Some (Ok s') ->
  (exists rest re,
     investment_log s = rest ++ [re] /\ Action re = "Reevaluate"%string) ->
  exists rest re,
    investment_log s' = rest ++ [re] /\ Action re = "Reevaluate"%string.
Proof.
  revert s. induction fuel as [|fuel IH]; intros s; simpl.
  - destruct (current_date s <=? max_date stock_scores); [discriminate|].
    intro H. injection H as <-. auto.
  - destruct (current_date s <=? max_date stock_scores).
    + destruct (step s) as [s1|e] eqn:Hstep; [|discriminate].
      intros Hloop Hs. apply (IH _ Hloop).
      apply run_period_rows in Hstep. destruct Hstep as [_ Hrows].
      destruct Hrows as [->|[(re & -> & Hre & _)
                            |(sl & re & -> & _ & _ & _ & Hre & _)]].
      * exact Hs.
      * exists (investment_log s), re. auto.
      * exists (investment_log s ++ [sl]), re. rewrite <- app_assoc. auto.
    + intro H. injection H as <-. auto.
Qed.

(** What [get_best_stock] returns on a date of the table is the symbol of
    the row that the sort puts first. *)
Lemma get_best_stock_on_a_date (date : Z) (best : option string)
  (score : option float) :
  In date (map sDate stock_scores) ->
  get_best_stock sort_values date stock_scores = Ok (best, score) ->
  exists r rest,
    sort_values (filter (fun r => sDate r =? date) stock_scores) = r :: rest
    /\ best = Some (Symbol r).
Proof.
  intros Hdate.
  assert (Hday : filter (fun r => sDate r =? date) stock_scores <> []).
  { intro Hf. apply in_map_iff in Hdate. destruct Hdate as (r & Hr & Hin).
    assert (Hin' : In r (filter (fun r => sDate r =? date) stock_scores))
      by (apply filter_In; split; [exact Hin | apply Z.eqb_eq; exact Hr]).
    rewrite Hf in Hin'. destruct Hin'. }
  rewrite (get_best_stock_day _ _ _ Hday).
  destruct (sort_values (filter (fun r => sDate r =? date) stock_scores))
    as [|r rest]; [discriminate|].
  intro H. injection H as <- _. exists r, rest. auto.
Qed.

End MainBlock.

(** X22. Run on a folder in which no file has fifty bars inside the range,
    the backtest script builds an empty score table and stops with a
    KeyError in [backtest]: it reports no final value and saves no log. *)
Theorem no_scored_instrument_no_backtest (ta : TALib)
  (sort_values : list score_row -> list score_row) (data_folder : folder)
  (start_date end_date : Z) :
  (forall symbol data,
     find_file symbol data_folder = Some data ->
     (List.length (in_range start_date end_date data) < 50)%nat) ->
  load_and_score_stock_data ta data_folder start_date end_date = []
  /\ main ta sort_values data_folder start_date end_date
     = Some (Raise KeyError).
Proof.
  intro Hshort.
  assert (Htable : load_and_score_stock_data ta data_folder start_date
                     end_date = []).
  { destruct (load_and_score_stock_data ta data_folder start_date end_date)
      as [|r rest] eqn:Ht; [reflexivity|]. exfalso.
    assert (Hr : In r (load_and_score_stock_data ta data_folder start_date
                         end_date)) by (rewrite Ht; left; reflexivity).
    apply table_row_iff in Hr. destruct Hr as (d & Hd & _ & Hlen & _).
    specialize (Hshort _ _ Hd).
    pose proof (loc_upto_length (sDate r) (in_range start_date end_date d)).
    lia. }
  split; [exact Htable|]. unfold main. cbv zeta. rewrite Htable.
  reflexivity.
Qed.

Lemma no_scored_instrument_no_backtest_witness :
  load_and_score_stock_data Sample.ta_echo
    [("AAA"%string, MoreSamples.seventy_bars)] 30 70 = []
  /\ main Sample.ta_echo Sample.sort_desc
       [("AAA"%string, MoreSamples.seventy_bars)] 30 70
     = Some (Raise KeyError).
Proof.
  apply (@no_scored_instrument_no_backtest Sample.ta_echo Sample.sort_desc
           [("AAA"%string, MoreSamples.seventy_bars)] 30 70).
  intros symbol data Hfile. cbn [find_file] in Hfile.
  destruct ("AAA" =? symbol)%string; [|discriminate].
  injection Hfile as <-. vm_compute. lia.
Defined.

(** X23. The backtest script always ends.  When no file of the folder is
    named '.csv' and the sort puts a row of the date first, a run of
    [backtest] that returns has logged the first period: the log is not
    empty, its last row is a Reevaluate row, and the final value that the
    script prints is the investment value of that row. *)
Theorem main_reports_the_last_reevaluation (ta : TALib)
  (sort_values : list score_row -> list score_row) (data_folder : folder)
  (start_date end_date : Z) :
  (forall l best rest, sort_values l = best :: rest -> In best l) ->
  ~ In ""%string (map fst data_folder) ->
  (exists outcome,
     main ta sort_values data_folder start_date end_date = Some outcome)
  /\ forall log,
       backtest sort_values
         (load_and_score_stock_data ta data_folder start_date end_date)
         INITIAL_INVESTMENT STOP_LOSS REEVALUATION_PERIOD data_folder
       = Some (Ok log) ->
       exists rest last_row,
         log = rest ++ [last_row]
         /\ Action last_row = "Reevaluate"%string
         /\ main ta sort_values data_folder start_date end_date
            = Some (Ok (Investment_Value last_row, log)).
Proof.
  intros Hsort Hnames.
  set (table := load_and_score_stock_data ta data_folder start_date end_date).
  split.
  - unfold main. cbv zeta. fold table. unfold backtest.
    pose proof (@run_backtest_ends sort_values table STOP_LOSS
                  REEVALUATION_PERIOD data_folder INITIAL_INVESTMENT
                  eq_refl) as Hends.
    destruct (run_backtest _ _ _ _ _ _) as [[log|e]|]; [| |congruence].
    + destruct (rev log); eexists; reflexivity.
    + eexists; reflexivity.
  - intros log Hlog.
    assert (Hlast : exists rest re,
               log = rest ++ [re] /\ Action re = "Reevaluate"%string).
    { pose proof Hlog as Hrun. apply backtest_returns in Hrun.
      destruct Hrun as (Hne & _ & s' & Hloop & ->).
      unfold periods in Hloop. cbn [backtest_loop] in Hloop.
      change (current_date (initial_state table INITIAL_INVESTMENT))
        with (min_date table) in Hloop.
      pose proof (min_date_le_max_date table) as Hle.
      apply Z.leb_le in Hle. rewrite Hle in Hloop.
      destruct (run_period sort_values table STOP_LOSS REEVALUATION_PERIOD
                  data_folder (initial_state table INITIAL_INVESTMENT))
        as [s1|e] eqn:Hstep; [|discriminate].
      eapply backtest_loop_last; [exact Hloop|].
      assert (Hsel : exists best score,
                 get_best_stock sort_values (min_date table) table
                 = Ok (best, score)).
      { unfold run_period in Hstep.
        change (current_date (initial_state table INITIAL_INVESTMENT))
          with (min_date table) in Hstep.
        destruct (get_best_stock sort_values (min_date table) table)
          as [[best score]|e]; [|discriminate]. eauto. }
      destruct Hsel as (best & score & Hsel).
      pose proof Hsel as Hhead.
      apply get_best_stock_on_a_date in Hhead; [|exact (min_date_in Hne)].
      destruct Hhead as (r & others & Hhead & Hbest). subst best.
      apply Hsort in Hhead. apply filter_In in Hhead.
      destruct Hhead as [Hr _]. apply table_row_iff in Hr.
      destruct Hr as (d & Hd & _ & Hlen & _).
      eapply scored_period_logs; [| | | exact Hstep]; [exact Hsel | |].
      + simpl. apply negb_true_iff. apply String.eqb_neq. intro Hs.
        apply Hnames. rewrite <- Hs. apply find_file_some. congruence.
      + unfold empty. simpl py_str.
        rewrite (get_stock_data_loaded _ _ Hd).
        destruct d as [|b d]; [simpl in Hlen; lia | reflexivity]. }
    destruct Hlast as (rest & re & -> & Hre). exists rest, re.
    split; [reflexivity|]. split; [exact Hre|].
    unfold main. cbv zeta. fold table. rewrite Hlog.
    rewrite rev_app_distr. reflexivity.
Qed.

Lemma insert_desc_in (x r : score_row) (l : list score_row) :
  In x (Sample.insert_desc r l) -> x = r \/ In x l.
Proof.
  induction l as [|y l IH]; simpl.
  - intros [<-|[]]. left. reflexivity.
  - destruct (fle (Score y) (Score r)); simpl.
    + intros [<-|H]; [left; reflexivity | right; exact H].
    + intros [<-|H]; [right; left; reflexivity|].
      destruct (IH H) as [->|Hin]; [left; reflexivity | right; right; exact Hin].
Qed.

Lemma sort_desc_head (l : list score_row) (best : score_row)
  (rest : list score_row) :
  Sample.sort_desc l = best :: rest -> In best l.
Proof.
  intro H. assert (Hin : In best (Sample.sort_desc l))
    by (rewrite H; left; reflexivity).
  clear H. induction l as [|r l IH]; simpl in Hin; [exact Hin|].
  apply insert_desc_in in Hin.
  destruct Hin as [->|Hin]; [left; reflexivity | right; exact (IH Hin)].
Qed.

(** Seventy bars, scored up to day 60: one period, from day 50 to day 64. *)
Lemma main_reports_the_last_reevaluation_witness :
  exists rest last_row,
    main Sample.ta_echo Sample.sort_desc
      [("AAA"%string, MoreSamples.seventy_bars)] 1 60
    = Some (Ok (Investment_Value last_row, rest ++ [last_row]))
    /\ Action last_row = "Reevaluate"%string
    /\ lDate last_row = 64.
Proof.
  destruct (@main_reports_the_last_reevaluation Sample.ta_echo
              Sample.sort_desc [("AAA"%string, MoreSamples.seventy_bars)]
              1 60 sort_desc_head) as [_ H].
  - simpl. intros [H|[]]. discriminate H.
  - destruct (backtest Sample.sort_desc
                (load_and_score_stock_data Sample.ta_echo
                   [("AAA"%string, MoreSamples.seventy_bars)] 1 60)
                INITIAL_INVESTMENT STOP_LOSS REEVALUATION_PERIOD
                [("AAA"%string, MoreSamples.seventy_bars)])
      as [[log|e]|] eqn:Hrun;
      [|vm_compute in Hrun; discriminate Hrun
       |vm_compute in Hrun; discriminate Hrun].
    destruct (H log eq_refl) as (rest & last_row & Hlog & Hact & Hmain).
    exists rest, last_row. rewrite <- Hlog. split; [exact Hmain|].
    split; [exact Hact|].
    vm_compute in Hrun. injection Hrun as Hrun. rewrite <- Hrun in Hlog.
    destruct rest as [|e0 rest]; [|destruct rest; discriminate Hlog].
    injection Hlog as <-. reflexivity.
Defined.

(** ** The end of the analysis scripts and the market cap filter *)

Section AnalysisTable.

Variable ta : TALib.
Variable descriptions : dict.
Variable fundamentals : list fundamentals_row.
Variable cap_threshold : float.

(** The market cap script analyzes a history as the plain script does and
    adds the two market cap columns. *)
Lemma analyze_capped_is_analyze (data : DataFrame) (symbol : string) :
  match analyze_capped ta data symbol descriptions fundamentals cap_threshold
  with
  | Ok row =>
      analyze ta data symbol descriptions = Ok (without_cap row)
      /\ cSymbol row = symbol
      /\ Market_Cap row = market_cap_of fundamentals symbol
      /\ Above_Cap_Threshold row
         = is_above_cap_threshold (market_cap_of fundamentals symbol)
             cap_threshold
  | Raise e => analyze ta data symbol descriptions = Raise e
  end.
Proof.
  unfold analyze_capped, analyze.
  destruct (analyze_ema ta data) as [[[a ?] ?]|]; cbn [bind]; [|reflexivity].
  destruct (analyze_rsi ta data) as [[[b ?] ?]|]; cbn [bind]; [|reflexivity].
  destruct (analyze_adx ta data) as [[[c ?] ?]|]; cbn [bind]; [|reflexivity].
  destruct (analyze_donchian ta data) as [[[d ?] ?]|]; cbn [bind];
    [|reflexivity].
  destruct (analyze_volume ta data) as [[[e ?] ?]|]; cbn [bind];
    [|reflexivity].
  cbv zeta. repeat split; reflexivity.
Qed.

Lemma process_stock_file_capped_is_process (read_csv : result DataFrame)
  (symbol : string) (acc : collected capped) :
  let out :=
    process_stock_file_capped ta read_csv symbol descriptions fundamentals
      cap_threshold acc in
  (map without_cap (fst out), snd out)
  = process_stock_file ta read_csv symbol descriptions
      (map without_cap (fst acc), snd acc)
  /\ forall row, In row (fst out) ->
       In row (fst acc)
       \/ (cSymbol row = symbol
           /\ Market_Cap row = market_cap_of fundamentals symbol
           /\ Above_Cap_Threshold row
              = is_above_cap_threshold (market_cap_of fundamentals symbol)
                  cap_threshold).
Proof.
  cbv zeta. unfold process_stock_file_capped, process_stock_file.
  destruct read_csv as [data|e]; cbn [bind collect fst snd];
    [|split; [reflexivity | auto]].
  destruct (List.length data <? 50)%nat; cbn [bind collect fst snd];
    [split; [reflexivity | auto]|].
  pose proof (analyze_capped_is_analyze data symbol) as H.
  destruct (analyze_capped ta data symbol descriptions fundamentals
              cap_threshold) as [row|e].
  - destruct H as (-> & Hs & Hm & Ha). cbn [bind collect fst snd].
    rewrite map_app. split; [reflexivity|].
    intros r Hr. apply in_app_iff in Hr.
    destruct Hr as [Hr|[<-|[]]]; [left; exact Hr | right; auto].
  - rewrite H. cbn [bind collect fst snd]. split; [reflexivity | auto].
Qed.

Lemma process_folder_capped_is_process
  (files : list (string * result DataFrame)) (acc : collected capped) :
  let out :=
    fold_left
      (fun analysis_results file =>
         process_stock_file_capped ta (snd file) (fst file) descriptions
           fundamentals cap_threshold analysis_results)
      files acc in
  (map without_cap (fst out), snd out)
  = fold_left
      (fun analysis_results file =>
         process_stock_file ta (snd file) (fst file) descriptions
           analysis_results)
      files (map without_cap (fst acc), snd acc)
  /\ forall row, In row (fst out) ->
       In row (fst acc)
       \/ (Market_Cap row = market_cap_of fundamentals (cSymbol row)
           /\ Above_Cap_Threshold row
              = is_above_cap_threshold
                  (market_cap_of fundamentals (cSymbol row)) cap_threshold).
Proof.
  cbv zeta. revert acc.
  induction files as [|[symbol read_csv] rest IH]; intro acc;
    cbn [fold_left fst snd]; [split; [reflexivity | auto]|].
  destruct (process_stock_file_capped_is_process read_csv symbol acc)
    as [Hone Hrows].
  destruct (IH (process_stock_file_capped ta read_csv symbol descriptions
                  fundamentals cap_threshold acc)) as [Hall Hrest].
  split; [rewrite Hall, Hone; reflexivity|].
  intros row Hrow. destruct (Hrest row Hrow) as [Hin|Hcap];
    [|right; exact Hcap].
  destruct (Hrows row Hin) as [Hacc|(Hs & Hm & Ha)]; [left; exact Hacc|].
  right. rewrite Hs. auto.
Qed.

End AnalysisTable.

(** A comparison that holds has no NaN on its right. *)
Lemma leb_not_nan (x y : float) : (x <=? y)%float = true -> is_nan y = false.
Proof.
  rewrite leb_spec. unfold SFleb. intro H.
  destruct (is_nan y) eqn:Hnan; [|reflexivity].
  apply is_nan_spec in Hnan. rewrite Hnan, SFcompare_nan_r in H.
  discriminate H.
Qed.

(** The market cap that the script reads is the one of the first row of the
    fundamentals table with the symbol. *)
Lemma market_cap_of_first (fundamentals : list fundamentals_row)
  (symbol : string) (cap : float) :
  market_cap_of fundamentals symbol = Some cap <->
  exists before listed after,
    fundamentals = before ++ listed :: after
    /\ (forall row, In row before -> fSymbol row <> symbol)
    /\ fSymbol listed = symbol /\ fMarket_Cap listed = cap.
Proof.
  induction fundamentals as [|row rest IH]; simpl.
  - split; [discriminate|]. intros (before & ? & ? & H & _).
    destruct before; discriminate H.
  - destruct (String.eqb_spec (fSymbol row) symbol) as [Heq|Hne].
    + split.
      * intro H. injection H as <-. exists [], row, rest. simpl.
        repeat split; auto; intros ? [].
      * intros (before & listed & after & H & Hbefore & Hs & Hc).
        destruct before as [|b before]; simpl in H.
        -- injection H as -> _. rewrite Hc. reflexivity.
        -- injection H as -> _. exfalso.
           apply (Hbefore b); [left; reflexivity | exact Heq].
    + rewrite IH. split.
      * intros (before & listed & after & -> & Hbefore & Hs & Hc).
        exists (row :: before), listed, after. simpl.
        repeat split; auto; intros r [<-|Hr]; [exact Hne | auto].
      * intros (before & listed & after & H & Hbefore & Hs & Hc).
        destruct before as [|b before]; simpl in H.
        -- injection H as -> _. contradiction.
        -- injection H as -> ->. exists before, listed, after.
           repeat split; auto; intros r Hr; apply Hbefore; right; exact Hr.
Qed.

(** X24. The market cap script collects the rows and prints the lines of
    the plain script: its two market cap columns change neither a score nor
    which files fail.  A row is flagged as above the threshold only if its
    symbol is in the fundamentals table and the market cap of the first row
    that lists it is a number, is not zero, and is at least the threshold;
    a symbol that is not listed is never flagged, whatever the threshold. *)
Theorem cap_filter_keeps_the_analysis (ta : TALib)
  (files : list (string * result DataFrame)) (descriptions : dict)
  (fundamentals : list fundamentals_row) (cap_threshold : float) :
  map without_cap
      (fst (process_folder_capped ta files descriptions fundamentals
              cap_threshold))
  = fst (process_folder ta files descriptions)
  /\ snd (process_folder_capped ta files descriptions fundamentals
            cap_threshold)
     = snd (process_folder ta files descriptions)
  /\ forall row,
       In row (fst (process_folder_capped ta files descriptions fundamentals
                      cap_threshold)) ->
       (Above_Cap_Threshold row = true ->
        exists before listed after,
          fundamentals = before ++ listed :: after
          /\ (forall other, In other before -> fSymbol other <> cSymbol row)
          /\ fSymbol listed = cSymbol row
          /\ Market_Cap row = Some (fMarket_Cap listed)
          /\ is_nan (fMarket_Cap listed) = false
          /\ (fMarket_Cap listed =? 0)%float = false
          /\ (cap_threshold <=? fMarket_Cap listed)%float = true)
       /\ ((forall listed, In listed fundamentals ->
              fSymbol listed <> cSymbol row) ->
           Market_Cap row = None /\ Above_Cap_Threshold row = false).
Proof.
  destruct (process_folder_capped_is_process ta descriptions fundamentals
              cap_threshold files ([], [])) as [Hsame Hrows].
  cbv zeta in Hsame, Hrows. fold (process_folder_capped ta files descriptions
    fundamentals cap_threshold) in Hsame, Hrows.
  cbn [map fst snd] in Hsame.
  fold (process_folder ta files descriptions) in Hsame.
  split; [rewrite <- Hsame; reflexivity|].
  split; [rewrite <- Hsame; reflexivity|].
  intros row Hrow. destruct (Hrows row Hrow) as [[]|[Hm Ha]]. split.
  - intro Hflag. rewrite Ha in Hflag. unfold is_above_cap_threshold in Hflag.
    destruct (market_cap_of fundamentals (cSymbol row)) as [cap|] eqn:Hcap;
      [|discriminate Hflag].
    unfold float_truth, fge in Hflag.
    destruct (cap =? 0)%float eqn:Hzero; [discriminate Hflag|].
    simpl in Hflag. apply market_cap_of_first in Hcap.
    destruct Hcap as (before & listed & after & Hf & Hbefore & Hs & Hc).
    exists before, listed, after. rewrite Hc, Hm.
    repeat split; auto. exact (leb_not_nan Hflag).
  - intro Hnone.
    assert (Hcap : market_cap_of fundamentals (cSymbol row) = None).
    { destruct (market_cap_of fundamentals (cSymbol row)) as [cap|] eqn:Hcap;
        [|reflexivity]. exfalso. apply market_cap_of_first in Hcap.
      destruct Hcap as (before & listed & after & Hf & _ & Hs & _).
      apply (Hnone listed); [|exact Hs]. rewrite Hf. apply in_elt. }
    rewrite Hm, Ha, Hcap. split; reflexivity.
Qed.

(** X25. analyze_all_stocks.py ends in a KeyError, at the sort of its
    table, exactly when it has no row to write: when every file that is
    read has fewer than 50 bars or makes an analyzer fail. *)
Theorem analysis_without_rows_fails (ta : TALib)
  (sort_values : list analysis -> list analysis)
  (files : list (string * result DataFrame)) (descriptions : dict) :
  sorted_analysis sort_values (fst (process_folder ta files descriptions))
  = Raise KeyError
  <->
  forall symbol data,
    In (symbol, Ok data) files ->
    (List.length data < 50)%nat
    \/ exists e, analyze ta data symbol descriptions = Raise e.
Proof.
  unfold sorted_analysis. split.
  - intros Hsort symbol data Hin.
    destruct (Nat.lt_ge_cases (List.length data) 50) as [Hs|Hl];
      [left; exact Hs|]. right.
    destruct (analyze ta data symbol descriptions) as [row|e] eqn:Ha;
      [|exists e; reflexivity]. exfalso.
    assert (Hrow : In row (fst (process_folder ta files descriptions)))
      by (apply process_folder_rows; exists symbol, data; auto).
    destruct (fst (process_folder ta files descriptions));
      [destruct Hrow | discriminate Hsort].
  - intro Hnone.
    destruct (fst (process_folder ta files descriptions)) as [|row rest]
      eqn:Hrows; [reflexivity|]. exfalso.
    assert (Hrow : In row (fst (process_folder ta files descriptions)))
      by (rewrite Hrows; left; reflexivity).
    apply process_folder_rows in Hrow.
    destruct Hrow as (symbol & data & Hin & Hlen & Ha).
    destruct (Hnone symbol data Hin) as [Hs|(e & He)]; [lia | congruence].
Qed.

Lemma flagged_cap (fundamentals : list fundamentals_row) (symbol : string)
  (cap_threshold : float) :
  is_above_cap_threshold (market_cap_of fundamentals symbol) cap_threshold
  = true ->
  exists cap,
    market_cap_of fundamentals symbol = Some cap
    /\ is_nan cap = false /\ (cap =? 0)%float = false
    /\ (cap_threshold <=? cap)%float = true.
Proof.
  unfold is_above_cap_threshold, float_truth, fge.
  destruct (market_cap_of fundamentals symbol) as [cap|]; [|discriminate].
  destruct (cap =? 0)%float eqn:Hzero; [discriminate|]. simpl.
  intro Hflag. exists cap. repeat split; auto. exact (leb_not_nan Hflag).
Qed.

(** X26. The stocks that the market cap script plots.  When the sort gives
    back rows of its input, they are at most ten, and each belongs to a file
    that was read and has at least 50 bars, and has a symbol for which the
    fundamentals table gives a market cap that is a number, is not zero and
    is at least the threshold. *)
Theorem plotted_stocks_pass_the_filter (ta : TALib)
  (sort_values : list capped -> list capped)
  (files : list (string * result DataFrame)) (descriptions : dict)
  (fundamentals : list fundamentals_row) (cap_threshold : float)
  (sorted_analysis_df : list capped) :
  (forall l row, In row (sort_values l) -> In row l) ->
  sorted_analysis sort_values
    (fst (process_folder_capped ta files descriptions fundamentals
            cap_threshold))
  = Ok sorted_analysis_df ->
  (List.length (top_10_stocks sorted_analysis_df) <= 10)%nat
  /\ forall row, In row (top_10_stocks sorted_analysis_df) ->
       (exists data,
          In (cSymbol row, Ok data) files /\ (50 <= List.length data)%nat)
       /\ exists cap,
            market_cap_of fundamentals (cSymbol row) = Some cap
            /\ is_nan cap = false /\ (cap =? 0)%float = false
            /\ (cap_threshold <=? cap)%float = true.
Proof.
  intros Hsort Hsorted. unfold top_10_stocks.
  split; [apply firstn_le_length|]. intros row Hrow.
  assert (Hin : In row (filter Above_Cap_Threshold sorted_analysis_df)).
  { rewrite <- (firstn_skipn 10
                  (filter Above_Cap_Threshold sorted_analysis_df)).
    apply in_app_iff. left. exact Hrow. }
  apply filter_In in Hin. destruct Hin as [Hin Hflag].
  unfold sorted_analysis in Hsorted.
  destruct (fst (process_folder_capped ta files descriptions fundamentals
                   cap_threshold)) as [|r0 rows] eqn:Hrows;
    [discriminate Hsorted|].
  injection Hsorted as <-. apply Hsort in Hin. rewrite <- Hrows in Hin.
  destruct (process_folder_capped_is_process ta descriptions fundamentals
              cap_threshold files ([], [])) as [Hsame Hcaps].
  cbv zeta in Hsame, Hcaps. fold (process_folder_capped ta files descriptions
    fundamentals cap_threshold) in Hsame, Hcaps.
  cbn [map fst snd] in Hsame.
  fold (process_folder ta files descriptions) in Hsame. split.
  - assert (Hbase : In (without_cap row)
                      (fst (process_folder ta files descriptions))).
    { rewrite <- Hsame. cbn [fst]. apply in_map. exact Hin. }
    apply process_folder_rows in Hbase.
    destruct Hbase as (symbol & data & Hfile & Hlen & Ha).
    apply analyze_fields in Ha. destruct Ha as (Hs & _).
    simpl in Hs. subst symbol. exists data. auto.
  - destruct (Hcaps row Hin) as [[]|[_ Ha]]. rewrite Ha in Hflag.
    exact (flagged_cap _ _ _ Hflag).
Qed.

(** Three files, of which AAA has a market cap of two billions and CCC a
    market cap of zero: AAA alone is plotted. *)
Lemma plotted_stocks_pass_the_filter_witness :
  (List.length
     (top_10_stocks
        (fst (process_folder_capped Sample.ta_echo MoreSamples.three_files
                [] MoreSamples.caps 1e9))) <= 10)%nat
  /\ forall row,
       In row
          (top_10_stocks
             (fst (process_folder_capped Sample.ta_echo
                     MoreSamples.three_files [] MoreSamples.caps 1e9))) ->
       (exists data,
          In (cSymbol row, Ok data) MoreSamples.three_files
          /\ (50 <= List.length data)%nat)
       /\ exists cap,
            market_cap_of MoreSamples.caps (cSymbol row) = Some cap
            /\ is_nan cap = false /\ (cap =? 0)%float = false
            /\ (1e9 <=? cap)%float = true.
Proof.
  apply (@plotted_stocks_pass_the_filter Sample.ta_echo (fun l => l)
           MoreSamples.three_files [] MoreSamples.caps 1e9%float).
  - intros l row Hrow. exact Hrow.
  - reflexivity.
Defined.
